(** * cc-backend: REST job API and tag repository

    A shallow embedding of the job endpoints of the REST API
    (package [api]: [startJob], [stopJobById], [stopJobByRequest],
    [checkAndHandleStopJob], [deleteJobById], [deleteJobByRequest],
    [deleteJobBefore], [getJobs], [tagJob], [handleError]) and of the tag
    repository (package [repository], file [tags.go]: [AddTagOrCreate],
    [AddTag], [RemoveTag], [CreateTag], [CountTags], [TagId], [GetTags]).

    Handlers are functions in a state monad over the SQL tables, the HTTP
    response writer, the wait group of outstanding archivings, the
    goroutines started so far and the sequence of calls made to the
    collaborators.  Collaborators whose code is not part of the embedded
    files (the rest of the job repository, the metric archiver, the JSON
    decoder, the authorization check) are the fields of one record [Env]. *)

From Stdlib Require Import ZArith String Ascii List Bool Lia DecimalString.
Import ListNotations.
Open Scope string_scope.
Open Scope list_scope.
Open Scope Z_scope.

(** String concatenation, Go's [+] on strings. *)
Infix "+++" := String.append (right associativity, at level 60).

(** ** Machine integers *)

(** Go's conversion to a signed [w]-bit integer: reduction modulo [2^w] into
    [[-2^(w-1), 2^(w-1))]. *)
Definition wrap (w : Z) (x : Z) : Z :=
  (x + 2 ^ (w - 1)) mod 2 ^ w - 2 ^ (w - 1).

Definition int64 (x : Z) : Z := wrap 64 x.
Definition int32 (x : Z) : Z := wrap 32 x.

(** [a - b] on two [int64] operands. *)
Definition sub64 (a b : Z) : Z := int64 (a - b).

Definition in_int64 (x : Z) : Prop := - 2 ^ 63 <= x < 2 ^ 63.
Definition in_int32 (x : Z) : Prop := - 2 ^ 31 <= x < 2 ^ 31.

(** ** Strings, formatting and errors *)

Definition quote : string := String (ascii_of_nat 34) EmptyString.
Definition newline : string := String (ascii_of_nat 10) EmptyString.

(** [%d] *)
Definition fmt_d (z : Z) : string := NilZero.string_of_int (Z.to_int z).

Definition backslash : string := String (ascii_of_nat 92) EmptyString.

(** One of [0123456789abcdef]. *)
Definition hexDigit (n : Z) : string :=
  String (ascii_of_nat (Z.to_nat (if n <? 10 then 48 + n else 87 + n))) EmptyString.

(** What [strconv.Quote] writes for one byte below 0x80: the double quote
    and the backslash behind a backslash, the control characters as
    [\a \b \f \n \r \t \v] or [\xNN], the other characters as they are. *)
Definition escapedByte (c : ascii) : string :=
  let n := Z.of_nat (nat_of_ascii c) in
  if (n =? 34) || (n =? 92) then backslash +++ String c EmptyString
  else if n =? 7 then backslash +++ "a"
  else if n =? 8 then backslash +++ "b"
  else if n =? 12 then backslash +++ "f"
  else if n =? 10 then backslash +++ "n"
  else if n =? 13 then backslash +++ "r"
  else if n =? 9 then backslash +++ "t"
  else if n =? 11 then backslash +++ "v"
  else if (n <? 32) || (n =? 127)
  then backslash +++ "x" +++ hexDigit (n / 16) +++ hexDigit (n mod 16)
  else String c EmptyString.

Fixpoint escaped (s : string) : string :=
  match s with
  | EmptyString => EmptyString
  | String c rest => escapedByte c +++ escaped rest
  end.

(** [%#v] on a string, which is [strconv.Quote].  Bytes from 0x80 on are
    copied, as [Quote] does with the printable runes of valid UTF-8; it
    escapes the other runes and the invalid bytes, which needs the Unicode
    tables and is left out: what is stated about a quoted text is stated for
    strings of ASCII characters. *)
Definition fmt_sharp_v (s : string) : string := quote +++ escaped s +++ quote.

Fixpoint isASCII (s : string) : bool :=
  match s with
  | EmptyString => true
  | String c rest => (Z.of_nat (nat_of_ascii c) <? 128) && isASCII rest
  end.

(** Go [error] values.  [sql.ErrNoRows] is a sentinel compared by identity;
    every other error is known by its message. *)
Inductive error : Type :=
| ErrNoRows
| NewError (msg : string).

Definition Error (e : error) : string :=
  match e with
  | ErrNoRows => "sql: no rows in result set"
  | NewError msg => msg
  end.

(** [fmt.Errorf(prefix + "%w", err)]: a fresh error wrapping [err]. *)
Definition Errorf_w (prefix : string) (err : error) : error :=
  NewError (prefix +++ Error err).

(** [err != sql.ErrNoRows] *)
Definition isErrNoRows (e : error) : bool :=
  match e with ErrNoRows => true | NewError _ => false end.

(** [net/http.StatusText] on the codes the handlers use. *)
Definition StatusText (code : Z) : string :=
  if code =? 200 then "OK"
  else if code =? 201 then "Created"
  else if code =? 400 then "Bad Request"
  else if code =? 401 then "Unauthorized"
  else if code =? 403 then "Forbidden"
  else if code =? 404 then "Not Found"
  else if code =? 422 then "Unprocessable Entity"
  else if code =? 500 then "Internal Server Error"
  else EmptyString.

Definition StatusOK : Z := 200.
Definition StatusCreated : Z := 201.
Definition StatusBadRequest : Z := 400.
Definition StatusForbidden : Z := 403.
Definition StatusNotFound : Z := 404.
Definition StatusUnprocessableEntity : Z := 422.
Definition StatusInternalServerError : Z := 500.

(** [strconv.ParseInt(s, 10, 64)]: an optional sign followed by at least one
    decimal digit, the value within the range of [int64]. *)
Definition digit_of (c : ascii) : option Z :=
  let n := Z.of_nat (nat_of_ascii c) in
  if (48 <=? n) && (n <=? 57) then Some (n - 48) else None.

Inductive Parsed : Type :=
| ParsedValue (n : Z)
| SyntaxError
| RangeError.

(** The loop of [strconv.ParseUint] over the characters, with its [uint64]
    accumulator: it stops at the first character that is not a digit with
    a syntax error, and at the first digit that takes the number beyond
    [2^64 - 1] with a range error, whichever comes first. *)
Fixpoint parseUint (s : string) (n : Z) : Parsed :=
  match s with
  | EmptyString => ParsedValue n
  | String c rest =>
      match digit_of c with
      | None => SyntaxError
      | Some d =>
          if 10 * n + d >? 2 ^ 64 - 1 then RangeError
          else parseUint rest (10 * n + d)
      end
  end.

Definition parseInt (fn : string) (s : string) : error + Z :=
  let syntax := NewError ("strconv." +++ fn +++ ": parsing " +++ fmt_sharp_v s +++ ": invalid syntax") in
  let range := NewError ("strconv." +++ fn +++ ": parsing " +++ fmt_sharp_v s +++ ": value out of range") in
  let signed (neg : bool) (digits : string) :=
    match digits with
    | EmptyString => inl syntax
    | _ =>
        match parseUint digits 0 with
        | SyntaxError => inl syntax
        | RangeError => inl range
        | ParsedValue un =>
            if negb neg && (2 ^ 63 <=? un) then inl range
            else if neg && (2 ^ 63 <? un) then inl range
            else inr (if neg then - un else un)
        end
    end in
  match s with
  | String "-"%char rest => signed true rest
  | String "+"%char rest => signed false rest
  | _ => signed false s
  end.

Definition ParseInt : string -> error + Z := parseInt "ParseInt".

(** [strconv.Atoi], [int] being 64 bits wide. *)
Definition Atoi : string -> error + Z := parseInt "Atoi".

(** [strings.Split(s, sep)] for a separator of one character. *)
Fixpoint splitFrom (sep : ascii) (s : string) (cur : string) : list string :=
  match s with
  | EmptyString => [cur]
  | String c rest =>
      if Ascii.eqb c sep then cur :: splitFrom sep rest EmptyString
      else splitFrom sep rest (cur +++ String c EmptyString)
  end.

Definition Split (s : string) (sep : ascii) : list string :=
  splitFrom sep s EmptyString.

(** ** Data model (package [schema]) *)

Definition JobState : Type := string.

Definition JobStateRunning : JobState := "running".
Definition JobStateCompleted : JobState := "completed".

Inductive MonitoringStatus : Type :=
| MonitoringStatusDisabled
| MonitoringStatusRunningOrArchiving
| MonitoringStatusArchivingFailed
| MonitoringStatusArchivingSuccessful.

Definition MonitoringStatus_eqb (a b : MonitoringStatus) : bool :=
  match a, b with
  | MonitoringStatusDisabled, MonitoringStatusDisabled
  | MonitoringStatusRunningOrArchiving, MonitoringStatusRunningOrArchiving
  | MonitoringStatusArchivingFailed, MonitoringStatusArchivingFailed
  | MonitoringStatusArchivingSuccessful, MonitoringStatusArchivingSuccessful => true
  | _, _ => false
  end.

Record Tag : Type := mkTag {
  tag_ID : Z;
  tag_Type : string;
  tag_Name : string }.

(** One metric's summary; the float64 values are kept as their bit patterns. *)
Record JobStatistics : Type := mkJobStatistics {
  stat_Unit : string;
  stat_Avg : Z;
  stat_Min : Z;
  stat_Max : Z }.

Definition Statistics : Type := list (string * JobStatistics).

Record BaseJob : Type := mkBaseJob {
  JobID : Z;
  User : string;
  Project : string;
  Cluster : string;
  SubCluster : string;
  NumNodes : Z;
  NumHWThreads : Z;
  NumAcc : Z;
  MonitoringStatusOf : MonitoringStatus;
  State : JobState;
  Duration : Z;
  Tags : list (option Tag);  (* []*schema.Tag; [None] is a nil element *)
  MetaData : list (string * string) }.

(** [schema.Job]: a row of the [job] table.  [StartTimeUnix] is the column,
    [StartTime] the [time.Time] made from it, kept as its [Unix()] seconds. *)
Record Job : Type := mkJob {
  ID : Z;
  Base : BaseJob;
  StartTimeUnix : Z;
  StartTime : Z }.

(** [schema.JobMeta]: the job as the API receives and returns it. *)
Record JobMeta : Type := mkJobMeta {
  meta_ID : option Z;
  meta_Base : BaseJob;
  meta_StartTime : Z;
  meta_Statistics : Statistics }.

Definition set_State (b : BaseJob) (s : JobState) : BaseJob :=
  mkBaseJob (JobID b) (User b) (Project b) (Cluster b) (SubCluster b)
    (NumNodes b) (NumHWThreads b) (NumAcc b) (MonitoringStatusOf b)
    s (Duration b) (Tags b) (MetaData b).

Definition set_Duration (b : BaseJob) (d : Z) : BaseJob :=
  mkBaseJob (JobID b) (User b) (Project b) (Cluster b) (SubCluster b)
    (NumNodes b) (NumHWThreads b) (NumAcc b) (MonitoringStatusOf b)
    (State b) d (Tags b) (MetaData b).

Definition set_Tags (b : BaseJob) (t : list (option Tag)) : BaseJob :=
  mkBaseJob (JobID b) (User b) (Project b) (Cluster b) (SubCluster b)
    (NumNodes b) (NumHWThreads b) (NumAcc b) (MonitoringStatusOf b)
    (State b) (Duration b) t (MetaData b).

Definition with_Base (j : Job) (b : BaseJob) : Job :=
  mkJob (ID j) b (StartTimeUnix j) (StartTime j).

Definition meta_with_Base (m : JobMeta) (b : BaseJob) : JobMeta :=
  mkJobMeta (meta_ID m) b (meta_StartTime m) (meta_Statistics m).

(** ** The SQL tables *)

Record DB : Type := mkDB {
  job : list Job;
  tag : list Tag;
  jobtag : list (Z * Z) }.

(** ** Requests and responses *)

Record AuthUser : Type := mkAuthUser {
  Username : string;
  Roles : list string }.

Record Request : Type := mkRequest {
  ctxUser : option AuthUser;           (* auth.GetUser(r.Context()) *)
  Vars : list (string * string);       (* mux.Vars(r) *)
  Query : list (string * list string); (* r.URL.Query(), in iteration order *)
  Body : string }.

Fixpoint lookup {V : Type} (k : string) (m : list (string * V)) : option V :=
  match m with
  | [] => None
  | (k', v) :: rest => if String.eqb k k' then Some v else lookup k rest
  end.

Record ApiTag : Type := mkApiTag {
  apitag_Type : string;
  apitag_Name : string }.

Record StopJobApiRequest : Type := mkStopJobApiRequest {
  req_StopTime : Z;
  req_State : JobState;
  req_JobId : option Z;
  req_Cluster : option string;
  req_StartTime : option Z }.

(** What a handler hands to [json.NewEncoder(rw).Encode]. *)
Inductive Payload : Type :=
| ErrorResponse (Status : string) (ErrorMsg : string)
| StartJobApiResponse (DBID : Z)
| DeleteJobApiResponse (Message : string)
| JobView (j : Job)
| JobList (jobs : list JobMeta).

(** A piece of response body: a JSON document or plain text. *)
Inductive Chunk : Type :=
| JSON (p : Payload)
| Text (s : string).

Record ResponseWriter : Type := mkRW {
  header : list (string * string);
  status : option Z;
  body : list Chunk }.

Definition emptyRW : ResponseWriter := mkRW [] None [].

(** Query filters of [getJobs] (package [model]). *)
Record JobFilter : Type := mkJobFilter {
  filter_State : list JobState;
  filter_Cluster : option string;
  filter_StartTime : option (Z * Z) }.

Record PageRequest : Type := mkPageRequest {
  ItemsPerPage : Z;
  Page : Z }.

(** ** SQL statements of [tags.go] *)

Inductive Sql : Type :=
| InsertJobtag (job_id tag_id : Z)
    (* INSERT INTO jobtag (job_id, tag_id) VALUES ($1, $2) *)
| DeleteJobtag (job_id tag_id : Z)
    (* DELETE FROM jobtag WHERE jobtag.job_id = $1 AND jobtag.tag_id = $2 *)
| InsertTag (tag_type tag_name : string)
    (* INSERT INTO tag (tag_type, tag_name) VALUES ($1, $2) *)
| SelectTagId (tag_type tag_name : string)
    (* SELECT id FROM tag WHERE tag.tag_type = ? AND tag.tag_name = ? *)
| SelectTags (job_id : option Z).
    (* SELECT id, tag_type, tag_name FROM tag
       [JOIN jobtag ON jobtag.tag_id = tag.id WHERE jobtag.job_id = ?] *)

(** ** Collaborators

    Everything the embedded files call and do not define.  A function that
    reads the tables takes the [DB]; one that writes them returns the new
    [DB] as well.  [SanityChecks] and [FetchMetadata] fill fields of the job
    they receive a pointer to, so they return the job as it is after the
    call; the other functions that receive a pointer are taken to read
    through it only. *)
Record Env : Type := mkEnv {
  (* package auth *)
  HasRole : AuthUser -> string -> bool;
  RoleApi : string;
  (* encoding/json, with DisallowUnknownFields *)
  decodeJobMeta : string -> JobMeta -> error + JobMeta;
  decodeStopJob : string -> error + StopJobApiRequest;
  decodeTagJob : string -> error + list (option ApiTag);
  encodeJobsError : list JobMeta -> option error;
  (* package schema *)
  JobDefaults : BaseJob;
  Valid : JobState -> bool;
  (* package repository, files other than tags.go *)
  SanityChecks : BaseJob -> BaseJob * option error;
  FindAll : Z -> string -> option Z -> DB -> list Job * option error;
  Find : Z -> option string -> option Z -> DB -> error + Job;
  FindById : Z -> DB -> error + Job;
  Start : JobMeta -> DB -> (error + Z) * DB;
  Stop : Z -> Z -> JobState -> MonitoringStatus -> DB -> option error * DB;
  FetchMetadata : Job -> DB -> Job * option error;
  UpdateMonitoringStatus : Z -> MonitoringStatus -> DB -> option error * DB;
  Archive : Z -> MonitoringStatus -> Statistics -> DB -> option error * DB;
  DeleteJobById : Z -> DB -> option error * DB;
  DeleteJobsBefore : Z -> DB -> (Z * option error) * DB;
  QueryJobs : JobFilter -> PageRequest -> DB -> error + list Job;
  (* package metricdata and package archive *)
  ArchiveJob : Job -> error + JobMeta;
  GetStatistics : Job -> error + Statistics;
  UpdateTags : Job -> list Tag -> option error;
  (* the SQL driver: the error, if any, a statement ends with, and the id
     the engine gives to the next row of [tag] *)
  sqlError : Sql -> DB -> option error;
  LastInsertId : DB -> Z * option error }.

(** Calls to collaborators with an effect outside the handler, in the order
    they are made, and the runtime panic of a nil pointer dereference, which
    ends the handler (net/http recovers it and closes the connection). *)
Inductive Call : Type :=
| CallFindAll (jobId : Z) (cluster : string)
| CallFind (jobId : Z) (cluster : option string) (startTime : option Z)
| CallFindById (id : Z)
| CallStart (req : JobMeta)
| CallStop (id : Z) (duration : Z) (state : JobState) (ms : MonitoringStatus)
| CallFetchMetadata (j : Job)
| CallUpdateMonitoringStatus (id : Z) (ms : MonitoringStatus)
| CallArchive (id : Z) (ms : MonitoringStatus) (stats : Statistics)
| CallDeleteJobById (id : Z)
| CallDeleteJobsBefore (ts : Z)
| CallQueryJobs (f : JobFilter) (p : PageRequest)
| CallArchiveJob (j : Job)
| CallGetStatistics (j : Job)
| CallUpdateTags (j : Job) (tags : list Tag)
| CallSql (q : Sql)
| CallWaitGroupAdd (n : Z)
| CallWaitGroupDone
| CallGo (j : Job)
| RuntimePanic.

(** ** Handler state and its monad *)

Record St : Type := mkSt {
  db : DB;
  rw : ResponseWriter;
  trace : list Call;
  OngoingArchivings : Z;     (* counter of the sync.WaitGroup *)
  goroutines : list Job;     (* archivings started with [go], not yet run *)
  RepositoryMutex : bool }.  (* [true] while locked *)

Definition M (A : Type) : Type := St -> A * St.

Definition ret {A : Type} (a : A) : M A := fun s => (a, s).

Definition bind {A B : Type} (m : M A) (k : A -> M B) : M B :=
  fun s => let (a, s') := m s in k a s'.

Declare Scope go_scope.
Delimit Scope go_scope with go.
Notation "x <- m ;; k" := (bind m (fun x => k))
  (at level 100, m at next level, right associativity) : go_scope.
Notation "m ;; k" := (bind m (fun _ => k))
  (at level 100, right associativity) : go_scope.
Open Scope go_scope.

Definition exec {A : Type} (m : M A) (s : St) : St := snd (m s).
Definition eval {A : Type} (m : M A) (s : St) : A := fst (m s).

Definition modify (f : St -> St) : M unit := fun s => (tt, f s).

Definition set_db (d : DB) (s : St) : St :=
  mkSt d (rw s) (trace s) (OngoingArchivings s) (goroutines s) (RepositoryMutex s).
Definition set_rw (w : ResponseWriter) (s : St) : St :=
  mkSt (db s) w (trace s) (OngoingArchivings s) (goroutines s) (RepositoryMutex s).
Definition set_trace (t : list Call) (s : St) : St :=
  mkSt (db s) (rw s) t (OngoingArchivings s) (goroutines s) (RepositoryMutex s).
Definition set_ongoing (n : Z) (s : St) : St :=
  mkSt (db s) (rw s) (trace s) n (goroutines s) (RepositoryMutex s).
Definition set_goroutines (g : list Job) (s : St) : St :=
  mkSt (db s) (rw s) (trace s) (OngoingArchivings s) g (RepositoryMutex s).
Definition set_mutex (b : bool) (s : St) : St :=
  mkSt (db s) (rw s) (trace s) (OngoingArchivings s) (goroutines s) b.

(** Record a call. *)
Definition call (c : Call) : M unit :=
  modify (fun s => set_trace (trace s ++ [c]) s).

(** A collaborator that reads the tables. *)
Definition query {A : Type} (c : Call) (f : DB -> A) : M A :=
  call c ;; fun s => (f (db s), s).

(** A collaborator that writes the tables. *)
Definition update {A : Type} (c : Call) (f : DB -> A * DB) : M A :=
  call c ;; fun s => let (a, d) := f (db s) in (a, set_db d s).

(** A collaborator outside the database. *)
Definition extern {A : Type} (c : Call) (a : A) : M A :=
  call c ;; ret a.

(** *** [http.ResponseWriter] *)

Definition onRW (f : ResponseWriter -> ResponseWriter) : M unit :=
  modify (fun s => set_rw (f (rw s)) s).

(** [rw.Header().Add(k, v)] *)
Definition HeaderAdd (k v : string) : M unit :=
  onRW (fun w => mkRW (header w ++ [(k, v)]) (status w) (body w)).

(** [rw.Header().Set(k, v)] *)
Definition HeaderSet (k v : string) : M unit :=
  onRW (fun w =>
    mkRW (filter (fun kv => negb (String.eqb (fst kv) k)) (header w) ++ [(k, v)])
         (status w) (body w)).

(** [rw.WriteHeader(code)]: only the first call sets the status. *)
Definition WriteHeader (code : Z) : M unit :=
  onRW (fun w =>
    match status w with
    | None => mkRW (header w) (Some code) (body w)
    | Some _ => w
    end).

(** [rw.Write]: sends status 200 first if no status was sent. *)
Definition Write (c : Chunk) : M unit :=
  onRW (fun w =>
    mkRW (header w)
         (match status w with None => Some StatusOK | Some c0 => Some c0 end)
         (body w ++ [c])).

(** [json.NewEncoder(rw).Encode(v)] *)
Definition Encode (p : Payload) : M unit := Write (JSON p).

(** [http.Error(rw, msg, code)] of net/http: a plain-text body. *)
Definition httpError (msg : string) (code : Z) : M unit :=
  HeaderSet "Content-Type" "text/plain; charset=utf-8" ;;
  HeaderSet "X-Content-Type-Options" "nosniff" ;;
  WriteHeader code ;;
  Write (Text (msg +++ newline)).

(** [handleError] (the log line is not modelled). *)
Definition handleError (err : error) (statusCode : Z) : M unit :=
  HeaderAdd "Content-Type" "application/json" ;;
  WriteHeader statusCode ;;
  Encode (ErrorResponse (StatusText statusCode) (Error err)).

(** *** [sync.WaitGroup], [go] and [sync.Mutex] *)

Definition WaitGroupAdd (n : Z) : M unit :=
  call (CallWaitGroupAdd n) ;;
  modify (fun s => set_ongoing (OngoingArchivings s + n) s).

Definition WaitGroupDone : M unit :=
  call CallWaitGroupDone ;;
  modify (fun s => set_ongoing (OngoingArchivings s - 1) s).

(** [go func() { ... }()] on the archiving of [j]: the goroutine is queued,
    its body is [archiveGoroutine] below. *)
Definition go (j : Job) : M unit :=
  call (CallGo j) ;;
  modify (fun s => set_goroutines (goroutines s ++ [j]) s).

Definition Lock : M unit := modify (set_mutex true).
Definition Unlock : M unit := modify (set_mutex false).

(** How a loop of a handler ends: it ran to its end, it returned with an
    error, or it panicked. *)
Inductive Outcome (A : Type) : Type :=
| Finished (a : A)
| Failed (err : error)
| Panicked.

Arguments Finished {A} a.
Arguments Failed {A} err.
Arguments Panicked {A}.

Section Backend.

Variable E : Env.

(** ** The tag repository ([internal/repository/tags.go]) *)

(** Rows of [tag] joined with the rows of [jobtag] of one job. *)
Definition selectTags (job_id : option Z) (d : DB) : list Tag :=
  match job_id with
  | None => tag d
  | Some j =>
      flat_map
        (fun t =>
           map (fun _ => t)
               (filter (fun jt => (fst jt =? j) && (snd jt =? tag_ID t)) (jobtag d)))
        (tag d)
  end.

Definition tagMatches (tagType tagName : string) (t : Tag) : bool :=
  String.eqb (tag_Type t) tagType && String.eqb (tag_Name t) tagName.

(** [r.stmtCache.Exec] of a writing statement: the [sql.Result], known here
    by what its [LastInsertId()] answers, or the driver's error, in which
    case the tables are as before. *)
Definition sqlExec (q : Sql) : M (error + Z * option error) :=
  update (CallSql q) (fun d =>
    match sqlError E q d with
    | Some err => (inl err, d)
    | None =>
        (inr (LastInsertId E d),
         match q with
         | InsertJobtag j t => mkDB (job d) (tag d) (jobtag d ++ [(j, t)])
         | DeleteJobtag j t =>
             mkDB (job d) (tag d)
                  (filter (fun jt => negb ((fst jt =? j) && (snd jt =? t))) (jobtag d))
         | InsertTag ty nm =>
             mkDB (job d) (tag d ++ [mkTag (fst (LastInsertId E d)) ty nm]) (jobtag d)
         | SelectTagId _ _ | SelectTags _ => d
         end)
    end).

(** [TagId]: [exists] is false on any error of the query, no row included. *)
Definition TagId (tagType tagName : string) : M (Z * bool) :=
  let q := SelectTagId tagType tagName in
  r <- query (CallSql q) (fun d =>
         match sqlError E q d with
         | Some err => inl err
         | None =>
             match find (tagMatches tagType tagName) (tag d) with
             | Some t => inr (tag_ID t)
             | None => inl ErrNoRows
             end
         end) ;;
  match r with
  | inl _ => ret (0, false)
  | inr tagId => ret (tagId, true)
  end.

(** [GetTags]; an error of [rows.Scan] counts as an error of the query. *)
Definition GetTags (job : option Z) : M (list Tag * option error) :=
  let q := SelectTags job in
  query (CallSql q) (fun d =>
    match sqlError E q d with
    | Some err => ([], Some err)
    | None => (selectTags job d, None)
    end).

(** [CreateTag] *)
Definition CreateTag (tagType tagName : string) : M (Z * option error) :=
  res <- sqlExec (InsertTag tagType tagName) ;;
  match res with
  | inl err => ret (0, Some err)
  | inr lastInsertId => ret lastInsertId
  end.

(** [AddTag] *)
Definition AddTag (job tagId : Z) : M (list Tag * option error) :=
  res <- sqlExec (InsertJobtag job tagId) ;;
  match res with
  | inl err => ret ([], Some err)
  | inr _ =>
      j <- query (CallFindById job) (FindById E job) ;;
      match j with
      | inl err => ret ([], Some err)
      | inr j =>
          r <- GetTags (Some job) ;;
          match r with
          | (_, Some err) => ret ([], Some err)
          | (tags, None) =>
              uerr <- extern (CallUpdateTags j tags) (UpdateTags E j tags) ;;
              ret (tags, uerr)
          end
      end
  end.

(** [RemoveTag] *)
Definition RemoveTag (job tagId : Z) : M (list Tag * option error) :=
  res <- sqlExec (DeleteJobtag job tagId) ;;
  match res with
  | inl err => ret ([], Some err)
  | inr _ =>
      j <- query (CallFindById job) (FindById E job) ;;
      match j with
      | inl err => ret ([], Some err)
      | inr j =>
          r <- GetTags (Some job) ;;
          match r with
          | (_, Some err) => ret ([], Some err)
          | (tags, None) =>
              uerr <- extern (CallUpdateTags j tags) (UpdateTags E j tags) ;;
              ret (tags, uerr)
          end
      end
  end.

(** [AddTagOrCreate] *)
Definition AddTagOrCreate (jobId : Z) (tagType tagName : string)
  : M (Z * option error) :=
  r <- TagId tagType tagName ;;
  let (tagId, exists_) := r in
  c <- (if exists_ then ret (tagId, None) else CreateTag tagType tagName) ;;
  match c with
  | (_, Some err) => ret (0, Some err)
  | (tagId, None) =>
      a <- AddTag jobId tagId ;;
      match a with
      | (_, Some err) => ret (0, Some err)
      | (_, None) => ret (tagId, None)
      end
  end.

(** ** The REST API (package [api]) *)

(** [user := auth.GetUser(r.Context()); user != nil && !user.HasRole(auth.RoleApi)] *)
Definition missingRole (r : Request) : bool :=
  match ctxUser r with
  | Some user => negb (HasRole E user (RoleApi E))
  | None => false
  end.

Definition missingRoleError : error :=
  NewError ("missing role: " +++ fmt_sharp_v (RoleApi E)).

(** *** [startJob] *)

(** The loop over the jobs found: the first one whose start time, taken from
    the requested one in [int64], leaves less than 86400. *)
Definition isDuplicate (reqStartTime : Z) (j : Job) : bool :=
  sub64 reqStartTime (StartTimeUnix j) <? 86400.

Definition findDuplicate (reqStartTime : Z) (jobs : list Job) : option Job :=
  find (isDuplicate reqStartTime) jobs.

(** The part of [startJob] under [api.RepositoryMutex]: the duplicate check
    and the insert.  [Some id] when the row was inserted; otherwise the
    error response has been written. *)
Definition startJobLocked (req : JobMeta) : M (option Z) :=
  r <- query (CallFindAll (JobID (meta_Base req)) (Cluster (meta_Base req)))
             (FindAll E (JobID (meta_Base req)) (Cluster (meta_Base req)) None) ;;
  let (jobs, err) := r in
  let insert : M (option Z) :=
    r <- update (CallStart req) (Start E req) ;;
    match r with
    | inl err =>
        handleError (Errorf_w "insert into database failed: " err)
                    StatusInternalServerError ;;
        ret None
    | inr id => ret (Some id)
    end in
  match err with
  | Some err =>
      if isErrNoRows err then insert
      else
        handleError (Errorf_w "checking for duplicate failed: " err)
                    StatusInternalServerError ;;
        ret None
  | None =>
      match findDuplicate (meta_StartTime req) jobs with
      | Some j =>
          handleError
            (NewError ("a job with that jobId, cluster and startTime already exists: dbid: "
                       +++ fmt_d (ID j)))
            StatusUnprocessableEntity ;;
          ret None
      | None => insert
      end
  end.

(** The loop over [req.Tags]; stops at the first error, and panics at a
    nil element, reading [tag.Type] through it. *)
Fixpoint addTags (id : Z) (tags : list (option Tag)) : M (Outcome unit) :=
  match tags with
  | [] => ret (Finished tt)
  | None :: _ => call RuntimePanic ;; ret Panicked
  | Some t :: rest =>
      r <- AddTagOrCreate id (tag_Type t) (tag_Name t) ;;
      match snd r with
      | Some err => ret (Failed err)
      | None => addTags id rest
      end
  end.

(** [startJob].  The mutex is released by [unlockOnce] either right after
    the insert or, on an early return, by the deferred call; in both cases
    directly after [startJobLocked].  A panic in the loop over the tags ends
    the handler with nothing written; the deferred [unlockOnce.Do] then finds
    the mutex released already. *)
Definition startJob (r : Request) : M unit :=
  if missingRole r then handleError missingRoleError StatusForbidden
  else
    match decodeJobMeta E (Body r) (mkJobMeta None (JobDefaults E) 0 []) with
    | inl err =>
        handleError (Errorf_w "parsing request body failed: " err) StatusBadRequest
    | inr req =>
        let req :=
          if String.eqb (State (meta_Base req)) EmptyString
          then meta_with_Base req (set_State (meta_Base req) JobStateRunning)
          else req in
        let (base, serr) := SanityChecks E (meta_Base req) in
        let req := meta_with_Base req base in
        match serr with
        | Some err => handleError err StatusBadRequest
        | None =>
            Lock ;;
            o <- startJobLocked req ;;
            Unlock ;;
            match o with
            | None => ret tt
            | Some id =>
                terr <- addTags id (Tags (meta_Base req)) ;;
                match terr with
                | Failed err =>
                    httpError (Error err) StatusInternalServerError ;;
                    handleError
                      (Errorf_w ("adding tag to new job " +++ fmt_d id +++ " failed: ") err)
                      StatusInternalServerError
                | Finished _ =>
                    HeaderAdd "Content-Type" "application/json" ;;
                    WriteHeader StatusCreated ;;
                    Encode (StartJobApiResponse id)
                | Panicked => ret tt
                end
            end
        end
    end.

(** *** [checkAndHandleStopJob] and the archiving goroutine *)

Definition stopError : error :=
  NewError "stopTime must be larger than startTime and only running jobs can be stopped".

(** The body of the goroutine started by [checkAndHandleStopJob];
    [OngoingArchivings.Done()] is deferred, so it ends every path. *)
Definition archiveGoroutine (job0 : Job) : M unit :=
  (r <- query (CallFetchMetadata job0) (FetchMetadata E job0) ;;
   let (job, err) := r in
   match err with
   | Some _ =>
       update (CallUpdateMonitoringStatus (ID job) MonitoringStatusArchivingFailed)
              (UpdateMonitoringStatus E (ID job) MonitoringStatusArchivingFailed) ;;
       ret tt
   | None =>
       a <- extern (CallArchiveJob job) (ArchiveJob E job) ;;
       match a with
       | inl _ =>
           update (CallUpdateMonitoringStatus (ID job) MonitoringStatusArchivingFailed)
                  (UpdateMonitoringStatus E (ID job) MonitoringStatusArchivingFailed) ;;
           ret tt
       | inr jobMeta =>
           update (CallArchive (ID job) MonitoringStatusArchivingSuccessful
                               (meta_Statistics jobMeta))
                  (Archive E (ID job) MonitoringStatusArchivingSuccessful
                           (meta_Statistics jobMeta)) ;;
           ret tt
       end
   end) ;;
  WaitGroupDone.

(** [checkAndHandleStopJob]; [job] is the pointer the caller passes, [None]
    for [nil]. *)
Definition checkAndHandleStopJob (job : option Job) (req : StopJobApiRequest)
  : M unit :=
  match job with
  | None => handleError stopError StatusBadRequest
  | Some job =>
      if (StartTime job >=? req_StopTime req)
         || negb (String.eqb (State (Base job)) JobStateRunning)
      then handleError stopError StatusBadRequest
      else if negb (String.eqb (req_State req) EmptyString)
              && negb (Valid E (req_State req))
      then handleError (NewError ("invalid job state: " +++ fmt_sharp_v (req_State req)))
                       StatusBadRequest
      else
        let reqState :=
          if String.eqb (req_State req) EmptyString
          then JobStateCompleted else req_State req in
        let job :=
          with_Base job
            (set_Duration (Base job)
               (int32 (sub64 (req_StopTime req) (StartTime job)))) in
        let job := with_Base job (set_State (Base job) reqState) in
        err <- update (CallStop (ID job) (Duration (Base job)) (State (Base job))
                                (MonitoringStatusOf (Base job)))
                      (Stop E (ID job) (Duration (Base job)) (State (Base job))
                            (MonitoringStatusOf (Base job))) ;;
        match err with
        | Some err =>
            handleError (Errorf_w "marking job as stopped failed: " err)
                        StatusInternalServerError
        | None =>
            HeaderAdd "Content-Type" "application/json" ;;
            WriteHeader StatusOK ;;
            Encode (JobView job) ;;
            if MonitoringStatus_eqb (MonitoringStatusOf (Base job))
                                    MonitoringStatusDisabled
            then ret tt
            else WaitGroupAdd 1 ;; go job
        end
  end.

(** Run the goroutines started so far, oldest first. *)
Definition runGoroutines : M unit :=
  fun s =>
    (tt, fold_left (fun s' j => exec (archiveGoroutine j) s')
                   (goroutines s) (set_goroutines [] s)).

(** *** [stopJobById] and [stopJobByRequest] *)

Definition stopJobById (r : Request) : M unit :=
  if missingRole r then handleError missingRoleError StatusForbidden
  else
    match decodeStopJob E (Body r) with
    | inl err =>
        handleError (Errorf_w "parsing request body failed: " err) StatusBadRequest
    | inr req =>
        match lookup "id" (Vars r) with
        | Some id =>
            match ParseInt id with
            | inl e =>
                handleError (Errorf_w "integer expected in path for id: " e)
                            StatusBadRequest
            | inr id =>
                j <- query (CallFindById id) (FindById E id) ;;
                match j with
                | inl err =>
                    handleError (Errorf_w "finding job failed: " err)
                                StatusUnprocessableEntity
                | inr job => checkAndHandleStopJob (Some job) req
                end
            end
        | None =>
            handleError (NewError "the parameter 'id' is required") StatusBadRequest
        end
    end.

Definition stopJobByRequest (r : Request) : M unit :=
  if missingRole r then handleError missingRoleError StatusForbidden
  else
    match decodeStopJob E (Body r) with
    | inl err =>
        handleError (Errorf_w "parsing request body failed: " err) StatusBadRequest
    | inr req =>
        match req_JobId req with
        | None =>
            handleError (NewError "the field 'jobId' is required") StatusBadRequest
        | Some jobId =>
            j <- query (CallFind jobId (req_Cluster req) (req_StartTime req))
                       (Find E jobId (req_Cluster req) (req_StartTime req)) ;;
            match j with
            | inl err =>
                handleError (Errorf_w "finding job failed: " err)
                            StatusUnprocessableEntity
            | inr job => checkAndHandleStopJob (Some job) req
            end
        end
    end.

(** *** [deleteJobBefore] *)

Definition deleteJobBefore (r : Request) : M unit :=
  if missingRole r then handleError missingRoleError StatusForbidden
  else
    match lookup "ts" (Vars r) with
    | Some id =>
        match ParseInt id with
        | inl e =>
            handleError (Errorf_w "integer expected in path for ts: " e)
                        StatusBadRequest
        | inr ts =>
            res <- update (CallDeleteJobsBefore ts) (DeleteJobsBefore E ts) ;;
            let (cnt, err) := res in
            match err with
            | Some err =>
                handleError (Errorf_w "deleting jobs failed: " err)
                            StatusUnprocessableEntity
            | None =>
                HeaderAdd "Content-Type" "application/json" ;;
                WriteHeader StatusOK ;;
                Encode (DeleteJobApiResponse
                          ("Successfully deleted " +++ fmt_d cnt +++ " jobs"))
            end
        end
    | None =>
        handleError (NewError "the parameter 'ts' is required") StatusBadRequest
    end.

(** *** [getJobs] *)

(** The local variables the loop over the query parameters sets. *)
Record JobsQuery : Type := mkJobsQuery {
  withMetadata : bool;
  filter_ : JobFilter;
  page : PageRequest }.

(** [vals[0]]: a key of [url.Values] parsed from a URL has a value. *)
Definition first (vals : list string) : string := hd EmptyString vals.

(** The [case "state"] loop: the text of the error, or the states added. *)
Fixpoint addStates (vals : list string) (acc : list JobState)
  : string + list JobState :=
  match vals with
  | [] => inr acc
  | s :: rest =>
      if negb (Valid E s) then inl "invalid query parameter value: state"
      else addStates rest (acc ++ [s])
  end.

(** One round of [for key, vals := range r.URL.Query()]: the text given to
    [http.Error], or the variables after the round. *)
Definition queryParameter (q : JobsQuery) (key : string) (vals : list string)
  : string + JobsQuery :=
  let f := filter_ q in
  if String.eqb key "state" then
    match addStates vals (filter_State f) with
    | inl msg => inl msg
    | inr states =>
        inr (mkJobsQuery (withMetadata q)
               (mkJobFilter states (filter_Cluster f) (filter_StartTime f)) (page q))
    end
  else if String.eqb key "cluster" then
    inr (mkJobsQuery (withMetadata q)
           (mkJobFilter (filter_State f) (Some (first vals)) (filter_StartTime f))
           (page q))
  else if String.eqb key "start-time" then
    match Split (first vals) "-"%char with
    | [from; to] =>
        match ParseInt from with
        | inl err => inl (Error err)
        | inr from =>
            match ParseInt to with
            | inl err => inl (Error err)
            | inr to =>
                inr (mkJobsQuery (withMetadata q)
                       (mkJobFilter (filter_State f) (filter_Cluster f) (Some (from, to)))
                       (page q))
            end
        end
    | _ => inl "invalid query parameter value: startTime"
    end
  else if String.eqb key "page" then
    match Atoi (first vals) with
    | inl err => inl (Error err)
    | inr x => inr (mkJobsQuery (withMetadata q) f (mkPageRequest (ItemsPerPage (page q)) x))
    end
  else if String.eqb key "items-per-page" then
    match Atoi (first vals) with
    | inl err => inl (Error err)
    | inr x => inr (mkJobsQuery (withMetadata q) f (mkPageRequest x (Page (page q))))
    end
  else if String.eqb key "with-metadata" then
    inr (mkJobsQuery true f (page q))
  else inl ("invalid query parameter: " +++ key).

Fixpoint queryParameters (q : JobsQuery) (params : list (string * list string))
  : string + JobsQuery :=
  match params with
  | [] => inr q
  | (key, vals) :: rest =>
      match queryParameter q key vals with
      | inl msg => inl msg
      | inr q' => queryParameters q' rest
      end
  end.

(** The loop over the jobs found: the error given to [http.Error], or the
    results. *)
Fixpoint jobResults (withMeta : bool) (jobs : list Job) (results : list JobMeta)
  : M (error + list JobMeta) :=
  match jobs with
  | [] => ret (inr results)
  | job0 :: rest =>
      fm <- (if withMeta
             then query (CallFetchMetadata job0) (FetchMetadata E job0)
             else ret (job0, None)) ;;
      let (job, ferr) := fm in
      match ferr with
      | Some err => ret (inl err)
      | None =>
          t <- GetTags (Some (ID job)) ;;
          match t with
          | (_, Some err) => ret (inl err)
          | (tags, None) =>
              let res := mkJobMeta (Some (ID job)) (set_Tags (Base job) (map Some tags))
                                   (StartTime job) [] in
              if MonitoringStatus_eqb (MonitoringStatusOf (meta_Base res))
                                      MonitoringStatusArchivingSuccessful
              then
                st <- extern (CallGetStatistics job) (GetStatistics E job) ;;
                match st with
                | inl err => ret (inl err)
                | inr stats =>
                    jobResults withMeta rest
                      (results ++ [mkJobMeta (meta_ID res) (meta_Base res)
                                             (meta_StartTime res) stats])
                end
              else jobResults withMeta rest (results ++ [res])
          end
      end
  end.

Definition getJobs (r : Request) : M unit :=
  if missingRole r then handleError missingRoleError StatusForbidden
  else
    match queryParameters
            (mkJobsQuery false (mkJobFilter [] None None) (mkPageRequest 25 1))
            (Query r) with
    | inl msg => httpError msg StatusBadRequest
    | inr q =>
        jobs <- query (CallQueryJobs (filter_ q) (page q))
                      (QueryJobs E (filter_ q) (page q)) ;;
        match jobs with
        | inl err => httpError (Error err) StatusInternalServerError
        | inr jobs =>
            res <- jobResults (withMetadata q) jobs [] ;;
            match res with
            | inl err => httpError (Error err) StatusInternalServerError
            | inr results =>
                match encodeJobsError E results with
                | Some err => httpError (Error err) StatusInternalServerError
                | None => Encode (JobList results)
                end
            end
        end
    end.

(** *** [tagJob] *)

(** The loop over the tags of the request, a [[]*ApiTag]: the tags of the
    job with those added, or the error; a nil element makes it panic. *)
Fixpoint tagLoop (id : Z) (req : list (option ApiTag)) (added : list Tag)
  : M (Outcome (list Tag)) :=
  match req with
  | [] => ret (Finished added)
  | None :: _ => call RuntimePanic ;; ret Panicked
  | Some t :: rest =>
      r <- AddTagOrCreate id (apitag_Type t) (apitag_Name t) ;;
      match r with
      | (_, Some err) => ret (Failed err)
      | (tagId, None) =>
          tagLoop id rest (added ++ [mkTag tagId (apitag_Type t) (apitag_Name t)])
      end
  end.

Definition tagJob (r : Request) : M unit :=
  if missingRole r then handleError missingRoleError StatusForbidden
  else
    match ParseInt (match lookup "id" (Vars r) with Some v => v | None => EmptyString end) with
    | inl err => httpError (Error err) StatusBadRequest
    | inr iid =>
        j <- query (CallFindById iid) (FindById E iid) ;;
        match j with
        | inl err => httpError (Error err) StatusNotFound
        | inr job =>
            t <- GetTags (Some (ID job)) ;;
            match t with
            | (_, Some err) => httpError (Error err) StatusInternalServerError
            | (tags, None) =>
                match decodeTagJob E (Body r) with
                | inl err => httpError (Error err) StatusBadRequest
                | inr req =>
                    a <- tagLoop (ID job) req tags ;;
                    match a with
                    | Failed err => httpError (Error err) StatusInternalServerError
                    | Finished tags' =>
                        HeaderAdd "Content-Type" "application/json" ;;
                        WriteHeader StatusOK ;;
                        Encode (JobView (with_Base job
                                  (set_Tags (Base job) (map Some tags'))))
                    | Panicked => ret tt
                    end
                end
            end
        end
    end.

(** *** [deleteJobById] and [deleteJobByRequest] *)

(** [deleteJobById].  The message is formatted with [%s] from the outer
    [id], the path variable as written; the parsed integer is only handed
    to [DeleteJobById]. *)
Definition deleteJobById (r : Request) : M unit :=
  if missingRole r then handleError missingRoleError StatusForbidden
  else
    match lookup "id" (Vars r) with
    | Some text =>
        match ParseInt text with
        | inl e =>
            handleError (Errorf_w "integer expected in path for id: " e)
                        StatusBadRequest
        | inr id =>
            err <- update (CallDeleteJobById id) (DeleteJobById E id) ;;
            match err with
            | Some err =>
                handleError (Errorf_w "deleting job failed: " err)
                            StatusUnprocessableEntity
            | None =>
                HeaderAdd "Content-Type" "application/json" ;;
                WriteHeader StatusOK ;;
                Encode (DeleteJobApiResponse ("Successfully deleted job " +++ text))
            end
        end
    | None =>
        handleError (NewError "the parameter 'id' is required") StatusBadRequest
    end.

Record DeleteJobApiRequest : Type := mkDeleteJobApiRequest {
  del_JobId : option Z;
  del_Cluster : option string;
  del_StartTime : option Z }.

(** [decode(r.Body, &req)] on a [DeleteJobApiRequest]. *)
Variable decodeDeleteJob : string -> error + DeleteJobApiRequest.

Definition deleteJobByRequest (r : Request) : M unit :=
  if missingRole r then handleError missingRoleError StatusForbidden
  else
    match decodeDeleteJob (Body r) with
    | inl err =>
        handleError (Errorf_w "parsing request body failed: " err) StatusBadRequest
    | inr req =>
        match del_JobId req with
        | None =>
            handleError (NewError "the field 'jobId' is required") StatusBadRequest
        | Some jobId =>
            j <- query (CallFind jobId (del_Cluster req) (del_StartTime req))
                       (Find E jobId (del_Cluster req) (del_StartTime req)) ;;
            match j with
            | inl err =>
                handleError (Errorf_w "finding job failed: " err)
                            StatusUnprocessableEntity
            | inr job =>
                err <- update (CallDeleteJobById (ID job)) (DeleteJobById E (ID job)) ;;
                match err with
                | Some err =>
                    handleError (Errorf_w "deleting job failed: " err)
                                StatusUnprocessableEntity
                | None =>
                    HeaderAdd "Content-Type" "application/json" ;;
                    WriteHeader StatusOK ;;
                    Encode (DeleteJobApiResponse
                              ("Successfully deleted job " +++ fmt_d (ID job)))
                end
            end
        end
    end.

End Backend.

(** ** [CountTags] ([internal/repository/tags.go])

    [CountTags] only reads the tables; it is a function of them. *)
Section CountTags.

(** The two queries of [CountTags]. *)
Inductive CountSql : Type :=
| SelectAllTags
    (* SELECT * FROM tag *)
| SelectTagCounts (user : option string).
    (* SELECT t.tag_name, count(jt.tag_id) FROM tag t
       LEFT JOIN jobtag jt ON t.id = jt.tag_id
       [WHERE jt.job_id IN (SELECT id FROM job WHERE job.user = ?)]
       GROUP BY t.tag_name *)

(** The error, if any, a query or the scan of one of its rows ends with,
    and what [rows.Err()] answers after the last row. *)
Variable countError : CountSql -> DB -> option error.
Variable rowsErr : DB -> option error.

(** [tag t LEFT JOIN jobtag jt ON t.id = jt.tag_id]: a tag no row of
    [jobtag] refers to is kept once, with no [jt]. *)
Definition leftJoin (d : DB) : list (Tag * option (Z * Z)) :=
  flat_map
    (fun t =>
       match filter (fun jt => tag_ID t =? snd jt) (jobtag d) with
       | [] => [(t, None)]
       | jts => map (fun jt => (t, Some jt)) jts
       end)
    (tag d).

(** [jt.job_id IN (SELECT id FROM job WHERE job.user = ?)]; not true of a
    row without [jt]. *)
Definition jobOfUser (user : string) (d : DB) (row : Tag * option (Z * Z)) : bool :=
  match snd row with
  | None => false
  | Some jt =>
      existsb (fun j => (ID j =? fst jt) && String.eqb (User (Base j)) user) (job d)
  end.

Definition countedRows (user : option string) (d : DB) : list (Tag * option (Z * Z)) :=
  match user with
  | None => leftJoin d
  | Some u => filter (jobOfUser u d) (leftJoin d)
  end.

Definition hasJt (row : Tag * option (Z * Z)) : bool :=
  match snd row with Some _ => true | None => false end.

(** [GROUP BY t.tag_name] with [count(jt.tag_id)]: one row per name, with
    the number of rows of the group that have a [jt]. *)
Definition groupByName (rows : list (Tag * option (Z * Z))) : list (string * Z) :=
  map (fun name =>
         (name,
          Z.of_nat (length (filter (fun row => String.eqb (tag_Name (fst row)) name
                                               && hasJt row) rows))))
      (nodup string_dec (map (fun row => tag_Name (fst row)) rows)).

(** [CountTags]: the tags, the map from tag name to count, kept as the list
    of its entries, and the error. *)
Definition CountTags (user : option string) (d : DB)
  : list Tag * list (string * Z) * option error :=
  match countError SelectAllTags d with
  | Some err => ([], [], Some err)
  | None =>
      match countError (SelectTagCounts user) d with
      | Some err => ([], [], Some err)
      | None => (tag d, groupByName (countedRows user d), rowsErr d)
      end
  end.

End CountTags.

Arguments selectTags : simpl never.

(** ** Serving one request *)

(** The state a handler starts in: the tables as they are, a new response
    writer, no call made yet, no archiving outstanding. *)
Definition initial (d : DB) : St := mkSt d emptyRW [] 0 [] false.

Definition serve {A : Type} (h : M A) (d : DB) : St := exec h (initial d).

(** The body of an error response of [handleError]. *)
Definition errorBody (statusCode : Z) (err : error) : list Chunk :=
  [JSON (ErrorResponse (StatusText statusCode) (Error err))].

(** Kinds of calls. *)
Definition isStop (c : Call) : bool :=
  match c with CallStop _ _ _ _ => true | _ => false end.
Definition isArchiveJob (c : Call) : bool :=
  match c with CallArchiveJob _ => true | _ => false end.
Definition isArchive (c : Call) : bool :=
  match c with CallArchive _ _ _ => true | _ => false end.
Definition isWaitGroupAdd (c : Call) : bool :=
  match c with CallWaitGroupAdd _ => true | _ => false end.
Definition isGo (c : Call) : bool :=
  match c with CallGo _ => true | _ => false end.
Definition isFindAll (c : Call) : bool :=
  match c with CallFindAll _ _ => true | _ => false end.
Definition isStart (c : Call) : bool :=
  match c with CallStart _ => true | _ => false end.

(** *** Validation of a start request, as [startJob] performs it *)

(** [if req.State == "" { req.State = schema.JobStateRunning }] *)
Definition withDefaultState (req : JobMeta) : JobMeta :=
  if String.eqb (State (meta_Base req)) EmptyString
  then meta_with_Base req (set_State (meta_Base req) JobStateRunning)
  else req.

(** The error the validation of the body ends with, if any: the body does
    not decode, or the decoded job does not pass [SanityChecks]. *)
Definition validationError (E : Env) (r : Request) : option error :=
  match decodeJobMeta E (Body r) (mkJobMeta None (JobDefaults E) 0 []) with
  | inl err => Some (Errorf_w "parsing request body failed: " err)
  | inr req => snd (SanityChecks E (meta_Base (withDefaultState req)))
  end.

(** The job [startJob] goes on with once the validation has passed. *)
Definition validated (E : Env) (r : Request) : option JobMeta :=
  match decodeJobMeta E (Body r) (mkJobMeta None (JobDefaults E) 0 []) with
  | inl _ => None
  | inr req =>
      match SanityChecks E (meta_Base (withDefaultState req)) with
      | (_, Some _) => None
      | (base, None) => Some (meta_with_Base (withDefaultState req) base)
      end
  end.

(** ** A job repository to run the handlers on

    The files of the repository that hold these functions are not among the
    embedded ones; the definitions below follow the contracts the
    specification gives for them and serve to run the handlers on concrete
    requests. *)
Module Model.

(** What the collaborators outside the database answer during one
    request. *)
Record Scenario : Type := mkScenario {
  startBody : error + JobMeta;          (* the decoded body of a start request *)
  stopBody : error + StopJobApiRequest; (* the decoded body of a stop request *)
  tagBody : error + list (option ApiTag); (* the decoded body of a tag request *)
  fault : Call -> option error;         (* the calls that fail, with their error *)
  archived : Statistics }.              (* the statistics the archiver computes *)

(** Modelled from the spec: the role check of the authorization
    collaborator, absent from the sources; the requester has a role when it
    is among its roles. *)
Definition HasRole (u : AuthUser) (role : string) : bool :=
  existsb (String.eqb role) (Roles u).

(** Modelled from the spec: [JobState.Valid], absent from the sources;
    running and the five terminal states. *)
Definition Valid (s : JobState) : bool :=
  existsb (String.eqb s)
    ["running"; "completed"; "failed"; "cancelled"; "stopped"; "timeout"].

(** Modelled from the spec: [SanityChecks], absent from the sources;
    required fields present, resource counts non-negative, state known. *)
Definition SanityChecks (b : BaseJob) : BaseJob * option error :=
  if String.eqb (User b) EmptyString || String.eqb (Cluster b) EmptyString
  then (b, Some (NewError "missing required field"))
  else if (NumNodes b <? 0) || (NumHWThreads b <? 0) || (NumAcc b <? 0)
  then (b, Some (NewError "negative resource count"))
  else if negb (Valid (State b))
  then (b, Some (NewError "invalid job state"))
  else (b, None).

Section Repository.

Variable sc : Scenario.

Definition sameKey (jobId : Z) (cluster : option string) (startTime : option Z)
  (j : Job) : bool :=
  (JobID (Base j) =? jobId)
  && match cluster with Some c => String.eqb (Cluster (Base j)) c | None => true end
  && match startTime with Some t => StartTimeUnix j =? t | None => true end.

(** Modelled from the spec: [FindAll], absent from the sources; the jobs
    matching (external id, cluster) and, when given, the start time. *)
Definition FindAll (jobId : Z) (cluster : string) (startTime : option Z) (d : DB)
  : list Job * option error :=
  match fault sc (CallFindAll jobId cluster) with
  | Some err => ([], Some err)
  | None => (filter (sameKey jobId (Some cluster) startTime) (job d), None)
  end.

(** Modelled from the spec: [Find], absent from the sources; the job with
    that natural key, [sql.ErrNoRows] when there is none. *)
Definition Find (jobId : Z) (cluster : option string) (startTime : option Z) (d : DB)
  : error + Job :=
  match fault sc (CallFind jobId cluster startTime) with
  | Some err => inl err
  | None =>
      match find (sameKey jobId cluster startTime) (job d) with
      | Some j => inr j
      | None => inl ErrNoRows
      end
  end.

(** Modelled from the spec: [FindById], absent from the sources. *)
Definition FindById (id : Z) (d : DB) : error + Job :=
  match fault sc (CallFindById id) with
  | Some err => inl err
  | None =>
      match find (fun j => ID j =? id) (job d) with
      | Some j => inr j
      | None => inl ErrNoRows
      end
  end.

Definition nextId (ids : list Z) : Z := 1 + fold_right Z.max 0 ids.

(** Modelled from the spec: [Start], absent from the sources; inserts the
    job row and returns its new database id. *)
Definition Start (req : JobMeta) (d : DB) : (error + Z) * DB :=
  match fault sc (CallStart req) with
  | Some err => (inl err, d)
  | None =>
      let id := nextId (map ID (job d)) in
      (inr id,
       mkDB (job d ++ [mkJob id (meta_Base req) (meta_StartTime req) (meta_StartTime req)])
            (tag d) (jobtag d))
  end.

Definition onJob (id : Z) (f : BaseJob -> BaseJob) (d : DB) : DB :=
  mkDB (map (fun j => if ID j =? id then with_Base j (f (Base j)) else j) (job d))
       (tag d) (jobtag d).

Definition set_MonitoringStatus (ms : MonitoringStatus) (b : BaseJob) : BaseJob :=
  mkBaseJob (JobID b) (User b) (Project b) (Cluster b) (SubCluster b)
    (NumNodes b) (NumHWThreads b) (NumAcc b) ms
    (State b) (Duration b) (Tags b) (MetaData b).

(** Modelled from the spec: [Stop], absent from the sources; persists
    (duration, final state, monitoring status) on the job's row. *)
Definition Stop (id duration : Z) (state : JobState) (ms : MonitoringStatus) (d : DB)
  : option error * DB :=
  match fault sc (CallStop id duration state ms) with
  | Some err => (Some err, d)
  | None =>
      (None,
       onJob id (fun b => set_MonitoringStatus ms (set_State (set_Duration b duration) state)) d)
  end.

(** Modelled from the spec: [FetchMetadata], absent from the sources; the
    auxiliary metadata is the one stored with the row. *)
Definition FetchMetadata (j : Job) (d : DB) : Job * option error :=
  (j, fault sc (CallFetchMetadata j)).

(** Modelled from the spec: [UpdateMonitoringStatus], absent from the
    sources. *)
Definition UpdateMonitoringStatus (id : Z) (ms : MonitoringStatus) (d : DB)
  : option error * DB :=
  match fault sc (CallUpdateMonitoringStatus id ms) with
  | Some err => (Some err, d)
  | None => (None, onJob id (set_MonitoringStatus ms) d)
  end.

(** Modelled from the spec: [Archive], absent from the sources; the final
    update of the monitoring status (the statistics columns are not part of
    [Job]). *)
Definition Archive (id : Z) (ms : MonitoringStatus) (stats : Statistics) (d : DB)
  : option error * DB :=
  match fault sc (CallArchive id ms stats) with
  | Some err => (Some err, d)
  | None => (None, onJob id (set_MonitoringStatus ms) d)
  end.

(** Modelled from the spec: [DeleteJobById], absent from the sources. *)
Definition DeleteJobById (id : Z) (d : DB) : option error * DB :=
  match fault sc (CallDeleteJobById id) with
  | Some err => (Some err, d)
  | None =>
      (None, mkDB (filter (fun j => negb (ID j =? id)) (job d)) (tag d) (jobtag d))
  end.

(** Modelled from the spec: [DeleteJobsBefore], absent from the sources;
    removes the jobs whose start time is before the timestamp and returns
    how many they were. *)
Definition DeleteJobsBefore (ts : Z) (d : DB) : (Z * option error) * DB :=
  match fault sc (CallDeleteJobsBefore ts) with
  | Some err => ((0, Some err), d)
  | None =>
      ((Z.of_nat (length (filter (fun j => StartTimeUnix j <? ts) (job d))), None),
       mkDB (filter (fun j => negb (StartTimeUnix j <? ts)) (job d)) (tag d) (jobtag d))
  end.

Definition matchesFilter (f : JobFilter) (j : Job) : bool :=
  match filter_State f with
  | [] => true
  | states => existsb (String.eqb (State (Base j))) states
  end
  && match filter_Cluster f with
     | Some c => String.eqb (Cluster (Base j)) c
     | None => true
     end
  && match filter_StartTime f with
     | Some (from, to) => (from <=? StartTimeUnix j) && (StartTimeUnix j <=? to)
     | None => true
     end.

(** Modelled from the spec: [QueryJobs], absent from the sources; the jobs
    passing the filter (paging and ordering left out). *)
Definition QueryJobs (f : JobFilter) (p : PageRequest) (d : DB) : error + list Job :=
  match fault sc (CallQueryJobs f p) with
  | Some err => inl err
  | None => inr (filter (matchesFilter f) (job d))
  end.

(** Modelled from the spec: the Metric Archiver, [ArchiveJob(job) ->
    (summaryStatistics, error)], absent from the sources. *)
Definition ArchiveJob (j : Job) : error + JobMeta :=
  match fault sc (CallArchiveJob j) with
  | Some err => inl err
  | None => inr (mkJobMeta (Some (ID j)) (Base j) (StartTime j) (archived sc))
  end.

(** Modelled from the spec: the constraints of the [tag] table, whose
    schema is absent from the sources; a tag is globally unique per (type,
    name), so inserting a second one fails. *)
Definition sqlError (q : Sql) (d : DB) : option error :=
  match fault sc (CallSql q) with
  | Some err => Some err
  | None =>
      match q with
      | InsertTag ty nm =>
          if existsb (tagMatches ty nm) (tag d)
          then Some (NewError "UNIQUE constraint failed: tag.tag_type, tag.tag_name")
          else None
      | _ => None
      end
  end.

Definition env : Env :=
  mkEnv HasRole "api"
        (fun _ _ => startBody sc) (fun _ => stopBody sc) (fun _ => tagBody sc)
        (fun _ => None)
        (mkBaseJob 0 EmptyString EmptyString EmptyString EmptyString 0 0 0
                   MonitoringStatusRunningOrArchiving EmptyString 0 [] [])
        Valid SanityChecks
        FindAll Find FindById Start Stop FetchMetadata UpdateMonitoringStatus
        Archive DeleteJobById DeleteJobsBefore QueryJobs
        ArchiveJob
        (fun j => match fault sc (CallGetStatistics j) with
                  | Some err => inl err | None => inr (archived sc) end)
        (fun j tags => fault sc (CallUpdateTags j tags))
        sqlError
        (fun d => (nextId (map tag_ID (tag d)), None)).

End Repository.

(** A scenario without failures in which the bodies decode to the given
    requests. *)
Definition quiet (start : error + JobMeta) (stop : error + StopJobApiRequest)
  : Scenario :=
  mkScenario start stop (inr []) (fun _ => None) [].

Definition noBody {A : Type} : error + A := inl (NewError "EOF").

End Model.

(** ** Example data *)

Definition fritzBase : BaseJob :=
  mkBaseJob 123000 "alice" "hpc" "fritz" "main" 1 72 0
            MonitoringStatusRunningOrArchiving "running" 0 [] [].

(** The job of the scenario of the specification: external id 123000 on
    cluster fritz, started at 1649723812, database id 1. *)
Definition fritzJob : Job := mkJob 1 fritzBase 1649723812 1649723812.

Definition fritzDB : DB := mkDB [fritzJob] [] [].

Definition stopRequest (stopTime : Z) (state : JobState) : StopJobApiRequest :=
  mkStopJobApiRequest stopTime state None None None.

Definition startRequest (startTime : Z) : JobMeta :=
  mkJobMeta None fritzBase startTime [].

(** A request without an authenticated user and without parameters. *)
Definition anonymous : Request := mkRequest None [] [] EmptyString.

(** The environment in which nothing fails and no body decodes. *)
Definition quietEnv : Env := Model.env (Model.quiet Model.noBody Model.noBody).

Definition okHeader : list (string * string) := [("Content-Type", "application/json")].

(** A job whose monitoring is disabled. *)
Definition disabledJob : Job :=
  mkJob 1 (mkBaseJob 123000 "alice" "hpc" "fritz" "main" 1 72 0
                     MonitoringStatusDisabled "running" 0 [] [])
        1649723812 1649723812.

(** An environment in which the archiver fails. *)
Definition archiverDown : Env :=
  Model.env (Model.mkScenario Model.noBody Model.noBody (inr [])
               (fun c => if isArchiveJob c
                         then Some (NewError "metric data repository unreachable")
                         else None)
               []).

(** A job started before the scenario's job. *)
Definition olderJob : Job :=
  mkJob 2 (mkBaseJob 122000 "bob" "hpc" "fritz" "main" 2 144 0
                     MonitoringStatusArchivingSuccessful "completed" 3600 [] [])
        1649000000 1649000000.

(** A request rejected with [code] and [err] through [handleError] that
    left the tables as they were and did not call [Stop]. *)
Definition rejectedWith (code : Z) (err : error) (d : DB) (s' : St) : Prop :=
  status (rw s') = Some code
  /\ body (rw s') = errorBody code err
  /\ db s' = d
  /\ existsb isStop (trace s') = false.

(** The environment in which nothing fails and the body of a stop request
    decodes to [req]. *)
Definition stopEnv (req : StopJobApiRequest) : Env :=
  Model.env (Model.quiet Model.noBody (inr req)).

(** The store keeps (type, name) unique: the driver refuses to insert a
    tag whose type and name a row already has. *)
Definition uniqueTags (E : Env) : Prop :=
  forall (d : DB) (tagType tagName : string) (t : Tag),
    In t (tag d) -> tag_Type t = tagType -> tag_Name t = tagName ->
    sqlError E (InsertTag tagType tagName) d <> None.

(** *** The outcome of a stop, as [checkAndHandleStopJob] computes it *)

Definition finalState (req : StopJobApiRequest) : JobState :=
  if String.eqb (req_State req) EmptyString then JobStateCompleted else req_State req.

Definition stoppedDuration (j : Job) (req : StopJobApiRequest) : Z :=
  int32 (sub64 (req_StopTime req) (StartTime j)).

Definition stoppedJob (j : Job) (req : StopJobApiRequest) : Job :=
  with_Base j (set_State (set_Duration (Base j) (stoppedDuration j req)) (finalState req)).

Definition stopAccepted (E : Env) (j : Job) (req : StopJobApiRequest) : bool :=
  negb ((StartTime j >=? req_StopTime req)
        || negb (String.eqb (State (Base j)) JobStateRunning))
  && negb (negb (String.eqb (req_State req) EmptyString)
           && negb (Valid E (req_State req))).

Definition stopCall (j : Job) (req : StopJobApiRequest) : Call :=
  CallStop (ID j) (stoppedDuration j req) (finalState req) (MonitoringStatusOf (Base j)).

(** The entry of the list [getJobs] returns that stands for the job [j0] of
    the query: the job as [FetchMetadata] leaves it when metadata was asked
    for, with the tags the store has for it, and with statistics only when
    its monitoring status is archiving-successful. *)
Definition resultOf (E : Env) (withMeta : bool) (d : DB) (j0 : Job) (res : JobMeta)
  : Prop :=
  let j := if withMeta then fst (FetchMetadata E j0 d) else j0 in
  meta_ID res = Some (ID j)
  /\ meta_StartTime res = StartTime j
  /\ meta_Base res = set_Tags (Base j) (map Some (selectTags (Some (ID j)) d))
  /\ (if MonitoringStatus_eqb (MonitoringStatusOf (Base j))
                              MonitoringStatusArchivingSuccessful
      then GetStatistics E j = inr (meta_Statistics res)
      else meta_Statistics res = []).

(** The calls [getJobs] makes for the job [j0] of the query, in order:
    [FetchMetadata] only when metadata was asked for, the query of
    [GetTags], and [archive.GetStatistics] only when the monitoring status
    is archiving-successful. *)
Definition callsFor (E : Env) (withMeta : bool) (d : DB) (j0 : Job) : list Call :=
  let j := if withMeta then fst (FetchMetadata E j0 d) else j0 in
  (if withMeta then [CallFetchMetadata j0] else [])
  ++ CallSql (SelectTags (Some (ID j)))
     :: (if MonitoringStatus_eqb (MonitoringStatusOf (Base j))
                                 MonitoringStatusArchivingSuccessful
         then [CallGetStatistics j] else []).

(** The job with database id [jobId] belongs to [user]. *)
Definition ownedBy (user : string) (d : DB) (jobId : Z) : bool :=
  existsb (fun j => (ID j =? jobId) && String.eqb (User (Base j)) user) (job d).

(** The number of pairs of a row of [tag] with the name [name] and a row of
    [jobtag] that refers to it and whose job passes [keep]. *)
Definition associations (keep : Z -> bool) (d : DB) (name : string) : Z :=
  Z.of_nat
    (length
       (filter (fun p : Tag * (Z * Z) =>
                  String.eqb (tag_Name (fst p)) name
                  && (tag_ID (fst p) =? snd (snd p))
                  && keep (fst (snd p)))
               (list_prod (tag d) (jobtag d)))).

(** The store of the scenario with a tag attached to its job. *)
Definition taggedDB : DB := mkDB [fritzJob] [mkTag 7 "Debug" "Testjob"] [(1, 7)].

(** *** What a part of a handler leaves alone *)

(** The tables are as before. *)
Definition keepsDB {A : Type} (m : M A) : Prop :=
  forall s, db (snd (m s)) = db s.

(** The rows of [job] are as before. *)
Definition keepsJobs {A : Type} (m : M A) : Prop :=
  forall s, job (db (snd (m s))) = job (db s).

(** The response, the wait group, the goroutines and the mutex are as
    before. *)
Definition keepsServer {A : Type} (m : M A) : Prop :=
  forall s,
    rw (snd (m s)) = rw s
    /\ OngoingArchivings (snd (m s)) = OngoingArchivings s
    /\ goroutines (snd (m s)) = goroutines s
    /\ RepositoryMutex (snd (m s)) = RepositoryMutex s.

(** The mutex is as before. *)
Definition keepsLock {A : Type} (m : M A) : Prop :=
  forall s, RepositoryMutex (snd (m s)) = RepositoryMutex s.

(** The calls made so far stay; new ones come after them. *)
Definition extendsTrace {A : Type} (m : M A) : Prop :=
  forall s, exists calls, trace (snd (m s)) = trace s ++ calls.

(** The keys [getJobs] knows. *)
Definition knownParameters : list string :=
  ["state"; "cluster"; "start-time"; "page"; "items-per-page"; "with-metadata"].

(** A store whose lookup of a tag id fails. *)
Definition lookupDown : Env :=
  Model.env (Model.mkScenario Model.noBody Model.noBody (inr [])
               (fun c => match c with
                         | CallSql (SelectTagId _ _) => Some (NewError "database is locked")
                         | _ => None
                         end)
               []).

(** A store that refuses to mark a job as stopped. *)
Definition storeDown : Env :=
  Model.env (Model.mkScenario Model.noBody Model.noBody (inr [])
               (fun c => if isStop c then Some (NewError "database is locked") else None)
               []).


(** The tags [tagJob] appends to the ones the job has: one for each tag of
    the request, in its order, with the id [AddTagOrCreate] returned. *)
Definition requestedTags (ids : list Z) (req : list ApiTag) : list Tag :=
  map (fun p => mkTag (fst p) (apitag_Type (snd p)) (apitag_Name (snd p)))
      (combine ids req).

(** The ids that [AddTagOrCreate] returns when it is run for the tags [req]
    one after the other from the state [s], as the loop of [tagJob] does. *)
Fixpoint returnedIds (E : Env) (jobId : Z) (req : list ApiTag) (s : St) : list Z :=
  match req with
  | [] => []
  | t :: rest =>
      let r := AddTagOrCreate E jobId (apitag_Type t) (apitag_Name t) s in
      fst (fst r) :: returnedIds E jobId rest (snd r)
  end.

(** The state in which [tagJob] enters its loop, serving a request on the
    tables [d]: the job has been looked up and its tags read. *)
Definition beforeTagLoop (iid : Z) (job : Job) (d : DB) : St :=
  mkSt d emptyRW [CallFindById iid; CallSql (SelectTags (Some (ID job)))] 0 [] false.


(** An environment in which nothing fails and the body of a tag request
    names two tags. *)
Definition taggingEnv : Env :=
  Model.env (Model.mkScenario Model.noBody Model.noBody
               (inr [Some (mkApiTag "bench" "stream"); Some (mkApiTag "app" "lammps")])
               (fun _ => None) []).


(** ** Properties *)

Lemma handleError_fresh (err : error) (code : Z) (d : DB) :
  serve (handleError err code) d
  = mkSt d (mkRW [("Content-Type", "application/json")] (Some code)
                 (errorBody code err)) [] 0 [] false.
Proof. reflexivity. Qed.

(** [checkAndHandleStopJob] on a job that is missing, or whose start time is
    not before the requested stop time, or that is not running, does what
    [handleError] does with status 400: no collaborator is called. *)
Lemma checkAndHandleStopJob_rejects
  (E : Env) (job : option Job) (req : StopJobApiRequest) (s : St) :
  job = None
  \/ (exists j, job = Some j /\ req_StopTime req <= StartTime j)
  \/ (exists j, job = Some j /\ State (Base j) <> JobStateRunning) ->
  exec (checkAndHandleStopJob E job req) s
  = exec (handleError stopError StatusBadRequest) s.
Proof.
  intros H. unfold checkAndHandleStopJob.
  destruct H as [-> | [(j & -> & Hle) | (j & -> & Hst)]].
  - reflexivity.
  - replace (StartTime j >=? req_StopTime req) with true
      by (symmetry; apply Z.geb_le; lia).
    reflexivity.
  - replace (String.eqb (State (Base j)) JobStateRunning) with false
      by (symmetry; apply String.eqb_neq; exact Hst).
    rewrite orb_true_r. reflexivity.
Qed.

(** The lookup of an endpoint followed by [checkAndHandleStopJob]. *)
Lemma stop_after_lookup
  (E : Env) (c : Call) (found : error + Job) (req : StopJobApiRequest) (d : DB) :
  isStop c = false ->
  let s' :=
    serve (j <- query c (fun _ => found) ;;
           match j with
           | inl err =>
               handleError (Errorf_w "finding job failed: " err)
                           StatusUnprocessableEntity
           | inr job => checkAndHandleStopJob E (Some job) req
           end) d in
  match found with
  | inl err =>
      rejectedWith StatusUnprocessableEntity
                   (Errorf_w "finding job failed: " err) d s'
  | inr j =>
      req_StopTime req <= StartTime j \/ State (Base j) <> JobStateRunning ->
      rejectedWith StatusBadRequest stopError d s'
  end.
Proof.
  intros Hc. cbv zeta. unfold serve, exec.
  unfold bind, query, call, modify, bind. simpl.
  destruct found as [err|j].
  - repeat split. simpl. rewrite Hc. reflexivity.
  - intros H.
    change (rejectedWith StatusBadRequest stopError d
              (exec (checkAndHandleStopJob E (Some j) req)
                    (mkSt d emptyRW [c] 0 [] false))).
    rewrite checkAndHandleStopJob_rejects.
    + repeat split. simpl. rewrite Hc. reflexivity.
    + right. destruct H as [H | H]; [left | right]; exists j; auto.
Qed.

(** C2, amended.  A stop request that the role check lets through and whose
    body decodes, on either endpoint: when the lookup of the job fails, the
    response is 422 with the lookup's error; when the job is found and the
    stop time is not after its start time, or it is not running, the
    response is 400; in both cases the tables are as before and [Stop] is
    not called.  [checkAndHandleStopJob] itself answers a [nil] job with
    that same 400. *)
Theorem stop_rejected_leaves_job_unchanged
  (E : Env) (r : Request) (req : StopJobApiRequest) (d : DB) :
  missingRole E r = false ->
  decodeStopJob E (Body r) = inr req ->
  (forall text id,
      lookup "id" (Vars r) = Some text ->
      ParseInt text = inr id ->
      match FindById E id d with
      | inl err =>
          rejectedWith StatusUnprocessableEntity
                       (Errorf_w "finding job failed: " err) d
                       (serve (stopJobById E r) d)
      | inr j =>
          req_StopTime req <= StartTime j \/ State (Base j) <> JobStateRunning ->
          rejectedWith StatusBadRequest stopError d (serve (stopJobById E r) d)
      end)
  /\ (forall jobId,
        req_JobId req = Some jobId ->
        match Find E jobId (req_Cluster req) (req_StartTime req) d with
        | inl err =>
            rejectedWith StatusUnprocessableEntity
                         (Errorf_w "finding job failed: " err) d
                         (serve (stopJobByRequest E r) d)
        | inr j =>
            req_StopTime req <= StartTime j \/ State (Base j) <> JobStateRunning ->
            rejectedWith StatusBadRequest stopError d (serve (stopJobByRequest E r) d)
        end)
  /\ rejectedWith StatusBadRequest stopError d
                  (serve (checkAndHandleStopJob E None req) d).
Proof.
  intros Hrole Hdec. split; [|split].
  - intros text id Hvar Hint.
    pose proof (stop_after_lookup E (CallFindById id) (FindById E id d) req d
                  eq_refl) as H.
    cbv zeta in H.
    unfold stopJobById. rewrite Hrole, Hdec, Hvar, Hint. exact H.
  - intros jobId Hid.
    pose proof (stop_after_lookup E
                  (CallFind jobId (req_Cluster req) (req_StartTime req))
                  (Find E jobId (req_Cluster req) (req_StartTime req) d) req d
                  eq_refl) as H.
    cbv zeta in H.
    unfold stopJobByRequest. rewrite Hrole, Hdec, Hid. exact H.
  - repeat split.
Qed.

(** Stopping the scenario's job at its own start time: 400, nothing
    changed. *)
Lemma stop_rejected_leaves_job_unchanged_witness :
  rejectedWith StatusBadRequest stopError fritzDB
    (serve (stopJobById (stopEnv (stopRequest 1649723812 "completed"))
                        (mkRequest None [("id", "1")] [] EmptyString))
           fritzDB).
Proof.
  destruct (stop_rejected_leaves_job_unchanged
              (stopEnv (stopRequest 1649723812 "completed"))
              (mkRequest None [("id", "1")] [] EmptyString)
              (stopRequest 1649723812 "completed") fritzDB eq_refl eq_refl)
    as (Hid & _ & _).
  apply (Hid "1" 1 eq_refl eq_refl).
  left. simpl. lia.
Defined.

(** Stopping a job that does not exist, [POST /jobs/stop_job/99] on the
    store of the scenario: the lookup finds no row and the response is 422,
    not the 400 of [checkAndHandleStopJob]. *)
Lemma stop_missing_job_is_unprocessable :
  FindById (stopEnv (stopRequest 1649727412 "completed")) 99 fritzDB = inl ErrNoRows
  /\ status (rw (serve (stopJobById (stopEnv (stopRequest 1649727412 "completed"))
                                    (mkRequest None [("id", "99")] [] EmptyString))
                       fritzDB))
     = Some StatusUnprocessableEntity
  /\ body (rw (serve (stopJobById (stopEnv (stopRequest 1649727412 "completed"))
                                  (mkRequest None [("id", "99")] [] EmptyString))
                     fritzDB))
     = [JSON (ErrorResponse "Unprocessable Entity"
                "finding job failed: sql: no rows in result set")]
  /\ StatusUnprocessableEntity <> StatusBadRequest.
Proof.
  repeat split; try (vm_compute; reflexivity). vm_compute. discriminate.
Qed.

(** *** The accepted stop *)

Lemma int32_int64 (x : Z) : int32 (int64 x) = int32 x.
Proof.
  unfold int32, int64, wrap.
  replace (64 - 1) with 63 by lia. replace (32 - 1) with 31 by lia.
  f_equal.
  replace ((x + 2 ^ 63) mod 2 ^ 64 - 2 ^ 63 + 2 ^ 31)
    with ((x + 2 ^ 63) mod 2 ^ 64 + (2 ^ 31 - 2 ^ 63)) by lia.
  rewrite Zplus_mod.
  rewrite (Z.mod_mod_divide (x + 2 ^ 63) (2 ^ 64) (2 ^ 32)) by (exists (2 ^ 32); lia).
  rewrite <- Zplus_mod. f_equal. lia.
Qed.

Lemma int32_small (x : Z) : - 2 ^ 31 <= x < 2 ^ 31 -> int32 x = x.
Proof.
  intros H. unfold int32, wrap.
  replace (32 - 1) with 31 by lia.
  rewrite Z.mod_small; lia.
Qed.

Lemma int32_range (x : Z) : - 2 ^ 31 <= int32 x < 2 ^ 31.
Proof.
  unfold int32, wrap. replace (32 - 1) with 31 by lia.
  pose proof (Z.mod_pos_bound (x + 2 ^ 31) (2 ^ 32) ltac:(lia)). lia.
Qed.

Lemma stoppedDuration_mod (j : Job) (req : StopJobApiRequest) :
  stoppedDuration j req
  = (req_StopTime req - StartTime j + 2 ^ 31) mod 2 ^ 32 - 2 ^ 31.
Proof.
  unfold stoppedDuration, sub64. rewrite int32_int64. reflexivity.
Qed.

(** What [checkAndHandleStopJob] leaves behind once the checks have passed. *)
Lemma stop_accepted_run (E : Env) (j : Job) (req : StopJobApiRequest) (d : DB) :
  stopAccepted E j req = true ->
  serve (checkAndHandleStopJob E (Some j) req) d
  = let (err, d') := Stop E (ID j) (stoppedDuration j req) (finalState req)
                          (MonitoringStatusOf (Base j)) d in
    match err with
    | Some err =>
        mkSt d'
          (mkRW okHeader (Some StatusInternalServerError)
             (errorBody StatusInternalServerError
                (Errorf_w "marking job as stopped failed: " err)))
          [stopCall j req] 0 [] false
    | None =>
        let w := mkRW okHeader (Some StatusOK) [JSON (JobView (stoppedJob j req))] in
        if MonitoringStatus_eqb (MonitoringStatusOf (Base j)) MonitoringStatusDisabled
        then mkSt d' w [stopCall j req] 0 [] false
        else mkSt d' w [stopCall j req; CallWaitGroupAdd 1; CallGo (stoppedJob j req)]
                  1 [stoppedJob j req] false
    end.
Proof.
  unfold stopAccepted. intros H.
  apply andb_true_iff in H. destruct H as [H1 H2].
  apply negb_true_iff in H1. apply negb_true_iff in H2.
  unfold serve, exec, checkAndHandleStopJob. rewrite H1, H2.
  unfold bind, update, call, modify, bind. simpl.
  fold (finalState req). fold (stoppedDuration j req).
  destruct (Stop E (ID j) (stoppedDuration j req) (finalState req)
                 (MonitoringStatusOf (Base j)) d) as [[err|] d'].
  - reflexivity.
  - simpl. destruct (MonitoringStatus_eqb _ _); reflexivity.
Qed.

Lemma stop_refused_run (E : Env) (j : Job) (req : StopJobApiRequest) (d : DB) :
  stopAccepted E j req = false ->
  let s' := serve (checkAndHandleStopJob E (Some j) req) d in
  status (rw s') = Some StatusBadRequest /\ trace s' = [] /\ db s' = d.
Proof.
  intros H. cbv zeta. unfold stopAccepted in H.
  unfold serve, exec, checkAndHandleStopJob.
  destruct ((StartTime j >=? req_StopTime req)
            || negb (String.eqb (State (Base j)) JobStateRunning)).
  - repeat split.
  - simpl in H. apply negb_false_iff in H. rewrite H. repeat split.
Qed.

(** A stop answered with 200 passed the checks and its [Stop] call
    succeeded. *)
Lemma stop_ok_inv (E : Env) (j : Job) (req : StopJobApiRequest) (d : DB) :
  status (rw (serve (checkAndHandleStopJob E (Some j) req) d)) = Some StatusOK ->
  stopAccepted E j req = true
  /\ fst (Stop E (ID j) (stoppedDuration j req) (finalState req)
               (MonitoringStatusOf (Base j)) d) = None.
Proof.
  intros H.
  destruct (stopAccepted E j req) eqn:Hacc.
  - split; [reflexivity|].
    rewrite (stop_accepted_run E j req d Hacc) in H.
    destruct (Stop E (ID j) (stoppedDuration j req) (finalState req)
                   (MonitoringStatusOf (Base j)) d) as [[err|] d']; simpl in *.
    + discriminate H.
    + reflexivity.
  - destruct (stop_refused_run E j req d Hacc) as (Hst & _ & _).
    rewrite Hst in H. discriminate H.
Qed.

Lemma stopAccepted_checks (E : Env) (j : Job) (req : StopJobApiRequest) :
  stopAccepted E j req = true ->
  StartTime j < req_StopTime req
  /\ State (Base j) = JobStateRunning
  /\ (req_State req = EmptyString \/ Valid E (req_State req) = true).
Proof.
  unfold stopAccepted. intros H.
  apply andb_true_iff in H. destruct H as [H1 H2].
  apply negb_true_iff in H1. apply orb_false_iff in H1. destruct H1 as [Hge Hrun].
  apply negb_true_iff in H2. apply negb_false_iff in Hrun.
  apply String.eqb_eq in Hrun.
  repeat split.
  - destruct (Z.geb_spec (StartTime j) (req_StopTime req)); [discriminate | lia].
  - exact Hrun.
  - apply andb_false_iff in H2. destruct H2 as [H2 | H2].
    + left. apply negb_false_iff in H2. apply String.eqb_eq in H2. exact H2.
    + right. apply negb_false_iff in H2. exact H2.
Qed.

Lemma stop_ok_run (E : Env) (j : Job) (req : StopJobApiRequest) (d : DB) :
  let s' := serve (checkAndHandleStopJob E (Some j) req) d in
  status (rw s') = Some StatusOK ->
  body (rw s') = [JSON (JobView (stoppedJob j req))]
  /\ (exists rest, trace s' = stopCall j req :: rest)
  /\ db s' = snd (Stop E (ID j) (stoppedDuration j req) (finalState req)
                       (MonitoringStatusOf (Base j)) d).
Proof.
  cbv zeta. intros H.
  destruct (stop_ok_inv E j req d H) as [Hacc Hstop].
  rewrite (stop_accepted_run E j req d Hacc).
  destruct (Stop E (ID j) (stoppedDuration j req) (finalState req)
                 (MonitoringStatusOf (Base j)) d) as [[err|] d']; simpl in *.
  - discriminate Hstop.
  - destruct (MonitoringStatus_eqb _ _); simpl; repeat split; eexists; reflexivity.
Qed.

(** C3, amended.  A stop answered with 200 whose stop time is at most
    [2^31 - 1] seconds after the start time: the job handed to [Stop] and
    returned in the body has as duration exactly the stop time minus the
    start time, and as state the requested one, or completed when the
    request names none; the job was running, the stop time is after the
    start time and the requested state is valid. *)
Theorem stop_success_duration_and_state
  (E : Env) (j : Job) (req : StopJobApiRequest) (d : DB) :
  let s' := serve (checkAndHandleStopJob E (Some j) req) d in
  status (rw s') = Some StatusOK ->
  req_StopTime req - StartTime j <= 2 ^ 31 - 1 ->
  exists returned rest,
    body (rw s') = [JSON (JobView returned)]
    /\ trace s' = CallStop (ID j) (Duration (Base returned)) (State (Base returned))
                           (MonitoringStatusOf (Base j)) :: rest
    /\ db s' = snd (Stop E (ID j) (Duration (Base returned)) (State (Base returned))
                         (MonitoringStatusOf (Base j)) d)
    /\ Duration (Base returned) = req_StopTime req - StartTime j
    /\ State (Base returned)
       = (if String.eqb (req_State req) EmptyString
          then JobStateCompleted else req_State req)
    /\ StartTime j < req_StopTime req
    /\ State (Base j) = JobStateRunning
    /\ (req_State req = EmptyString \/ Valid E (req_State req) = true).
Proof.
  cbv zeta. intros Hok Hfit.
  destruct (stop_ok_run E j req d Hok) as (Hbody & [rest Htrace] & Hdb).
  destruct (stop_ok_inv E j req d Hok) as [Hacc _].
  destruct (stopAccepted_checks E j req Hacc) as (Hlt & Hrun & Hvalid).
  exists (stoppedJob j req), rest.
  repeat split; try assumption.
  simpl. rewrite stoppedDuration_mod.
  pose proof (int32_small (req_StopTime req - StartTime j)) as Hs.
  unfold int32, wrap in Hs. replace (32 - 1) with 31 in Hs by lia.
  apply Hs. lia.
Qed.

Lemma stop_success_duration_and_state_witness :
  let s' := serve (checkAndHandleStopJob quietEnv (Some fritzJob)
                     (stopRequest (1649723812 + 3600) EmptyString)) fritzDB in
  exists returned rest,
    body (rw s') = [JSON (JobView returned)]
    /\ trace s' = CallStop 1 (Duration (Base returned)) (State (Base returned))
                           MonitoringStatusRunningOrArchiving :: rest
    /\ db s' = snd (Stop quietEnv 1 (Duration (Base returned)) (State (Base returned))
                         MonitoringStatusRunningOrArchiving fritzDB)
    /\ Duration (Base returned) = 3600
    /\ State (Base returned) = "completed"
    /\ 1649723812 < 1649723812 + 3600
    /\ State (Base fritzJob) = JobStateRunning
    /\ (EmptyString = EmptyString \/ Valid quietEnv EmptyString = true).
Proof.
  apply (stop_success_duration_and_state quietEnv fritzJob
           (stopRequest (1649723812 + 3600) EmptyString) fritzDB).
  - reflexivity.
  - simpl. lia.
Defined.

(** The stop of the scenario's job [2^31] seconds after its start is
    answered with 200, and the duration handed to [Stop] and returned is
    [-2^31], not the stop time minus the start time. *)
Lemma stop_duration_not_exact :
  exists returned,
    status (rw (serve (checkAndHandleStopJob quietEnv (Some fritzJob)
                         (stopRequest 3797207460 "completed")) fritzDB))
    = Some StatusOK
    /\ body (rw (serve (checkAndHandleStopJob quietEnv (Some fritzJob)
                          (stopRequest 3797207460 "completed")) fritzDB))
       = [JSON (JobView returned)]
    /\ hd_error (trace (serve (checkAndHandleStopJob quietEnv (Some fritzJob)
                                 (stopRequest 3797207460 "completed")) fritzDB))
       = Some (CallStop 1 (-2147483648) "completed" MonitoringStatusRunningOrArchiving)
    /\ Duration (Base returned) = -2147483648
    /\ Duration (Base returned) <> 3797207460 - StartTime fritzJob.
Proof.
  eexists. split; [vm_compute; reflexivity|].
  split; [vm_compute; reflexivity|].
  split; [vm_compute; reflexivity|].
  split; [vm_compute; reflexivity|].
  vm_compute. discriminate.
Qed.

(** C10.  A stop answered with 200 whose stop time is more than [2^31 - 1]
    seconds after the start time: the duration handed to [Stop] and returned
    is the [int64] difference converted to [int32], that is the difference
    reduced modulo [2^32] into the signed 32-bit range, and it is not the
    difference. *)
Theorem stop_duration_wraps
  (E : Env) (j : Job) (req : StopJobApiRequest) (d : DB) :
  let s' := serve (checkAndHandleStopJob E (Some j) req) d in
  status (rw s') = Some StatusOK ->
  req_StopTime req - StartTime j > 2 ^ 31 - 1 ->
  exists returned rest,
    body (rw s') = [JSON (JobView returned)]
    /\ trace s' = CallStop (ID j) (Duration (Base returned)) (State (Base returned))
                           (MonitoringStatusOf (Base j)) :: rest
    /\ Duration (Base returned) = int32 (sub64 (req_StopTime req) (StartTime j))
    /\ Duration (Base returned)
       = (req_StopTime req - StartTime j + 2 ^ 31) mod 2 ^ 32 - 2 ^ 31
    /\ Duration (Base returned) <> req_StopTime req - StartTime j.
Proof.
  cbv zeta. intros Hok Hbig.
  destruct (stop_ok_run E j req d Hok) as (Hbody & [rest Htrace] & _).
  exists (stoppedJob j req), rest.
  repeat split; try assumption.
  - simpl. apply stoppedDuration_mod.
  - simpl. unfold stoppedDuration.
    pose proof (int32_range (sub64 (req_StopTime req) (StartTime j))). lia.
Qed.

Lemma stop_duration_wraps_witness :
  let s' := serve (checkAndHandleStopJob quietEnv (Some fritzJob)
                     (stopRequest 1649723812000 "completed")) fritzDB in
  exists returned rest,
    body (rw s') = [JSON (JobView returned)]
    /\ trace s' = CallStop 1 (Duration (Base returned)) (State (Base returned))
                           MonitoringStatusRunningOrArchiving :: rest
    /\ Duration (Base returned) = int32 (sub64 1649723812000 1649723812)
    /\ Duration (Base returned)
       = (1649723812000 - 1649723812 + 2 ^ 31) mod 2 ^ 32 - 2 ^ 31
    /\ Duration (Base returned) <> 1649723812000 - 1649723812.
Proof.
  apply (stop_duration_wraps quietEnv fritzJob
           (stopRequest 1649723812000 "completed") fritzDB).
  - reflexivity.
  - simpl. lia.
Defined.

(** *** Archiving *)

(** C4.  A stop answered with 200 of a job whose monitoring status is
    disabled: once every goroutine started has run, [Stop] is the only call
    made; in particular the archiver is not called, the wait group is not
    added to, no goroutine was started, and the counter of outstanding
    archivings is where it was. *)
Theorem disabled_monitoring_never_archives
  (E : Env) (j : Job) (req : StopJobApiRequest) (d : DB) :
  MonitoringStatusOf (Base j) = MonitoringStatusDisabled ->
  let s1 := serve (checkAndHandleStopJob E (Some j) req) d in
  status (rw s1) = Some StatusOK ->
  let s' := exec (runGoroutines E) s1 in
  trace s' = [stopCall j req]
  /\ existsb isArchiveJob (trace s') = false
  /\ existsb isWaitGroupAdd (trace s') = false
  /\ existsb isGo (trace s') = false
  /\ goroutines s1 = []
  /\ OngoingArchivings s' = OngoingArchivings (initial d).
Proof.
  intros Hdis s1 Hok s'.
  destruct (stop_ok_inv E j req d Hok) as [Hacc Hstop].
  assert (Hs1 : s1 = mkSt (db s1) (rw s1) [stopCall j req] 0 [] false).
  { subst s1. rewrite (stop_accepted_run E j req d Hacc).
    destruct (Stop E (ID j) (stoppedDuration j req) (finalState req)
                   (MonitoringStatusOf (Base j)) d) as [[err|] d']; simpl in *.
    - discriminate Hstop.
    - rewrite Hdis. reflexivity. }
  subst s'. rewrite Hs1. repeat split.
Qed.

Lemma disabled_monitoring_never_archives_witness :
  let s1 := serve (checkAndHandleStopJob quietEnv (Some disabledJob)
                     (stopRequest 1649727412 "completed")) (mkDB [disabledJob] [] []) in
  let s' := exec (runGoroutines quietEnv) s1 in
  trace s' = [stopCall disabledJob (stopRequest 1649727412 "completed")]
  /\ existsb isArchiveJob (trace s') = false
  /\ existsb isWaitGroupAdd (trace s') = false
  /\ existsb isGo (trace s') = false
  /\ goroutines s1 = []
  /\ OngoingArchivings s' = 0.
Proof.
  apply (disabled_monitoring_never_archives quietEnv disabledJob
           (stopRequest 1649727412 "completed") (mkDB [disabledJob] [] [])).
  - reflexivity.
  - reflexivity.
Defined.

(** With any other monitoring status the accepted stop adds one to the wait
    group and starts the goroutine. *)
Lemma enabled_monitoring_dispatches
  (E : Env) (j : Job) (req : StopJobApiRequest) (d : DB) :
  MonitoringStatusOf (Base j) <> MonitoringStatusDisabled ->
  let s1 := serve (checkAndHandleStopJob E (Some j) req) d in
  status (rw s1) = Some StatusOK ->
  trace s1 = [stopCall j req; CallWaitGroupAdd 1; CallGo (stoppedJob j req)]
  /\ goroutines s1 = [stoppedJob j req]
  /\ OngoingArchivings s1 = 1.
Proof.
  intros Hen s1 Hok.
  destruct (stop_ok_inv E j req d Hok) as [Hacc Hstop].
  subst s1. rewrite (stop_accepted_run E j req d Hacc).
  destruct (Stop E (ID j) (stoppedDuration j req) (finalState req)
                 (MonitoringStatusOf (Base j)) d) as [[err|] d']; simpl in *.
  - discriminate Hstop.
  - destruct (MonitoringStatusOf (Base j)); simpl; try (repeat split; fail).
    contradiction Hen. reflexivity.
Qed.

(** The three ways the goroutine can go. *)
Lemma archiveGoroutine_run (E : Env) (job : Job) (s : St) :
  let j := fst (FetchMetadata E job (db s)) in
  let failed := CallUpdateMonitoringStatus (ID j) MonitoringStatusArchivingFailed in
  let s' := exec (archiveGoroutine E job) s in
  match snd (FetchMetadata E job (db s)) with
  | Some _ =>
      trace s' = trace s ++ [CallFetchMetadata job; failed; CallWaitGroupDone]
      /\ db s' = snd (UpdateMonitoringStatus E (ID j) MonitoringStatusArchivingFailed (db s))
  | None =>
      match ArchiveJob E j with
      | inl _ =>
          trace s' = trace s ++ [CallFetchMetadata job; CallArchiveJob j; failed;
                                 CallWaitGroupDone]
          /\ db s' = snd (UpdateMonitoringStatus E (ID j)
                            MonitoringStatusArchivingFailed (db s))
      | inr jobMeta =>
          trace s' = trace s ++ [CallFetchMetadata job; CallArchiveJob j;
                                 CallArchive (ID j) MonitoringStatusArchivingSuccessful
                                             (meta_Statistics jobMeta);
                                 CallWaitGroupDone]
          /\ db s' = snd (Archive E (ID j) MonitoringStatusArchivingSuccessful
                                  (meta_Statistics jobMeta) (db s))
      end
  end.
Proof.
  cbv zeta. unfold exec, archiveGoroutine, WaitGroupDone.
  unfold bind, query, update, extern, call, modify, bind, ret. simpl.
  destruct (FetchMetadata E job (db s)) as [j [ferr|]]; simpl.
  - destruct (UpdateMonitoringStatus E (ID j) MonitoringStatusArchivingFailed (db s))
      as [r d'] eqn:Hu; simpl.
    rewrite <- !app_assoc. split; reflexivity.
  - destruct (ArchiveJob E j) as [aerr|jobMeta]; simpl.
    + destruct (UpdateMonitoringStatus E (ID j) MonitoringStatusArchivingFailed (db s))
        as [r d'] eqn:Hu; simpl.
      rewrite <- !app_assoc. split; reflexivity.
    + destruct (Archive E (ID j) MonitoringStatusArchivingSuccessful
                        (meta_Statistics jobMeta) (db s)) as [r d'] eqn:Ha; simpl.
      rewrite <- !app_assoc. split; reflexivity.
Qed.

(** C5.  The archiving goroutine of a job: when fetching the metadata
    fails, or the archiver fails, [UpdateMonitoringStatus] is called with
    archiving-failed, the tables are what that call leaves, and [Archive]
    is not called; an [Archive] call is made only after the archiver
    succeeded, with status archiving-successful and the archiver's
    statistics, and it is made whenever both steps succeed. *)
Theorem archiving_failure_persists_no_statistics
  (E : Env) (job : Job) (s : St) :
  let fetched := FetchMetadata E job (db s) in
  let j := fst fetched in
  let s' := exec (archiveGoroutine E job) s in
  exists calls,
    trace s' = trace s ++ calls
    /\ (snd fetched <> None \/ (exists err, ArchiveJob E j = inl err) ->
        In (CallUpdateMonitoringStatus (ID j) MonitoringStatusArchivingFailed) calls
        /\ existsb isArchive calls = false
        /\ db s' = snd (UpdateMonitoringStatus E (ID j)
                          MonitoringStatusArchivingFailed (db s)))
    /\ (forall id ms stats,
          In (CallArchive id ms stats) calls ->
          snd fetched = None
          /\ exists jobMeta,
               ArchiveJob E j = inr jobMeta
               /\ id = ID j
               /\ ms = MonitoringStatusArchivingSuccessful
               /\ stats = meta_Statistics jobMeta)
    /\ (forall jobMeta,
          snd fetched = None ->
          ArchiveJob E j = inr jobMeta ->
          In (CallArchive (ID j) MonitoringStatusArchivingSuccessful
                          (meta_Statistics jobMeta)) calls
          /\ db s' = snd (Archive E (ID j) MonitoringStatusArchivingSuccessful
                                  (meta_Statistics jobMeta) (db s))).
Proof.
  cbv zeta. pose proof (archiveGoroutine_run E job s) as Hrun. cbv zeta in Hrun.
  destruct (snd (FetchMetadata E job (db s))) as [ferr|] eqn:Hf.
  - destruct Hrun as [Ht Hd]. eexists. split; [exact Ht|].
    split; [|split].
    + intros _. split; [simpl; auto|]. split; [reflexivity | exact Hd].
    + intros id ms stats Hin. simpl in Hin.
      destruct Hin as [Hin | [Hin | [Hin | []]]]; discriminate Hin.
    + intros jobMeta Hnone. discriminate Hnone.
  - destruct (ArchiveJob E (fst (FetchMetadata E job (db s)))) as [aerr|jobMeta] eqn:Ha.
    + destruct Hrun as [Ht Hd]. eexists. split; [exact Ht|].
      split; [|split].
      * intros _. split; [simpl; auto|]. split; [reflexivity | exact Hd].
      * intros id ms stats Hin. simpl in Hin.
        destruct Hin as [Hin | [Hin | [Hin | [Hin | []]]]]; discriminate Hin.
      * intros jobMeta _ Habs. discriminate Habs.
    + destruct Hrun as [Ht Hd]. eexists. split; [exact Ht|].
      split; [|split].
      * intros [Hfail | [err Hfail]]; [contradiction Hfail; reflexivity | discriminate Hfail].
      * intros id ms stats Hin. simpl in Hin.
        destruct Hin as [Hin | [Hin | [Hin | [Hin | []]]]]; try discriminate Hin.
        injection Hin as <- <- <-. split; [reflexivity|].
        exists jobMeta. repeat split.
      * intros jobMeta' _ Heq. injection Heq as <-.
        split; [simpl; auto | exact Hd].
Qed.

Lemma archiving_failure_persists_no_statistics_witness :
  let s := mkSt fritzDB emptyRW [] 1 [] false in
  let s' := exec (archiveGoroutine archiverDown fritzJob) s in
  exists calls,
    trace s' = calls
    /\ In (CallUpdateMonitoringStatus 1 MonitoringStatusArchivingFailed) calls
    /\ existsb isArchive calls = false
    /\ map (fun j => MonitoringStatusOf (Base j)) (job (db s'))
       = [MonitoringStatusArchivingFailed].
Proof.
  cbv zeta.
  destruct (archiving_failure_persists_no_statistics archiverDown fritzJob
              (mkSt fritzDB emptyRW [] 1 [] false))
    as (calls & Ht & Hfail & _ & _).
  exists calls. split; [exact Ht|].
  destruct Hfail as (Hin & Hno & Hdb).
  - right. eexists. reflexivity.
  - split; [exact Hin|]. split; [exact Hno|]. rewrite Hdb. reflexivity.
Defined.

(** *** Starting a job *)

(** A request stopped by the role check gets 403 and reaches no storage. *)
Lemma startJob_forbidden (E : Env) (r : Request) (d : DB) :
  missingRole E r = true ->
  let s' := serve (startJob E r) d in
  status (rw s') = Some StatusForbidden
  /\ body (rw s') = errorBody StatusForbidden (missingRoleError E)
  /\ db s' = d
  /\ trace s' = []
  /\ RepositoryMutex s' = false.
Proof.
  intros Hrole s'. subst s'. unfold serve, exec, startJob. rewrite Hrole.
  repeat split.
Qed.

(** C6, amended.  A start request whose body does not decode or whose job
    does not pass [SanityChecks]: no collaborator is called, so neither
    [FindAll] nor [Start] is, the mutex is not taken and the tables are as
    before; the response is 400 with the validation error in the body of
    [handleError] when the role check lets the request through, and the 403
    of the role check otherwise. *)
Theorem invalid_start_never_reaches_storage
  (E : Env) (r : Request) (err : error) (d : DB) :
  validationError E r = Some err ->
  let s' := serve (startJob E r) d in
  db s' = d
  /\ trace s' = []
  /\ existsb isFindAll (trace s') = false
  /\ existsb isStart (trace s') = false
  /\ RepositoryMutex s' = false
  /\ (missingRole E r = false ->
      status (rw s') = Some StatusBadRequest
      /\ body (rw s') = errorBody StatusBadRequest err)
  /\ (missingRole E r = true ->
      status (rw s') = Some StatusForbidden
      /\ body (rw s') = errorBody StatusForbidden (missingRoleError E)).
Proof.
  intros Hval s'. subst s'.
  destruct (missingRole E r) eqn:Hrole.
  - destruct (startJob_forbidden E r d Hrole) as (Hst & Hbody & Hdb & Htr & Hmu).
    rewrite Htr. repeat split; try assumption; discriminate.
  - unfold validationError in Hval. unfold serve, exec, startJob.
    rewrite Hrole.
    destruct (decodeJobMeta E (Body r) (mkJobMeta None (JobDefaults E) 0 []))
      as [derr|req].
    + injection Hval as <-. repeat split; discriminate.
    + fold (withDefaultState req).
      destruct (SanityChecks E (meta_Base (withDefaultState req))) as [base serr].
      simpl in Hval. subst serr. repeat split; discriminate.
Qed.

(** A body that does not decode, sent without an authenticated user. *)
Lemma invalid_start_never_reaches_storage_witness :
  let s' := serve (startJob quietEnv anonymous) fritzDB in
  db s' = fritzDB
  /\ trace s' = []
  /\ status (rw s') = Some StatusBadRequest
  /\ body (rw s')
     = errorBody StatusBadRequest (NewError "parsing request body failed: EOF").
Proof.
  cbv zeta.
  destruct (invalid_start_never_reaches_storage quietEnv anonymous
              (NewError "parsing request body failed: EOF") fritzDB eq_refl)
    as (Hdb & Htr & _ & _ & _ & Hok & _).
  destruct (Hok eq_refl) as [Hst Hbody].
  repeat split; assumption.
Defined.

(** The same body sent by a user without the API role: the response is the
    403 of the role check, not 400. *)
Lemma invalid_start_without_role_is_forbidden :
  validationError quietEnv
    (mkRequest (Some (mkAuthUser "eve" ["user"])) [] [] EmptyString)
  = Some (NewError "parsing request body failed: EOF")
  /\ status (rw (serve (startJob quietEnv
                          (mkRequest (Some (mkAuthUser "eve" ["user"])) [] []
                                     EmptyString))
                       fritzDB))
     = Some StatusForbidden
  /\ body (rw (serve (startJob quietEnv
                        (mkRequest (Some (mkAuthUser "eve" ["user"])) [] []
                                   EmptyString))
                     fritzDB))
     = [JSON (ErrorResponse "Forbidden" ("missing role: " +++ fmt_sharp_v "api"))]
  /\ StatusForbidden <> StatusBadRequest.
Proof.
  repeat split; try (vm_compute; reflexivity). vm_compute. discriminate.
Qed.

(** [startJob] past the role check and the validation. *)
Lemma startJob_validated (E : Env) (r : Request) (req : JobMeta) :
  missingRole E r = false ->
  validated E r = Some req ->
  startJob E r
  = (Lock ;;
     o <- startJobLocked E req ;;
     Unlock ;;
     match o with
     | None => ret tt
     | Some id =>
         terr <- addTags E id (Tags (meta_Base req)) ;;
         match terr with
         | Failed err =>
             httpError (Error err) StatusInternalServerError ;;
             handleError
               (Errorf_w ("adding tag to new job " +++ fmt_d id +++ " failed: ") err)
               StatusInternalServerError
         | Finished _ =>
             HeaderAdd "Content-Type" "application/json" ;;
             WriteHeader StatusCreated ;;
             Encode (StartJobApiResponse id)
         | Panicked => ret tt
         end
     end).
Proof.
  intros Hrole Hval. unfold validated in Hval. unfold startJob. rewrite Hrole.
  destruct (decodeJobMeta E (Body r) (mkJobMeta None (JobDefaults E) 0 []))
    as [derr|req0]; [discriminate|].
  fold (withDefaultState req0).
  destruct (SanityChecks E (meta_Base (withDefaultState req0))) as [base [serr|]];
    [discriminate|].
  injection Hval as <-. reflexivity.
Qed.

(** Whenever [FindAll] returns a job whose start time is not more than
    86399 seconds before the requested one, and in particular whenever it
    is later than the requested one, however much, the start is answered
    with 422 naming the first such job; [Start] is not called. *)
Lemma startJob_rejects_earlier_start
  (E : Env) (r : Request) (req : JobMeta) (d : DB) (jobs : list Job) (j : Job) :
  missingRole E r = false ->
  validated E r = Some req ->
  FindAll E (JobID (meta_Base req)) (Cluster (meta_Base req)) None d = (jobs, None) ->
  In j jobs ->
  - 2 ^ 63 <= meta_StartTime req - StartTimeUnix j < 86400 ->
  let s' := serve (startJob E r) d in
  exists dup,
    findDuplicate (meta_StartTime req) jobs = Some dup
    /\ status (rw s') = Some StatusUnprocessableEntity
    /\ body (rw s')
       = errorBody StatusUnprocessableEntity
           (NewError ("a job with that jobId, cluster and startTime already exists: dbid: "
                      +++ fmt_d (ID dup)))
    /\ trace s'
       = [CallFindAll (JobID (meta_Base req)) (Cluster (meta_Base req))]
    /\ db s' = d.
Proof.
  intros Hrole Hval Hfind Hin Hdiff. cbv zeta.
  rewrite (startJob_validated E r req Hrole Hval).
  assert (Hdup : isDuplicate (meta_StartTime req) j = true).
  { unfold isDuplicate, sub64, int64, wrap. apply Z.ltb_lt.
    replace (64 - 1) with 63 by lia.
    rewrite Z.mod_small by lia. lia. }
  destruct (findDuplicate (meta_StartTime req) jobs) as [dup|] eqn:Hfirst.
  - exists dup. split; [reflexivity|].
    unfold serve, exec, Lock, Unlock, startJobLocked.
    unfold bind, query, call, modify, bind. simpl. rewrite Hfind, Hfirst.
    repeat split.
  - unfold findDuplicate in Hfirst.
    pose proof (find_none _ _ Hfirst j Hin) as Hno. rewrite Hdup in Hno.
    discriminate Hno.
Qed.

(** C1, at the input where the code departs from it.  The store holds the
    job (123000, fritz) started at 1649723812.  A start request for
    (123000, fritz) with start time 1649623812, which is 100000 seconds
    earlier and so at least 86400 seconds apart, is answered with 422 naming
    database id 1; [Start] is not called and the tables are as before. *)
Theorem start_earlier_than_existing_rejected :
  let E := Model.env (Model.quiet (inr (startRequest 1649623812)) Model.noBody) in
  let s' := serve (startJob E anonymous) fritzDB in
  86400 <= Z.abs (1649623812 - StartTimeUnix fritzJob)
  /\ status (rw s') = Some StatusUnprocessableEntity
  /\ body (rw s')
     = errorBody StatusUnprocessableEntity
         (NewError "a job with that jobId, cluster and startTime already exists: dbid: 1")
  /\ trace s' = [CallFindAll 123000 "fritz"]
  /\ existsb isStart (trace s') = false
  /\ db s' = fritzDB.
Proof.
  cbv zeta. split; [vm_compute; discriminate|].
  repeat split; vm_compute; reflexivity.
Qed.

(** In the other direction the check is as stated: the same request with a
    start time 100000 seconds later than the existing job is accepted. *)
Lemma start_later_than_existing_accepted :
  let E := Model.env (Model.quiet (inr (startRequest 1649823812)) Model.noBody) in
  let s' := serve (startJob E anonymous) fritzDB in
  status (rw s') = Some StatusCreated
  /\ body (rw s') = [JSON (StartJobApiResponse 2)]
  /\ map StartTimeUnix (job (db s')) = [1649723812; 1649823812].
Proof.
  cbv zeta. repeat split; vm_compute; reflexivity.
Qed.

(** The second start of the specification's scenario, 88 seconds after the
    first, is rejected. *)
Lemma start_88_seconds_later_rejected :
  let E := Model.env (Model.quiet (inr (startRequest 1649723900)) Model.noBody) in
  status (rw (serve (startJob E anonymous) fritzDB)) = Some StatusUnprocessableEntity.
Proof. vm_compute. reflexivity. Qed.

(** *** Error bodies *)

(** C8, at the input where the code departs from it.  [GET /jobs/?foo=bar]:
    the unknown query parameter is answered with 400 through [http.Error],
    whose body is the plain text of the message, not the JSON object of
    [handleError]. *)
Theorem getJobs_unknown_parameter_plain_text (E : Env) (d : DB) :
  let r := mkRequest None [] [("foo", ["bar"])] EmptyString in
  let s' := serve (getJobs E r) d in
  status (rw s') = Some StatusBadRequest
  /\ body (rw s') = [Text ("invalid query parameter: foo" +++ newline)]
  /\ lookup "Content-Type" (header (rw s')) = Some "text/plain; charset=utf-8"
  /\ (forall st msg, body (rw s') <> [JSON (ErrorResponse st msg)])
  /\ body (rw s') <> errorBody StatusBadRequest (NewError "invalid query parameter: foo").
Proof.
  cbv zeta. repeat split; try reflexivity; intros; discriminate.
Qed.

(** The endpoints that answer through [handleError] do give the JSON object;
    here [deleteJobBefore] on a timestamp that is not an integer. *)
Lemma deleteJobBefore_bad_timestamp_json (E : Env) (d : DB) :
  let r := mkRequest None [("ts", "yesterday")] [] EmptyString in
  let s' := serve (deleteJobBefore E r) d in
  status (rw s') = Some StatusBadRequest
  /\ exists msg, body (rw s') = [JSON (ErrorResponse "Bad Request" msg)].
Proof.
  cbv zeta. split; [reflexivity|]. eexists. reflexivity.
Qed.

(** *** Deleting the jobs before a timestamp *)

Lemma filter_split_length {A : Type} (p : A -> bool) (l : list A) :
  Z.of_nat (length l)
  = Z.of_nat (length (filter p l))
    + Z.of_nat (length (filter (fun x => negb (p x)) l)).
Proof.
  induction l as [|x l IH]; [reflexivity|].
  cbn [filter]. destruct (p x); cbn [negb length]; rewrite ?Nat2Z.inj_succ; lia.
Qed.

(** C9.  [deleteJobBefore] answered with 200, over the repository whose
    [DeleteJobsBefore] removes the jobs started before the timestamp and
    returns their number: the path holds an integer [ts]; the jobs left are
    those of before whose start time is not before [ts], in the same order;
    the body is the message with the number [n] of jobs removed, and [n] is
    the number of jobs that were started before [ts]. *)
Theorem deleteJobBefore_removes_and_counts
  (sc : Model.Scenario) (r : Request) (d : DB) :
  let s' := serve (deleteJobBefore (Model.env sc) r) d in
  status (rw s') = Some StatusOK ->
  exists text ts n,
    lookup "ts" (Vars r) = Some text
    /\ ParseInt text = inr ts
    /\ job (db s') = filter (fun j => negb (StartTimeUnix j <? ts)) (job d)
    /\ (forall j, In j (job (db s')) <-> In j (job d) /\ ts <= StartTimeUnix j)
    /\ tag (db s') = tag d
    /\ jobtag (db s') = jobtag d
    /\ body (rw s')
       = [JSON (DeleteJobApiResponse ("Successfully deleted " +++ fmt_d n +++ " jobs"))]
    /\ n = Z.of_nat (length (filter (fun j => StartTimeUnix j <? ts) (job d)))
    /\ n = Z.of_nat (length (job d)) - Z.of_nat (length (job (db s'))).
Proof.
  cbv zeta. unfold serve, exec, deleteJobBefore.
  destruct (missingRole (Model.env sc) r); [discriminate|].
  destruct (lookup "ts" (Vars r)) as [text|] eqn:Hvar; [|discriminate].
  destruct (ParseInt text) as [e|ts] eqn:Hts; [discriminate|].
  unfold bind, update, call, modify, bind. simpl.
  unfold Model.DeleteJobsBefore.
  destruct (Model.fault sc (CallDeleteJobsBefore ts)) as [err|]; [discriminate|].
  simpl. intros _.
  exists text, ts, (Z.of_nat (length (filter (fun j => StartTimeUnix j <? ts) (job d)))).
  split; [reflexivity|]. split; [exact Hts|]. split; [reflexivity|].
  split.
  { intros j. rewrite filter_In, negb_true_iff, Z.ltb_ge. reflexivity. }
  split; [reflexivity|]. split; [reflexivity|]. split; [reflexivity|].
  split; [reflexivity|].
  rewrite (filter_split_length (fun j => StartTimeUnix j <? ts) (job d)). lia.
Qed.

(** The scenario of the specification: of two jobs, the one started before
    1649723812 is removed and the message counts one job. *)
Lemma deleteJobBefore_removes_and_counts_witness :
  let r := mkRequest None [("ts", "1649723812")] [] EmptyString in
  let s' := serve (deleteJobBefore quietEnv r) (mkDB [olderJob; fritzJob] [] []) in
  job (db s') = [fritzJob]
  /\ body (rw s') = [JSON (DeleteJobApiResponse "Successfully deleted 1 jobs")].
Proof.
  cbv zeta. unfold quietEnv.
  destruct (deleteJobBefore_removes_and_counts
              (Model.quiet Model.noBody Model.noBody)
              (mkRequest None [("ts", "1649723812")] [] EmptyString)
              (mkDB [olderJob; fritzJob] [] []))
    as (text & ts & n & Hvar & Hts & Hjobs & _ & _ & _ & Hbody & Hn & _).
  - reflexivity.
  - vm_compute in Hvar. injection Hvar as <-.
    vm_compute in Hts. injection Hts as <-.
    rewrite Hjobs, Hbody, Hn. split; reflexivity.
Defined.

(** *** Tags *)

Lemma tagMatches_eq (ty nm : string) (t : Tag) :
  tagMatches ty nm t = true <-> tag_Type t = ty /\ tag_Name t = nm.
Proof.
  unfold tagMatches. rewrite andb_true_iff, !String.eqb_eq. reflexivity.
Qed.

Lemma selectTags_In (jobId : Z) (t : Tag) (d : DB) :
  In t (tag d) -> In (jobId, tag_ID t) (jobtag d) ->
  In t (selectTags (Some jobId) d).
Proof.
  intros Ht Hjt. unfold selectTags. apply in_flat_map. exists t. split; [exact Ht|].
  apply in_map_iff. exists (jobId, tag_ID t). split; [reflexivity|].
  apply filter_In. split; [exact Hjt|]. simpl. rewrite !Z.eqb_refl. reflexivity.
Qed.

Lemma selectTags_iff (jobId : Z) (t : Tag) (d : DB) :
  In t (selectTags (Some jobId) d)
  <-> In t (tag d) /\ In (jobId, tag_ID t) (jobtag d).
Proof.
  split.
  - unfold selectTags. intros H. apply in_flat_map in H.
    destruct H as (t' & Ht' & Hin). apply in_map_iff in Hin.
    destruct Hin as ([j i] & <- & Hf). apply filter_In in Hf.
    destruct Hf as [Hjt Hcond]. simpl in Hcond.
    apply andb_true_iff in Hcond. destruct Hcond as [Hj Hi].
    apply Z.eqb_eq in Hj. apply Z.eqb_eq in Hi. subst. auto.
  - intros [Ht Hjt]. apply selectTags_In; assumption.
Qed.

Lemma tagMatches_find (ty nm : string) (l : list Tag) (t : Tag) :
  find (tagMatches ty nm) l = Some t -> In t l /\ t = mkTag (tag_ID t) ty nm.
Proof.
  intros H. apply find_some in H. destruct H as [Hin Hm].
  apply tagMatches_eq in Hm. destruct Hm as [<- <-].
  split; [exact Hin | destruct t; reflexivity].
Qed.

Lemma AddTag_run (E : Env) (jobId tagId : Z) (s : St) :
  let r := AddTag E jobId tagId s in
  exists calls,
    trace (snd r) = trace s ++ calls
    /\ (forall ty nm, ~ In (CallSql (InsertTag ty nm)) calls)
    /\ tag (db (snd r)) = tag (db s)
    /\ (snd (fst r) = None ->
        jobtag (db (snd r)) = jobtag (db s) ++ [(jobId, tagId)]
        /\ exists j before,
             FindById E jobId (db (snd r)) = inr j
             /\ calls = before ++ [CallUpdateTags j (selectTags (Some jobId) (db (snd r)))]
             /\ UpdateTags E j (selectTags (Some jobId) (db (snd r))) = None).
Proof.
  cbv zeta. unfold AddTag, GetTags, sqlExec.
  unfold bind, query, update, extern, call, modify, bind, ret. simpl.
  destruct (sqlError E (InsertJobtag jobId tagId) (db s)) as [e1|] eqn:H1; simpl.
  { eexists. split; [reflexivity|]. split; [|split; [reflexivity | discriminate]].
    intros ty nm [H | []]. discriminate H. }
  match goal with |- context [FindById E jobId ?d] => destruct (FindById E jobId d) as [e2|j] eqn:H2 end; simpl.
  { eexists. split; [rewrite <- app_assoc; reflexivity|].
    split; [|split; [reflexivity | discriminate]].
    intros ty nm [H | [H | []]]; discriminate H. }
  match goal with |- context [sqlError E (SelectTags (Some jobId)) ?d] =>
    destruct (sqlError E (SelectTags (Some jobId)) d) as [e3|] eqn:H3 end; simpl.
  { eexists. split; [rewrite <- !app_assoc; reflexivity|].
    split; [|split; [reflexivity | discriminate]].
    intros ty nm [H | [H | [H | []]]]; discriminate H. }
  eexists. split; [rewrite <- !app_assoc; reflexivity|].
  split; [|split; [reflexivity|]].
  { intros ty nm [H | [H | [H | [H | []]]]]; discriminate H. }
  intros Hu. split; [reflexivity|].
  exists j. eexists. split; [exact H2|]. split; [|exact Hu].
  simpl. change ([?a; ?b; ?c; ?d]) with ([a; b; c] ++ [d]). reflexivity.
Qed.


Lemma TagId_run (E : Env) (ty nm : string) (s : St) :
  let r := TagId E ty nm s in
  snd r = set_trace (trace s ++ [CallSql (SelectTagId ty nm)]) s
  /\ (snd (fst r) = true -> In (mkTag (fst (fst r)) ty nm) (tag (db s)))
  /\ (sqlError E (SelectTagId ty nm) (db s) = None ->
      (snd (fst r) = true
       <-> exists t, In t (tag (db s)) /\ tag_Type t = ty /\ tag_Name t = nm)).
Proof.
  cbv zeta. unfold TagId.
  unfold bind, query, call, modify, bind, ret. simpl.
  destruct (sqlError E (SelectTagId ty nm) (db s)) as [e|]; simpl.
  - split; [reflexivity|]. split; discriminate.
  - destruct (find (tagMatches ty nm) (tag (db s))) as [t|] eqn:Hf; simpl.
    + apply tagMatches_find in Hf. destruct Hf as [Hin Ht].
      split; [reflexivity|]. split; [intros _; rewrite <- Ht; exact Hin|].
      intros _. split; [intros _ | reflexivity].
      exists t. rewrite Ht. simpl. rewrite <- Ht. auto.
    + split; [reflexivity|]. split; [discriminate|].
      intros _. split; [discriminate|].
      intros (t & Hin & Hty & Hnm).
      pose proof (find_none _ _ Hf t Hin) as Hno.
      assert (Hyes : tagMatches ty nm t = true) by (apply tagMatches_eq; auto).
      rewrite Hyes in Hno. discriminate Hno.
Qed.

Lemma CreateTag_run (E : Env) (ty nm : string) (s : St) :
  let r := CreateTag E ty nm s in
  trace (snd r) = trace s ++ [CallSql (InsertTag ty nm)]
  /\ jobtag (db (snd r)) = jobtag (db s)
  /\ (snd (fst r) = None ->
      tag (db (snd r)) = tag (db s) ++ [mkTag (fst (fst r)) ty nm]).
Proof.
  cbv zeta. unfold CreateTag, sqlExec.
  unfold bind, update, call, modify, bind, ret. simpl.
  destruct (sqlError E (InsertTag ty nm) (db s)) as [e|]; simpl.
  - split; [reflexivity|]. split; [reflexivity | discriminate].
  - split; [reflexivity|]. split; [reflexivity|].
    destruct (LastInsertId E (db s)) as [id lerr]; simpl. intros _. reflexivity.
Qed.

Lemma AddTagOrCreate_unfold (E : Env) (jobId : Z) (ty nm : string) (s : St) :
  AddTagOrCreate E jobId ty nm s
  = let (r, s0) := TagId E ty nm s in
    let (c, s1) := if snd r then ((fst r, None), s0) else CreateTag E ty nm s0 in
    match snd c with
    | Some err => ((0, Some err), s1)
    | None =>
        let (a, s2) := AddTag E jobId (fst c) s1 in
        match snd a with
        | Some err => ((0, Some err), s2)
        | None => ((fst c, None), s2)
        end
    end.
Proof.
  unfold AddTagOrCreate, bind.
  destruct (TagId E ty nm s) as [[id0 ex] s0]. simpl.
  destruct ex; simpl.
  - destruct (AddTag E jobId id0 s0) as [[tags [aerr|]] s2]; reflexivity.
  - destruct (CreateTag E ty nm s0) as [[id [cerr|]] s1]; simpl; [reflexivity|].
    destruct (AddTag E jobId id s1) as [[tags [aerr|]] s2]; reflexivity.
Qed.

(** [AddTagOrCreate] on any state: the calls it makes and, when it returns
    no error, the tables it leaves. *)
Lemma AddTagOrCreate_run
  (E : Env) (jobId : Z) (tagType tagName : string) (s : St) :
  let exists_ := snd (eval (TagId E tagType tagName) s) in
  let tagId := fst (eval (AddTagOrCreate E jobId tagType tagName) s) in
  let err := snd (eval (AddTagOrCreate E jobId tagType tagName) s) in
  let s' := exec (AddTagOrCreate E jobId tagType tagName) s in
  exists calls,
    trace s' = trace s ++ CallSql (SelectTagId tagType tagName) :: calls
    /\ (In (CallSql (InsertTag tagType tagName)) calls <-> exists_ = false)
    /\ (sqlError E (SelectTagId tagType tagName) (db s) = None ->
        (exists_ = true
         <-> exists t, In t (tag (db s)) /\ tag_Type t = tagType /\ tag_Name t = tagName))
    /\ (err = None ->
        tag (db s')
        = (if exists_ then tag (db s)
           else tag (db s) ++ [mkTag tagId tagType tagName])
        /\ In (mkTag tagId tagType tagName) (tag (db s'))
        /\ jobtag (db s') = jobtag (db s) ++ [(jobId, tagId)]
        /\ exists j before,
             FindById E jobId (db s') = inr j
             /\ calls = before ++ [CallUpdateTags j (selectTags (Some jobId) (db s'))]
             /\ UpdateTags E j (selectTags (Some jobId) (db s')) = None
             /\ In (mkTag tagId tagType tagName) (selectTags (Some jobId) (db s'))).
Proof.
  cbv zeta. unfold eval, exec. rewrite AddTagOrCreate_unfold.
  pose proof (TagId_run E tagType tagName s) as Hlook. cbv zeta in Hlook.
  destruct (TagId E tagType tagName s) as [[id0 ex] s0]. simpl in Hlook |- *.
  destruct Hlook as (Hs0 & Hfound & Habsent).
  assert (Ht0 : trace s0 = trace s ++ [CallSql (SelectTagId tagType tagName)])
    by (rewrite Hs0; reflexivity).
  assert (Hd0 : db s0 = db s) by (rewrite Hs0; reflexivity).
  clear Hs0.
  destruct ex.
  - (* the tag exists *)
    simpl.
    pose proof (AddTag_run E jobId id0 s0) as Hadd. cbv zeta in Hadd.
    destruct (AddTag E jobId id0 s0) as [[tags aerr] s2]. simpl in Hadd |- *.
    destruct Hadd as (calls & Ht & Hnoins & Htag & Hok).
    assert (Hlog : trace s2 = trace s ++ CallSql (SelectTagId tagType tagName) :: calls)
      by (rewrite Ht, Ht0, <- app_assoc; reflexivity).
    assert (Hcre : In (CallSql (InsertTag tagType tagName)) calls <-> true = false)
      by (split; [intros Hin; elim (Hnoins _ _ Hin) | discriminate]).
    exists calls.
    destruct aerr as [aerr|]; simpl.
    { split; [exact Hlog|]. split; [exact Hcre|]. split; [exact Habsent | discriminate]. }
    split; [exact Hlog|]. split; [exact Hcre|]. split; [exact Habsent|]. intros _.
    destruct (Hok eq_refl) as (Hjt & j & before & Hfind & Hcalls & Hupd).
    rewrite Htag, Hd0. split; [reflexivity|].
    split; [apply Hfound; reflexivity|].
    split; [rewrite Hjt, Hd0; reflexivity|].
    exists j, before. repeat split; try assumption.
    apply (selectTags_In jobId (mkTag id0 tagType tagName)).
    + rewrite Htag, Hd0. apply Hfound. reflexivity.
    + rewrite Hjt. apply in_or_app. right. left. reflexivity.
  - (* the tag is created *)
    pose proof (CreateTag_run E tagType tagName s0) as Hcre. cbv zeta in Hcre.
    destruct (CreateTag E tagType tagName s0) as [[id cerr] s1]. simpl in Hcre |- *.
    destruct Hcre as (Ht1 & Hjt1 & Hrow).
    destruct cerr as [cerr|]; simpl.
    { exists [CallSql (InsertTag tagType tagName)].
      split; [rewrite Ht1, Ht0, <- app_assoc; reflexivity|].
      split; [split; [reflexivity | intros _; left; reflexivity]|].
      split; [exact Habsent | discriminate]. }
    specialize (Hrow eq_refl).
    pose proof (AddTag_run E jobId id s1) as Hadd. cbv zeta in Hadd.
    destruct (AddTag E jobId id s1) as [[tags aerr] s2]. simpl in Hadd |- *.
    destruct Hadd as (calls & Ht & Hnoins & Htag & Hok).
    assert (Hlog : trace s2 = trace s ++ CallSql (SelectTagId tagType tagName)
                                      :: CallSql (InsertTag tagType tagName) :: calls)
      by (rewrite Ht, Ht1, Ht0, <- !app_assoc; reflexivity).
    assert (Hins : In (CallSql (InsertTag tagType tagName))
                      (CallSql (InsertTag tagType tagName) :: calls) <-> false = false)
      by (split; [reflexivity | intros _; left; reflexivity]).
    exists (CallSql (InsertTag tagType tagName) :: calls).
    destruct aerr as [aerr|]; simpl.
    { split; [exact Hlog|]. split; [exact Hins|]. split; [exact Habsent | discriminate]. }
    split; [exact Hlog|]. split; [exact Hins|]. split; [exact Habsent|]. intros _.
    destruct (Hok eq_refl) as (Hjt & j & before & Hfind & Hcalls & Hupd).
    rewrite Htag, Hrow, Hd0. split; [reflexivity|].
    split; [apply in_or_app; right; left; reflexivity|].
    split; [rewrite Hjt, Hjt1, Hd0; reflexivity|].
    exists j, (CallSql (InsertTag tagType tagName) :: before).
    repeat split; try assumption.
    + rewrite Hcalls. reflexivity.
    + apply (selectTags_In jobId (mkTag id tagType tagName)).
      * rewrite Htag, Hrow. apply in_or_app. right. left. reflexivity.
      * rewrite Hjt. apply in_or_app. right. left. reflexivity.
Qed.

(** A creation that went through was not refused by the driver. *)
Lemma AddTagOrCreate_created_inserted
  (E : Env) (jobId : Z) (tagType tagName : string) (s : St) :
  snd (eval (AddTagOrCreate E jobId tagType tagName) s) = None ->
  snd (eval (TagId E tagType tagName) s) = false ->
  sqlError E (InsertTag tagType tagName) (db s) = None.
Proof.
  unfold eval. rewrite AddTagOrCreate_unfold.
  pose proof (TagId_run E tagType tagName s) as Hlook. cbv zeta in Hlook.
  destruct (TagId E tagType tagName s) as [[id0 ex] s0]. simpl in Hlook |- *.
  destruct Hlook as (Hs0 & _ & _).
  intros Hok Hex. subst ex s0. revert Hok.
  unfold CreateTag, sqlExec. unfold bind, update, call, modify, bind, ret. simpl.
  destruct (sqlError E (InsertTag tagType tagName) (db s)) as [e|]; simpl.
  - discriminate.
  - reflexivity.
Qed.


(** The repository the handlers are run on keeps (type, name) unique. *)
Lemma model_uniqueTags (sc : Model.Scenario) : uniqueTags (Model.env sc).
Proof.
  intros d ty nm t Hin Hty Hnm. simpl. unfold Model.sqlError.
  destruct (Model.fault sc (CallSql (InsertTag ty nm))); [discriminate|].
  assert (Hex : existsb (tagMatches ty nm) (tag d) = true).
  { apply existsb_exists. exists t. split; [exact Hin|].
    apply tagMatches_eq. split; assumption. }
  rewrite Hex. discriminate.
Qed.



(** Tagging it again with the same tag: the tag is found, not created. *)
Lemma AddTagOrCreate_existing_tag :
  let d := mkDB [fritzJob] [mkTag 7 "Debug" "Testjob"] [] in
  let r := AddTagOrCreate quietEnv 1 "Debug" "Testjob" (initial d) in
  fst r = (7, None)
  /\ tag (db (snd r)) = [mkTag 7 "Debug" "Testjob"]
  /\ jobtag (db (snd r)) = [(1, 7)]
  /\ trace (snd r)
     = [CallSql (SelectTagId "Debug" "Testjob"); CallSql (InsertJobtag 1 7);
        CallFindById 1; CallSql (SelectTags (Some 1));
        CallUpdateTags fritzJob [mkTag 7 "Debug" "Testjob"]].
Proof. cbv zeta. repeat split; vm_compute; reflexivity. Qed.

(** *** What the parts of the handlers leave alone *)

Lemma keepsDB_ret {A : Type} (a : A) : keepsDB (ret a).
Proof. intros s. reflexivity. Qed.

Lemma keepsDB_bind {A B : Type} (m : M A) (k : A -> M B) :
  keepsDB m -> (forall a, keepsDB (k a)) -> keepsDB (bind m k).
Proof.
  intros Hm Hk s. unfold bind. specialize (Hm s).
  destruct (m s) as [a s1]. simpl in Hm. rewrite Hk. exact Hm.
Qed.

Lemma keepsDB_call (c : Call) : keepsDB (call c).
Proof. intros s. reflexivity. Qed.

Lemma keepsDB_query {A : Type} (c : Call) (f : DB -> A) : keepsDB (query c f).
Proof. intros s. reflexivity. Qed.

Lemma keepsDB_extern {A : Type} (c : Call) (a : A) : keepsDB (extern c a).
Proof. intros s. reflexivity. Qed.

Lemma keepsDB_onRW (f : ResponseWriter -> ResponseWriter) : keepsDB (onRW f).
Proof. intros s. reflexivity. Qed.

Lemma keepsDB_handleError (err : error) (code : Z) : keepsDB (handleError err code).
Proof. intros s. reflexivity. Qed.

Lemma keepsDB_httpError (msg : string) (code : Z) : keepsDB (httpError msg code).
Proof. intros s. reflexivity. Qed.

Lemma keepsDB_Encode (p : Payload) : keepsDB (Encode p).
Proof. intros s. reflexivity. Qed.

Lemma keepsDB_GetTags (E : Env) (j : option Z) : keepsDB (GetTags E j).
Proof. intros s. reflexivity. Qed.

Lemma keepsDB_TagId (E : Env) (ty nm : string) : keepsDB (TagId E ty nm).
Proof.
  intros s. unfold TagId, bind, query, call, modify, bind, ret. simpl.
  destruct (sqlError E (SelectTagId ty nm) (db s)); [reflexivity|].
  destruct (find (tagMatches ty nm) (tag (db s))); reflexivity.
Qed.

Create HintDb keepsDB.
#[local] Hint Resolve keepsDB_ret keepsDB_call keepsDB_query keepsDB_extern
  keepsDB_onRW keepsDB_handleError keepsDB_httpError keepsDB_Encode
  keepsDB_GetTags keepsDB_TagId : keepsDB.

(** Splits a handler along its binds and its case distinctions. *)
Ltac keeps_step lem_bind :=
  match goal with
  | |- _ (bind _ _) => apply lem_bind; [|intros ?]
  | |- _ (match ?x with _ => _ end) => destruct x
  | |- _ (if ?b then _ else _) => destruct b
  | |- _ (let (_, _) := ?x in _) => destruct x
  end.

Lemma keepsDB_jobResults (E : Env) (withMeta : bool) (jobs : list Job) :
  forall results, keepsDB (jobResults E withMeta jobs results).
Proof.
  induction jobs as [|j jobs IH]; intros results; simpl.
  - auto with keepsDB.
  - repeat first [ solve [auto with keepsDB] | apply IH | keeps_step @keepsDB_bind ].
Qed.

(** X1.  [getJobs] only reads: whatever the request and whatever the
    collaborators answer, the tables are as before. *)
Theorem getJobs_never_writes (E : Env) (r : Request) (s : St) :
  db (exec (getJobs E r) s) = db s.
Proof.
  assert (H : keepsDB (getJobs E r)); [|apply H].
  unfold getJobs.
  repeat first [ solve [auto with keepsDB] | apply keepsDB_jobResults
               | keeps_step @keepsDB_bind ].
Qed.

Lemma keepsServer_ret {A : Type} (a : A) : keepsServer (ret a).
Proof. intros s. repeat split. Qed.

Lemma keepsServer_bind {A B : Type} (m : M A) (k : A -> M B) :
  keepsServer m -> (forall a, keepsServer (k a)) -> keepsServer (bind m k).
Proof.
  intros Hm Hk s. unfold bind. specialize (Hm s).
  destruct (m s) as [a s1]. simpl in Hm. destruct Hm as (H1 & H2 & H3 & H4).
  destruct (Hk a s1) as (K1 & K2 & K3 & K4).
  rewrite K1, K2, K3, K4. auto.
Qed.

Lemma keepsServer_call (c : Call) : keepsServer (call c).
Proof. intros s. repeat split. Qed.

Lemma keepsServer_query {A : Type} (c : Call) (f : DB -> A) : keepsServer (query c f).
Proof. intros s. repeat split. Qed.

Lemma keepsServer_update {A : Type} (c : Call) (f : DB -> A * DB) :
  keepsServer (update c f).
Proof.
  intros s. unfold update, bind, call, modify. simpl.
  destruct (f (db s)) as [a d']. repeat split.
Qed.

Lemma keepsServer_extern {A : Type} (c : Call) (a : A) : keepsServer (extern c a).
Proof. intros s. repeat split. Qed.

Create HintDb keepsServer.
#[local] Hint Resolve keepsServer_ret keepsServer_call keepsServer_query
  keepsServer_update keepsServer_extern : keepsServer.

Lemma keepsServer_GetTags (E : Env) (j : option Z) : keepsServer (GetTags E j).
Proof. unfold GetTags. auto with keepsServer. Qed.

#[local] Hint Resolve keepsServer_GetTags : keepsServer.

Lemma keepsServer_jobResults (E : Env) (withMeta : bool) (jobs : list Job) :
  forall results, keepsServer (jobResults E withMeta jobs results).
Proof.
  induction jobs as [|j jobs IH]; intros results; simpl.
  - auto with keepsServer.
  - repeat first [ solve [auto with keepsServer] | apply IH
                 | keeps_step @keepsServer_bind ].
Qed.

(** [http.Error] and [Encode] on a response nothing was written to. *)
Lemma httpError_new (msg : string) (code : Z) (s : St) :
  rw s = emptyRW ->
  rw (exec (httpError msg code) s)
  = mkRW [("Content-Type", "text/plain; charset=utf-8");
          ("X-Content-Type-Options", "nosniff")]
         (Some code) [Text (msg +++ newline)].
Proof.
  intros H. unfold exec, httpError, HeaderSet, WriteHeader, Write, onRW, bind, modify.
  simpl. rewrite H. reflexivity.
Qed.

Lemma Encode_new (p : Payload) (s : St) :
  rw s = emptyRW ->
  rw (exec (Encode p) s) = mkRW [] (Some StatusOK) [JSON p].
Proof.
  intros H. unfold exec, Encode, Write, onRW, modify. simpl. rewrite H. reflexivity.
Qed.

(** The steps of [getJobs] once the role check has passed. *)
Lemma getJobs_run (E : Env) (r : Request) (d : DB) :
  missingRole E r = false ->
  let s' := serve (getJobs E r) d in
  match queryParameters E (mkJobsQuery false (mkJobFilter [] None None)
                                       (mkPageRequest 25 1)) (Query r) with
  | inl msg =>
      trace s' = [] /\ exists w, rw s' = rw (exec (httpError msg StatusBadRequest) w)
                                 /\ rw w = emptyRW
  | inr q =>
      match QueryJobs E (filter_ q) (page q) d with
      | inl err =>
          trace s' = [CallQueryJobs (filter_ q) (page q)]
          /\ exists w, rw s' = rw (exec (httpError (Error err) StatusInternalServerError) w)
                       /\ rw w = emptyRW
      | inr jobs =>
          let s1 := mkSt d emptyRW [CallQueryJobs (filter_ q) (page q)] 0 [] false in
          match eval (jobResults E (withMetadata q) jobs []) s1 with
          | inl err =>
              exists w, rw s' = rw (exec (httpError (Error err) StatusInternalServerError) w)
                        /\ rw w = emptyRW
          | inr results =>
              match encodeJobsError E results with
              | Some err =>
                  exists w, rw s' = rw (exec (httpError (Error err)
                                                StatusInternalServerError) w)
                            /\ rw w = emptyRW
              | None => rw s' = mkRW [] (Some StatusOK) [JSON (JobList results)]
              end
          end
      end
  end.
Proof.
  intros Hrole. cbv zeta. unfold serve, exec, getJobs. rewrite Hrole.
  destruct (queryParameters E _ (Query r)) as [msg|q].
  - split; [reflexivity|]. exists (initial d). split; reflexivity.
  - unfold bind at 1. unfold query, bind, call, modify. simpl.
    destruct (QueryJobs E (filter_ q) (page q) d) as [err|jobs].
    + split; [reflexivity|].
      exists (mkSt d emptyRW [CallQueryJobs (filter_ q) (page q)] 0 [] false).
      split; reflexivity.
    + unfold eval.
      change (set_trace [CallQueryJobs (filter_ q) (page q)] (initial d))
        with (mkSt d emptyRW [CallQueryJobs (filter_ q) (page q)] 0 [] false).
      pose proof (keepsServer_jobResults E (withMetadata q) jobs []
                    (mkSt d emptyRW [CallQueryJobs (filter_ q) (page q)] 0 [] false))
        as (Hrw & _).
      destruct (jobResults E (withMetadata q) jobs []
                  (mkSt d emptyRW [CallQueryJobs (filter_ q) (page q)] 0 [] false))
        as [[err|results] s2]; cbn [fst snd] in Hrw |- *.
      * exists s2. split; [reflexivity | exact Hrw].
      * destruct (encodeJobsError E results) as [err|].
        -- exists s2. split; [reflexivity | exact Hrw].
        -- apply (Encode_new (JobList results) s2 Hrw).
Qed.

(** X2.  Past the role check [getJobs] answers either 200 with the list of
    jobs as JSON, or 400 or 500 through [http.Error]: a plain-text body
    with the content type text/plain, never the JSON object of
    [handleError]. *)
Theorem getJobs_response_shapes (E : Env) (r : Request) (d : DB) :
  missingRole E r = false ->
  let s' := serve (getJobs E r) d in
  (exists results,
      status (rw s') = Some StatusOK /\ body (rw s') = [JSON (JobList results)])
  \/ (exists msg,
        (status (rw s') = Some StatusBadRequest
         \/ status (rw s') = Some StatusInternalServerError)
        /\ body (rw s') = [Text (msg +++ newline)]
        /\ lookup "Content-Type" (header (rw s')) = Some "text/plain; charset=utf-8").
Proof.
  intros Hrole. cbv zeta.
  pose proof (getJobs_run E r d Hrole) as H. cbv zeta in H.
  destruct (queryParameters E _ (Query r)) as [msg|q].
  - destruct H as (_ & w & Hrw & Hw). right. exists msg.
    rewrite Hrw, (httpError_new _ _ w Hw). simpl. auto.
  - destruct (QueryJobs E (filter_ q) (page q) d) as [err|jobs].
    + destruct H as (_ & w & Hrw & Hw). right. exists (Error err).
      rewrite Hrw, (httpError_new _ _ w Hw). simpl. auto.
    + destruct (eval (jobResults E (withMetadata q) jobs []) _) as [err|results].
      * destruct H as (w & Hrw & Hw). right. exists (Error err).
        rewrite Hrw, (httpError_new _ _ w Hw). simpl. auto.
      * destruct (encodeJobsError E results) as [err|].
        -- destruct H as (w & Hrw & Hw). right. exists (Error err).
           rewrite Hrw, (httpError_new _ _ w Hw). simpl. auto.
        -- left. exists results. rewrite H. simpl. auto.
Qed.

Lemma getJobs_response_shapes_witness :
  let s' := serve (getJobs quietEnv anonymous) fritzDB in
  (exists results,
      status (rw s') = Some StatusOK /\ body (rw s') = [JSON (JobList results)])
  \/ (exists msg,
        (status (rw s') = Some StatusBadRequest
         \/ status (rw s') = Some StatusInternalServerError)
        /\ body (rw s') = [Text (msg +++ newline)]
        /\ lookup "Content-Type" (header (rw s')) = Some "text/plain; charset=utf-8").
Proof. exact (getJobs_response_shapes quietEnv anonymous fritzDB eq_refl). Defined.

(** A parameter [queryParameter] rejects whatever was set before stops the
    loop, wherever it stands among the parameters. *)
Lemma queryParameters_rejects (E : Env) (key : string) (vals : list string)
  (params : list (string * list string)) :
  (forall q, exists msg, queryParameter E q key vals = inl msg) ->
  In (key, vals) params ->
  forall q, exists msg, queryParameters E q params = inl msg.
Proof.
  intros Hrej. induction params as [|[k v] params IH]; intros Hin q.
  - destruct Hin.
  - simpl. destruct Hin as [Heq | Hin].
    + injection Heq as -> ->. destruct (Hrej q) as [msg ->]. eauto.
    + destruct (queryParameter E q k v) as [msg|q']; [eauto | apply IH; exact Hin].
Qed.

Lemma getJobs_bad_parameter (E : Env) (r : Request) (d : DB)
  (key : string) (vals : list string) :
  (forall q, exists msg, queryParameter E q key vals = inl msg) ->
  In (key, vals) (Query r) ->
  let s' := serve (getJobs E r) d in
  status (rw s')
  = Some (if missingRole E r then StatusForbidden else StatusBadRequest)
  /\ trace s' = [] /\ db s' = d.
Proof.
  intros Hrej Hin. cbv zeta.
  destruct (queryParameters_rejects E key vals (Query r) Hrej Hin
              (mkJobsQuery false (mkJobFilter [] None None) (mkPageRequest 25 1)))
    as [msg Hmsg].
  unfold serve, exec, getJobs.
  destruct (missingRole E r); [repeat split|].
  rewrite Hmsg. repeat split.
Qed.

Lemma unknown_key_rejected (E : Env) (key : string) (vals : list string) :
  ~ In key knownParameters ->
  forall q, queryParameter E q key vals = inl ("invalid query parameter: " +++ key).
Proof.
  intros Hkey q. unfold queryParameter.
  repeat match goal with
  | |- context [String.eqb key ?k] =>
      destruct (String.eqb_spec key k) as [->|_];
      [exfalso; apply Hkey; simpl; tauto|]
  end.
  reflexivity.
Qed.

(** X3.  A request to [getJobs] with a query parameter that is not one of
    the six known keys is refused, wherever the parameter stands in the
    iteration over the query: with 403 when the requester lacks the API
    role, with 400 otherwise; the job repository is not called and the
    tables are as before. *)
Theorem getJobs_unknown_parameter_rejected
  (E : Env) (r : Request) (d : DB) (key : string) (vals : list string) :
  In (key, vals) (Query r) ->
  ~ In key knownParameters ->
  let s' := serve (getJobs E r) d in
  status (rw s')
  = Some (if missingRole E r then StatusForbidden else StatusBadRequest)
  /\ trace s' = [] /\ db s' = d.
Proof.
  intros Hin Hkey.
  apply (getJobs_bad_parameter E r d key vals); [|exact Hin].
  intros q. eexists. apply (unknown_key_rejected E key vals Hkey).
Qed.

Lemma getJobs_unknown_parameter_rejected_witness :
  let r := mkRequest None [] [("cluster", ["fritz"]); ("limit", ["10"])] EmptyString in
  let s' := serve (getJobs quietEnv r) fritzDB in
  status (rw s') = Some StatusBadRequest /\ trace s' = [] /\ db s' = fritzDB.
Proof.
  apply (getJobs_unknown_parameter_rejected quietEnv
           (mkRequest None [] [("cluster", ["fritz"]); ("limit", ["10"])] EmptyString)
           fritzDB "limit" ["10"]).
  - simpl. right. left. reflexivity.
  - simpl. intros H. repeat (destruct H as [H | H]; [discriminate H|]). exact H.
Defined.

Lemma splitFrom_nonempty (sep : ascii) (s cur : string) : splitFrom sep s cur <> [].
Proof.
  revert cur. induction s as [|c s IH]; intros cur; simpl.
  - discriminate.
  - destruct (Ascii.eqb c sep); [discriminate | apply IH].
Qed.

Lemma ParseInt_empty : exists err, ParseInt EmptyString = inl err.
Proof. eexists. reflexivity. Qed.

Lemma start_time_negative_rejected (E : Env) (rest : string) (more : list string) :
  forall q, exists msg,
    queryParameter E q "start-time" (String "-"%char rest :: more) = inl msg.
Proof.
  intros q. unfold queryParameter. simpl String.eqb. cbv iota.
  unfold first, hd, Split. simpl splitFrom.
  pose proof (splitFrom_nonempty "-"%char rest EmptyString) as Hne.
  destruct (splitFrom "-"%char rest EmptyString) as [|x [|y tl]].
  - contradiction Hne. reflexivity.
  - destruct ParseInt_empty as [err ->]. eauto.
  - eauto.
Qed.

(** X4.  The [start-time] filter of [getJobs] is [from-to] split at every
    [-]: a value that begins with [-], as any range with a negative [from]
    does, is refused, with 403 when the requester lacks the API role and
    with 400 otherwise; the job repository is not called and the tables are
    as before. *)
Theorem getJobs_negative_start_time_rejected
  (E : Env) (r : Request) (d : DB) (rest : string) (more : list string) :
  In ("start-time", String "-"%char rest :: more) (Query r) ->
  let s' := serve (getJobs E r) d in
  status (rw s')
  = Some (if missingRole E r then StatusForbidden else StatusBadRequest)
  /\ trace s' = [] /\ db s' = d.
Proof.
  intros Hin.
  apply (getJobs_bad_parameter E r d "start-time" (String "-"%char rest :: more));
    [|exact Hin].
  apply start_time_negative_rejected.
Qed.

Lemma getJobs_negative_start_time_rejected_witness :
  let r := mkRequest None [] [("start-time", ["-3600-1649723812"])] EmptyString in
  let s' := serve (getJobs quietEnv r) fritzDB in
  status (rw s') = Some StatusBadRequest /\ trace s' = [] /\ db s' = fritzDB.
Proof.
  apply (getJobs_negative_start_time_rejected quietEnv
           (mkRequest None [] [("start-time", ["-3600-1649723812"])] EmptyString)
           fritzDB "3600-1649723812" []).
  left. reflexivity.
Defined.

Lemma exec_bind {A B : Type} (m : M A) (k : A -> M B) (s : St) :
  exec (bind m k) s = exec (k (eval m s)) (exec m s).
Proof. unfold exec, eval, bind. destruct (m s). reflexivity. Qed.

Lemma jobResults_ok (E : Env) (withMeta : bool) (d : DB) (jobs : list Job) :
  forall acc s results,
    db s = d ->
    eval (jobResults E withMeta jobs acc) s = inr results ->
    (exists new, results = acc ++ new /\ Forall2 (resultOf E withMeta d) jobs new)
    /\ trace (exec (jobResults E withMeta jobs acc) s)
       = trace s ++ flat_map (callsFor E withMeta d) jobs.
Proof.
  induction jobs as [|j0 jobs IH]; intros acc s results Hd Hres.
  - simpl in Hres. injection Hres as <-. split.
    + exists []. rewrite app_nil_r. auto.
    + unfold exec. simpl. rewrite app_nil_r. reflexivity.
  - unfold eval in Hres. unfold exec. simpl in Hres |- *.
    unfold bind at 1 in Hres. unfold bind at 1.
    assert (Hfetch :
      exists s1,
        (if withMeta then query (CallFetchMetadata j0) (FetchMetadata E j0)
         else ret (j0, None)) s
        = ((if withMeta then FetchMetadata E j0 d else (j0, None)), s1)
        /\ db s1 = d
        /\ trace s1 = trace s ++ (if withMeta then [CallFetchMetadata j0] else [])).
    { destruct withMeta.
      - eexists. unfold query, bind, call, modify. simpl. rewrite Hd.
        split; [reflexivity | split; [exact Hd | reflexivity]].
      - exists s. split; [reflexivity | split; [exact Hd|]].
        rewrite app_nil_r. reflexivity. }
    destruct Hfetch as (s1 & Hrun & Hd1 & Ht1). rewrite Hrun in Hres |- *. clear Hrun.
    assert (Hj : fst (if withMeta then FetchMetadata E j0 d else (j0, None))
                 = if withMeta then fst (FetchMetadata E j0 d) else j0)
      by (destruct withMeta; reflexivity).
    unfold callsFor at 1. cbv zeta. rewrite <- Hj.
    destruct (if withMeta then FetchMetadata E j0 d else (j0, None)) as [j ferr].
    simpl in Hj. cbn [fst]. destruct ferr as [ferr|]; [discriminate Hres|].
    unfold bind at 1 in Hres. unfold GetTags, query, bind, call, modify in Hres.
    unfold bind at 1. unfold GetTags, query, bind at 1 2, call, modify.
    simpl in Hres |- *. rewrite Hd1 in Hres |- *.
    destruct (sqlError E (SelectTags (Some (ID j))) d) as [terr|];
      [discriminate Hres|].
    simpl in Hres |- *.
    destruct (MonitoringStatus_eqb (MonitoringStatusOf (Base j))
                                   MonitoringStatusArchivingSuccessful) eqn:Hms.
    + unfold bind, extern, call, modify, ret in Hres. simpl in Hres. simpl.
      destruct (GetStatistics E j) as [serr|stats] eqn:Hstats; [discriminate Hres|].
      apply IH in Hres; [|simpl; exact Hd1].
      destruct Hres as ((new & -> & Hall) & Htr). split.
      * eexists. rewrite <- app_assoc. split; [reflexivity|].
        constructor; [|exact Hall].
        unfold resultOf. rewrite <- Hj. simpl. rewrite Hms. auto.
      * unfold exec in Htr. rewrite Htr. simpl. rewrite Ht1.
        rewrite <- !app_assoc. reflexivity.
    + apply IH in Hres; [|simpl; exact Hd1].
      destruct Hres as ((new & -> & Hall) & Htr). split.
      * eexists. rewrite <- app_assoc. split; [reflexivity|].
        constructor; [|exact Hall].
        unfold resultOf. rewrite <- Hj. simpl. rewrite Hms. auto.
      * unfold exec in Htr. rewrite Htr. simpl. rewrite Ht1.
        rewrite <- !app_assoc. reflexivity.
Qed.

(** The calls of [getJobs] once the query has run are those of its loop. *)
Lemma getJobs_calls (E : Env) (r : Request) (d : DB) (q : JobsQuery) (jobs : list Job) :
  missingRole E r = false ->
  queryParameters E (mkJobsQuery false (mkJobFilter [] None None)
                                 (mkPageRequest 25 1)) (Query r) = inr q ->
  QueryJobs E (filter_ q) (page q) d = inr jobs ->
  trace (serve (getJobs E r) d)
  = trace (exec (jobResults E (withMetadata q) jobs [])
                (mkSt d emptyRW [CallQueryJobs (filter_ q) (page q)] 0 [] false)).
Proof.
  intros Hrole Hq Hjobs. unfold serve, getJobs. rewrite Hrole, Hq.
  rewrite exec_bind.
  change (eval (query (CallQueryJobs (filter_ q) (page q))
                      (QueryJobs E (filter_ q) (page q))) (initial d))
    with (QueryJobs E (filter_ q) (page q) d).
  change (exec (query (CallQueryJobs (filter_ q) (page q))
                      (QueryJobs E (filter_ q) (page q))) (initial d))
    with (mkSt d emptyRW [CallQueryJobs (filter_ q) (page q)] 0 [] false).
  rewrite Hjobs. rewrite exec_bind.
  destruct (eval (jobResults E (withMetadata q) jobs []) _) as [err|results];
    [reflexivity|].
  destruct (encodeJobsError E results); reflexivity.
Qed.



(** *** More on the tag repository *)


Lemma find_app_last {A : Type} (f : A -> bool) (l : list A) (x : A) :
  find f l = None -> f x = true -> find f (l ++ [x]) = Some x.
Proof.
  intros Hnone Hx. induction l as [|y l IH]; simpl in *.
  - rewrite Hx. reflexivity.
  - destruct (f y); [discriminate | apply IH; exact Hnone].
Qed.

Lemma find_none_iff {A : Type} (f : A -> bool) (l : list A) :
  find f l = None <-> forall x, In x l -> f x = false.
Proof.
  split; [apply find_none|].
  intros H. destruct (find f l) as [x|] eqn:Hf; [|reflexivity].
  apply find_some in Hf. destruct Hf as [Hin Hx]. rewrite (H x Hin) in Hx.
  discriminate Hx.
Qed.

Lemma tagMatches_mkTag (ty nm : string) (id : Z) : tagMatches ty nm (mkTag id ty nm) = true.
Proof. unfold tagMatches. simpl. rewrite !String.eqb_refl. reflexivity. Qed.

(** What [TagId] returns when its query runs without error: the id of the
    first row with that type and name. *)
Lemma TagId_eval (E : Env) (ty nm : string) (s : St) :
  sqlError E (SelectTagId ty nm) (db s) = None ->
  eval (TagId E ty nm) s
  = match find (tagMatches ty nm) (tag (db s)) with
    | Some t => (tag_ID t, true)
    | None => (0, false)
    end.
Proof.
  intros H. unfold eval, TagId, bind, query, call, modify, ret. simpl. rewrite H.
  destruct (find (tagMatches ty nm) (tag (db s))); reflexivity.
Qed.

(** X7.  A tag that [CreateTag] has created is found by [TagId]: after a
    [CreateTag] that returned no error, a [TagId] whose query runs reports
    that the tag exists, and when no row had that type and name before, the
    id it returns is the one [CreateTag] returned. *)
Theorem CreateTag_then_TagId (E : Env) (ty nm : string) (s : St) :
  snd (eval (CreateTag E ty nm) s) = None ->
  let id := fst (eval (CreateTag E ty nm) s) in
  let s1 := exec (CreateTag E ty nm) s in
  sqlError E (SelectTagId ty nm) (db s1) = None ->
  snd (eval (TagId E ty nm) s1) = true
  /\ ((forall t, In t (tag (db s)) -> tagMatches ty nm t = false) ->
      fst (eval (TagId E ty nm) s1) = id).
Proof.
  intros Herr. cbv zeta. intros Hsel.
  pose proof (CreateTag_run E ty nm s) as H. cbv zeta in H.
  destruct H as (_ & _ & Hrow). unfold eval in Herr. specialize (Hrow Herr).
  rewrite (TagId_eval E ty nm _ Hsel). unfold exec, eval. rewrite Hrow.
  split.
  - destruct (find (tagMatches ty nm) (tag (db s) ++ _)) as [t|] eqn:Hf;
      [reflexivity|].
    rewrite find_none_iff in Hf. exfalso.
    specialize (Hf (mkTag (fst (fst (CreateTag E ty nm s))) ty nm)).
    rewrite tagMatches_mkTag in Hf.
    assert (true = false) as Habs; [|discriminate Habs].
    apply Hf. apply in_or_app. right. left. reflexivity.
  - intros Habs. apply find_none_iff in Habs.
    rewrite (find_app_last _ _ _ Habs (tagMatches_mkTag ty nm _)). reflexivity.
Qed.

Lemma CreateTag_then_TagId_witness :
  let s1 := exec (CreateTag quietEnv "Debug" "Testjob") (initial fritzDB) in
  snd (eval (TagId quietEnv "Debug" "Testjob") s1) = true
  /\ fst (eval (TagId quietEnv "Debug" "Testjob") s1) = 1.
Proof.
  cbv zeta.
  destruct (CreateTag_then_TagId quietEnv "Debug" "Testjob" (initial fritzDB)
              eq_refl eq_refl) as [Hex Hid].
  split; [exact Hex|]. rewrite Hid; [reflexivity|]. intros t [].
Defined.

(** X8.  [AddTag] does not undo its insert: once the driver has accepted the
    row, [jobtag] holds it whatever the later steps do; when the job cannot
    be read back the call returns that error and no tags, the row stays,
    and the archive is not updated. *)
Theorem AddTag_keeps_row_on_failure (E : Env) (jobId tagId : Z) (s : St) :
  sqlError E (InsertJobtag jobId tagId) (db s) = None ->
  let r := AddTag E jobId tagId s in
  jobtag (db (snd r)) = jobtag (db s) ++ [(jobId, tagId)]
  /\ tag (db (snd r)) = tag (db s)
  /\ job (db (snd r)) = job (db s)
  /\ (forall err,
        FindById E jobId (db (snd r)) = inl err ->
        fst r = ([], Some err)
        /\ trace (snd r)
           = trace s ++ [CallSql (InsertJobtag jobId tagId); CallFindById jobId]).
Proof.
  intros Hins. cbv zeta. unfold AddTag, GetTags, sqlExec.
  unfold bind, query, update, extern, call, modify, bind, ret. simpl.
  rewrite Hins. simpl.
  match goal with
  | |- context [FindById E jobId ?d] => destruct (FindById E jobId d) as [e|j] eqn:Hf
  end; simpl.
  - split; [reflexivity|]. split; [reflexivity|]. split; [reflexivity|].
    intros err Herr. rewrite Hf in Herr. injection Herr as <-.
    rewrite <- app_assoc. split; reflexivity.
  - match goal with
    | |- context [sqlError E (SelectTags (Some jobId)) ?d] =>
        destruct (sqlError E (SelectTags (Some jobId)) d)
    end; simpl.
    + split; [reflexivity|]. split; [reflexivity|]. split; [reflexivity|].
      intros err Herr. rewrite Hf in Herr. discriminate Herr.
    + split; [reflexivity|]. split; [reflexivity|]. split; [reflexivity|].
      intros err Herr. rewrite Hf in Herr. discriminate Herr.
Qed.

(** A scenario job that is not in the store: the row is written all the
    same. *)
Lemma AddTag_keeps_row_on_failure_witness :
  let r := AddTag quietEnv 99 7 (initial fritzDB) in
  jobtag (db (snd r)) = [(99, 7)] /\ fst r = ([], Some ErrNoRows).
Proof.
  cbv zeta.
  destruct (AddTag_keeps_row_on_failure quietEnv 99 7 (initial fritzDB) eq_refl)
    as (Hjt & _ & _ & Hfail).
  split; [rewrite Hjt; reflexivity|].
  destruct (Hfail ErrNoRows) as [Hres _]; [reflexivity | exact Hres].
Defined.

Lemma RemoveTag_tables (E : Env) (jobId tagId : Z) (s : St) :
  sqlError E (DeleteJobtag jobId tagId) (db s) = None ->
  let d' := db (snd (RemoveTag E jobId tagId s)) in
  jobtag d' = filter (fun jt => negb ((fst jt =? jobId) && (snd jt =? tagId)))
                     (jobtag (db s))
  /\ tag d' = tag (db s)
  /\ job d' = job (db s).
Proof.
  intros Hd. cbv zeta. unfold RemoveTag, GetTags, sqlExec.
  unfold bind, query, update, extern, call, modify, bind, ret. simpl.
  rewrite Hd. simpl.
  match goal with
  | |- context [FindById E jobId ?d] => destruct (FindById E jobId d)
  end; simpl; [repeat split|].
  match goal with
  | |- context [sqlError E (SelectTags (Some jobId)) ?d] =>
      destruct (sqlError E (SelectTags (Some jobId)) d)
  end; simpl; repeat split.
Qed.



Lemma filter_all {A : Type} (f : A -> bool) (l : list A) :
  (forall x, In x l -> f x = true) -> filter f l = l.
Proof.
  intros H. induction l as [|x l IH]; [reflexivity|]. simpl.
  rewrite (H x (or_introl eq_refl)). f_equal. apply IH.
  intros y Hy. apply H. right. exact Hy.
Qed.

(** The tables after an [AddTag] whose insert the driver accepted. *)
Lemma AddTag_tables (E : Env) (jobId tagId : Z) (s : St) :
  sqlError E (InsertJobtag jobId tagId) (db s) = None ->
  let r := AddTag E jobId tagId s in
  jobtag (db (snd r)) = jobtag (db s) ++ [(jobId, tagId)]
  /\ tag (db (snd r)) = tag (db s)
  /\ job (db (snd r)) = job (db s).
Proof.
  intros Hins. cbv zeta. unfold AddTag, GetTags, sqlExec.
  unfold bind, query, update, extern, call, modify, bind, ret. simpl.
  rewrite Hins. simpl.
  match goal with
  | |- context [FindById E jobId ?d] => destruct (FindById E jobId d) as [e|j]
  end; simpl.
  - split; [reflexivity|]. split; reflexivity.
  - match goal with
    | |- context [sqlError E (SelectTags (Some jobId)) ?d] =>
        destruct (sqlError E (SelectTags (Some jobId)) d)
    end; simpl; (split; [reflexivity|]; split; reflexivity).
Qed.

(** X10.  Adding a tag to a job and removing it again gives back the
    [jobtag] table of before, when the job did not have the tag and the
    driver accepts both statements; [tag] and [job] are as before. *)
Theorem AddTag_then_RemoveTag (E : Env) (jobId tagId : Z) (s : St) :
  ~ In (jobId, tagId) (jobtag (db s)) ->
  sqlError E (InsertJobtag jobId tagId) (db s) = None ->
  let s1 := exec (AddTag E jobId tagId) s in
  sqlError E (DeleteJobtag jobId tagId) (db s1) = None ->
  let s2 := exec (RemoveTag E jobId tagId) s1 in
  jobtag (db s2) = jobtag (db s)
  /\ tag (db s2) = tag (db s)
  /\ job (db s2) = job (db s).
Proof.
  intros Hfresh Hins. cbv zeta. intros Hdel.
  destruct (AddTag_tables E jobId tagId s Hins) as (Hjt & Htag & Hjob).
  unfold exec in *.
  pose proof (RemoveTag_tables E jobId tagId _ Hdel) as Hremoved. cbv zeta in Hremoved.
  destruct Hremoved as (Hjt2 & Htag2 & Hjob2).
  rewrite Hjt2, Htag2, Hjob2, Hjt, Htag, Hjob.
  split; [|split; reflexivity].
  rewrite filter_app. simpl. rewrite !Z.eqb_refl. simpl. rewrite app_nil_r.
  apply filter_all. intros [a b] Hin. simpl.
  apply negb_true_iff. apply andb_false_iff.
  destruct (Z.eqb_spec a jobId) as [->|Ha]; [|left; reflexivity].
  right. apply Z.eqb_neq. intros ->. apply Hfresh. exact Hin.
Qed.

Lemma AddTag_then_RemoveTag_witness :
  let d := mkDB [fritzJob] [mkTag 7 "Debug" "Testjob"] [] in
  let s1 := exec (AddTag quietEnv 1 7) (initial d) in
  jobtag (db s1) = [(1, 7)]
  /\ jobtag (db (exec (RemoveTag quietEnv 1 7) s1)) = [].
Proof.
  cbv zeta. split; [reflexivity|].
  destruct (AddTag_then_RemoveTag quietEnv 1 7
              (initial (mkDB [fritzJob] [mkTag 7 "Debug" "Testjob"] []))
              (fun H => H) eq_refl eq_refl) as (Hjt & _ & _).
  exact Hjt.
Defined.

(** When [TagId] reports the tag present, [AddTagOrCreate] leaves [tag]
    alone and makes no INSERT into it, whatever happens afterwards. *)
Lemma AddTagOrCreate_present (E : Env) (jobId : Z) (ty nm : string) (s : St) :
  snd (eval (TagId E ty nm) s) = true ->
  let r := AddTagOrCreate E jobId ty nm s in
  tag (db (snd r)) = tag (db s)
  /\ (snd (fst r) = None -> fst (fst r) = fst (eval (TagId E ty nm) s))
  /\ exists calls,
       trace (snd r) = trace s ++ calls
       /\ forall ty' nm', ~ In (CallSql (InsertTag ty' nm')) calls.
Proof.
  intros Hex. cbv zeta. rewrite AddTagOrCreate_unfold. unfold eval in *.
  pose proof (TagId_run E ty nm s) as Hlook. cbv zeta in Hlook.
  destruct (TagId E ty nm s) as [[id0 ex] s0]. simpl in Hlook, Hex |- *.
  destruct Hlook as (Hs0 & _ & _). subst ex. simpl.
  pose proof (AddTag_run E jobId id0 s0) as Hadd. cbv zeta in Hadd.
  destruct (AddTag E jobId id0 s0) as [[tags aerr] s2]. simpl in Hadd |- *.
  destruct Hadd as (calls & Ht & Hnoins & Htag & _).
  assert (Hd0 : db s0 = db s) by (rewrite Hs0; reflexivity).
  assert (Ht0 : trace s0 = trace s ++ [CallSql (SelectTagId ty nm)])
    by (rewrite Hs0; reflexivity).
  assert (Hcalls : forall ty' nm',
             ~ In (CallSql (InsertTag ty' nm')) (CallSql (SelectTagId ty nm) :: calls)).
  { intros ty' nm' [H | H]; [discriminate H | exact (Hnoins _ _ H)]. }
  destruct aerr as [aerr|]; simpl.
  - split; [rewrite Htag, Hd0; reflexivity|]. split; [discriminate|].
    exists (CallSql (SelectTagId ty nm) :: calls).
    split; [rewrite Ht, Ht0, <- app_assoc; reflexivity | exact Hcalls].
  - split; [rewrite Htag, Hd0; reflexivity|]. split; [reflexivity|].
    exists (CallSql (SelectTagId ty nm) :: calls).
    split; [rewrite Ht, Ht0, <- app_assoc; reflexivity | exact Hcalls].
Qed.

(** X11.  A tag is created once: after an [AddTagOrCreate] that returned no
    error, a second one for the same type and name, for the same or another
    job, finds the tag, makes no INSERT into [tag], leaves [tag] as it is
    and, when it returns no error, returns the same tag id.  (Both lookups
    run without error.) *)
Theorem AddTagOrCreate_creates_once
  (E : Env) (job1 job2 : Z) (ty nm : string) (s : St) :
  sqlError E (SelectTagId ty nm) (db s) = None ->
  snd (eval (AddTagOrCreate E job1 ty nm) s) = None ->
  let s1 := exec (AddTagOrCreate E job1 ty nm) s in
  sqlError E (SelectTagId ty nm) (db s1) = None ->
  let r := AddTagOrCreate E job2 ty nm s1 in
  tag (db (snd r)) = tag (db s1)
  /\ (snd (fst r) = None -> fst (fst r) = fst (eval (AddTagOrCreate E job1 ty nm) s))
  /\ exists calls,
       trace (snd r) = trace s1 ++ calls
       /\ forall ty' nm', ~ In (CallSql (InsertTag ty' nm')) calls.
Proof.
  intros Hsel Hok. cbv zeta. intros Hsel1.
  destruct (AddTagOrCreate_run E job1 ty nm s) as (calls1 & _ & _ & _ & Hrun).
  destruct (Hrun Hok) as (Htag & Hin & _). clear Hrun.
  assert (Hfind : eval (TagId E ty nm) (exec (AddTagOrCreate E job1 ty nm) s)
                  = (fst (eval (AddTagOrCreate E job1 ty nm) s), true)).
  { rewrite (TagId_eval E ty nm _ Hsel1).
    rewrite (TagId_eval E ty nm s Hsel) in Htag.
    destruct (find (tagMatches ty nm) (tag (db s))) as [t|] eqn:Hf; simpl in Htag.
    - rewrite Htag, Hf.
      pose proof (AddTagOrCreate_present E job1 ty nm s) as Hp. cbv zeta in Hp.
      rewrite (TagId_eval E ty nm s Hsel), Hf in Hp. simpl in Hp.
      destruct (Hp eq_refl) as (_ & Hid & _). unfold eval. rewrite (Hid Hok).
      reflexivity.
    - rewrite Htag.
      rewrite (find_app_last _ _ _ Hf (tagMatches_mkTag ty nm _)). reflexivity. }
  pose proof (AddTagOrCreate_present E job2 ty nm
                (exec (AddTagOrCreate E job1 ty nm) s)) as Hp.
  cbv zeta in Hp. rewrite Hfind in Hp. simpl in Hp.
  exact (Hp eq_refl).
Qed.

Lemma AddTagOrCreate_creates_once_witness :
  let s1 := exec (AddTagOrCreate quietEnv 1 "Debug" "Testjob")
                 (initial (mkDB [fritzJob; olderJob] [] [])) in
  let r := AddTagOrCreate quietEnv 2 "Debug" "Testjob" s1 in
  tag (db (snd r)) = [mkTag 1 "Debug" "Testjob"] /\ fst r = (1, None).
Proof.
  cbv zeta.
  destruct (AddTagOrCreate_creates_once quietEnv 1 2 "Debug" "Testjob"
              (initial (mkDB [fritzJob; olderJob] [] []))
              eq_refl eq_refl eq_refl) as (Htag & Hid & _).
  split; [rewrite Htag; reflexivity|].
  specialize (Hid eq_refl).
  destruct (AddTagOrCreate quietEnv 2 "Debug" "Testjob" _) as [[id err] s2] eqn:Hr.
  simpl in Hid. subst id.
  assert (Herr : snd (fst (AddTagOrCreate quietEnv 2 "Debug" "Testjob"
                   (exec (AddTagOrCreate quietEnv 1 "Debug" "Testjob")
                         (initial (mkDB [fritzJob; olderJob] [] []))))) = None)
    by reflexivity.
  rewrite Hr in Herr. simpl in Herr. subst err. reflexivity.
Defined.

(** *** [CountTags] *)

Lemma filter_filter {A : Type} (f g : A -> bool) (l : list A) :
  filter f (filter g l) = filter (fun x => g x && f x) l.
Proof.
  induction l as [|x l IH]; [reflexivity|]. simpl.
  destruct (g x); simpl; [destruct (f x)|]; rewrite IH; reflexivity.
Qed.

Lemma filter_false {A : Type} (f : A -> bool) (l : list A) :
  (forall x, In x l -> f x = false) -> filter f l = [].
Proof.
  intros H. induction l as [|x l IH]; [reflexivity|]. simpl.
  rewrite (H x (or_introl eq_refl)). apply IH. intros y Hy. apply H. right. exact Hy.
Qed.

Lemma filter_const_and {A : Type} (b : bool) (f : A -> bool) (l : list A) :
  filter (fun x => b && f x) l = if b then filter f l else [].
Proof.
  destruct b; simpl; [reflexivity|]. apply filter_false. reflexivity.
Qed.

(** The rows of the left join for one tag. *)
Lemma leftJoin_count_tag (g : Z -> bool) (jts : list (Z * Z)) (name : string) (t : Tag) :
  length
    (filter (fun row : Tag * option (Z * Z) =>
               String.eqb (tag_Name (fst row)) name
               && match snd row with Some jt => g (fst jt) | None => false end)
            match filter (fun jt => tag_ID t =? snd jt) jts with
            | [] => [(t, None)]
            | l => map (fun jt => (t, Some jt)) l
            end)
  = length
      (filter (fun p : Tag * (Z * Z) =>
                 String.eqb (tag_Name (fst p)) name
                 && (tag_ID (fst p) =? snd (snd p))
                 && g (fst (snd p)))
              (map (fun jt => (t, jt)) jts)).
Proof.
  rewrite (filter_map_swap _ (fun jt : Z * Z => (t, jt))), length_map.
  cbn [fst snd].
  transitivity
    (length (filter (fun jt : Z * Z => String.eqb (tag_Name t) name && g (fst jt))
                    (filter (fun jt => tag_ID t =? snd jt) jts))).
  - destruct (filter (fun jt => tag_ID t =? snd jt) jts) as [|jt0 l].
    + cbn. rewrite andb_false_r. reflexivity.
    + rewrite (filter_map_swap _ (fun jt : Z * Z => (t, Some jt))), length_map.
      reflexivity.
  - rewrite filter_filter. f_equal. apply filter_ext. intros jt.
    destruct (tag_ID t =? snd jt), (String.eqb (tag_Name t) name); reflexivity.
Qed.

(** The rows of the left join that have a [jt] passing [g] and a tag named
    [name] are as many as the pairs [associations] counts. *)
Lemma leftJoin_count (g : Z -> bool) (d : DB) (name : string) :
  Z.of_nat
    (length
       (filter (fun row : Tag * option (Z * Z) =>
                  String.eqb (tag_Name (fst row)) name
                  && match snd row with Some jt => g (fst jt) | None => false end)
               (leftJoin d)))
  = associations g d name.
Proof.
  unfold associations, leftJoin. f_equal.
  induction (tag d) as [|t l IH]; [reflexivity|].
  cbn [flat_map list_prod]. rewrite !filter_app, !length_app, IH. f_equal.
  apply leftJoin_count_tag.
Qed.

Lemma lookup_map_key (c : string -> Z) (names : list string) (name : string) :
  lookup name (map (fun n => (n, c n)) names)
  = if in_dec string_dec name names then Some (c name) else None.
Proof.
  induction names as [|n names IH]; [reflexivity|]. simpl.
  destruct (String.eqb_spec name n) as [Heq|Hne].
  - subst n.
    destruct (string_dec name name) as [H|H]; [reflexivity | contradiction H; reflexivity].
  - rewrite IH. destruct (string_dec n name) as [Heq|Hn];
      [contradiction Hne; symmetry; exact Heq|].
    destruct (in_dec string_dec name names); reflexivity.
Qed.

Lemma lookup_groupByName (rows : list (Tag * option (Z * Z))) (name : string) :
  lookup name (groupByName rows)
  = if existsb (fun row => String.eqb (tag_Name (fst row)) name) rows
    then Some (Z.of_nat (length (filter (fun row => String.eqb (tag_Name (fst row)) name
                                                    && hasJt row) rows)))
    else None.
Proof.
  unfold groupByName.
  rewrite (lookup_map_key
             (fun n => Z.of_nat (length (filter (fun row => String.eqb (tag_Name (fst row)) n
                                                           && hasJt row) rows)))).
  destruct (in_dec string_dec name (nodup string_dec (map (fun row => tag_Name (fst row)) rows)))
    as [Hin | Hnot].
  - apply nodup_In in Hin. apply in_map_iff in Hin. destruct Hin as (row & Hn & Hrow).
    assert (Hex : existsb (fun row => String.eqb (tag_Name (fst row)) name) rows = true).
    { apply existsb_exists. exists row. split; [exact Hrow|].
      rewrite Hn. apply String.eqb_refl. }
    rewrite Hex. reflexivity.
  - destruct (existsb (fun row => String.eqb (tag_Name (fst row)) name) rows) eqn:Hex;
      [|reflexivity].
    exfalso. apply Hnot. apply nodup_In. apply in_map_iff.
    apply existsb_exists in Hex. destruct Hex as (row & Hrow & Hn).
    exists row. split; [|exact Hrow]. apply String.eqb_eq. exact Hn.
Qed.

Lemma leftJoin_names (d : DB) (name : string) :
  existsb (fun row => String.eqb (tag_Name (fst row)) name) (leftJoin d)
  = existsb (fun t => String.eqb (tag_Name t) name) (tag d).
Proof.
  unfold leftJoin. induction (tag d) as [|t l IH]; [reflexivity|].
  cbn [flat_map existsb]. rewrite existsb_app, IH. f_equal.
  destruct (filter (fun jt => tag_ID t =? snd jt) (jobtag d)) as [|jt0 jts].
  - cbn. apply orb_false_r.
  - cbn. destruct (String.eqb (tag_Name t) name) eqn:Hn; [reflexivity|].
    cbn. induction jts as [|jt jts IHj]; [reflexivity|].
    cbn. rewrite Hn. exact IHj.
Qed.



Lemma existsb_filter {A : Type} (f g : A -> bool) (l : list A) :
  existsb f (filter g l) = existsb (fun x => g x && f x) l.
Proof.
  induction l as [|x l IH]; [reflexivity|]. simpl.
  destruct (g x); simpl; rewrite IH; reflexivity.
Qed.

Lemma existsb_length {A : Type} (f : A -> bool) (l : list A) :
  existsb f l = (0 <? Z.of_nat (length (filter f l))).
Proof.
  induction l as [|x l IH]; [reflexivity|]. cbn [existsb filter].
  destruct (f x); [|exact IH]. cbn [orb length].
  symmetry. apply Z.ltb_lt. lia.
Qed.



(** *** The tag repository and the server state *)

Lemma keepsServer_sqlExec (E : Env) (q : Sql) : keepsServer (sqlExec E q).
Proof. unfold sqlExec. auto with keepsServer. Qed.

#[local] Hint Resolve keepsServer_sqlExec : keepsServer.

Lemma keepsServer_AddTagOrCreate (E : Env) (jobId : Z) (ty nm : string) :
  keepsServer (AddTagOrCreate E jobId ty nm).
Proof.
  unfold AddTagOrCreate, TagId, CreateTag, AddTag.
  repeat first [ solve [auto with keepsServer] | keeps_step @keepsServer_bind ].
Qed.

#[local] Hint Resolve keepsServer_AddTagOrCreate : keepsServer.

Lemma keepsServer_addTags (E : Env) (id : Z) (tags : list (option Tag)) :
  keepsServer (addTags E id tags).
Proof.
  induction tags as [|t tags IH]; simpl.
  - auto with keepsServer.
  - repeat first [ solve [auto with keepsServer] | apply IH
                 | keeps_step @keepsServer_bind ].
Qed.

Lemma keepsServer_tagLoop (E : Env) (id : Z) (req : list (option ApiTag)) :
  forall added, keepsServer (tagLoop E id req added).
Proof.
  induction req as [|t req IH]; intros added; simpl.
  - auto with keepsServer.
  - repeat first [ solve [auto with keepsServer] | apply IH
                 | keeps_step @keepsServer_bind ].
Qed.

Lemma keepsJobs_ret {A : Type} (a : A) : keepsJobs (ret a).
Proof. intros s. reflexivity. Qed.

Lemma keepsJobs_bind {A B : Type} (m : M A) (k : A -> M B) :
  keepsJobs m -> (forall a, keepsJobs (k a)) -> keepsJobs (bind m k).
Proof.
  intros Hm Hk s. unfold bind. specialize (Hm s).
  destruct (m s) as [a s1]. simpl in Hm. rewrite Hk. exact Hm.
Qed.

Lemma keepsJobs_call (c : Call) : keepsJobs (call c).
Proof. intros s. reflexivity. Qed.

Lemma keepsJobs_query {A : Type} (c : Call) (f : DB -> A) : keepsJobs (query c f).
Proof. intros s. reflexivity. Qed.

Lemma keepsJobs_extern {A : Type} (c : Call) (a : A) : keepsJobs (extern c a).
Proof. intros s. reflexivity. Qed.

Lemma keepsJobs_sqlExec (E : Env) (q : Sql) : keepsJobs (sqlExec E q).
Proof.
  intros s. unfold sqlExec, update, bind, call, modify. simpl.
  destruct (sqlError E q (db s)); [reflexivity|]. destruct q; reflexivity.
Qed.

Create HintDb keepsJobs.
#[local] Hint Resolve keepsJobs_ret keepsJobs_call keepsJobs_query keepsJobs_extern
  keepsJobs_sqlExec : keepsJobs.

Lemma keepsJobs_GetTags (E : Env) (j : option Z) : keepsJobs (GetTags E j).
Proof. unfold GetTags. auto with keepsJobs. Qed.

#[local] Hint Resolve keepsJobs_GetTags : keepsJobs.

Lemma keepsJobs_AddTagOrCreate (E : Env) (jobId : Z) (ty nm : string) :
  keepsJobs (AddTagOrCreate E jobId ty nm).
Proof.
  unfold AddTagOrCreate, TagId, CreateTag, AddTag.
  repeat first [ solve [auto with keepsJobs] | keeps_step @keepsJobs_bind ].
Qed.

#[local] Hint Resolve keepsJobs_AddTagOrCreate : keepsJobs.

Lemma keepsJobs_addTags (E : Env) (id : Z) (tags : list (option Tag)) :
  keepsJobs (addTags E id tags).
Proof.
  induction tags as [|t tags IH]; simpl.
  - auto with keepsJobs.
  - repeat first [ solve [auto with keepsJobs] | apply IH
                 | keeps_step @keepsJobs_bind ].
Qed.

Lemma keepsJobs_tagLoop (E : Env) (id : Z) (req : list (option ApiTag)) :
  forall added, keepsJobs (tagLoop E id req added).
Proof.
  induction req as [|t req IH]; intros added; simpl.
  - auto with keepsJobs.
  - repeat first [ solve [auto with keepsJobs] | apply IH
                 | keeps_step @keepsJobs_bind ].
Qed.

Lemma extendsTrace_ret {A : Type} (a : A) : extendsTrace (ret a).
Proof. intros s. exists []. symmetry. apply app_nil_r. Qed.

Lemma extendsTrace_bind {A B : Type} (m : M A) (k : A -> M B) :
  extendsTrace m -> (forall a, extendsTrace (k a)) -> extendsTrace (bind m k).
Proof.
  intros Hm Hk s. unfold bind. destruct (Hm s) as [c1 H1].
  destruct (m s) as [a s1]. simpl in H1. destruct (Hk a s1) as [c2 H2].
  exists (c1 ++ c2). rewrite H2, H1, app_assoc. reflexivity.
Qed.

Lemma extendsTrace_call (c : Call) : extendsTrace (call c).
Proof. intros s. exists [c]. reflexivity. Qed.

Lemma extendsTrace_query {A : Type} (c : Call) (f : DB -> A) : extendsTrace (query c f).
Proof. intros s. exists [c]. reflexivity. Qed.

Lemma extendsTrace_update {A : Type} (c : Call) (f : DB -> A * DB) :
  extendsTrace (update c f).
Proof.
  intros s. exists [c]. unfold update, bind, call, modify. simpl.
  destruct (f (db s)); reflexivity.
Qed.

Lemma extendsTrace_extern {A : Type} (c : Call) (a : A) : extendsTrace (extern c a).
Proof. intros s. exists [c]. reflexivity. Qed.

Lemma extendsTrace_onRW (f : ResponseWriter -> ResponseWriter) : extendsTrace (onRW f).
Proof. intros s. exists []. symmetry. apply app_nil_r. Qed.

Lemma extendsTrace_handleError (err : error) (code : Z) :
  extendsTrace (handleError err code).
Proof. intros s. exists []. symmetry. apply app_nil_r. Qed.

Lemma extendsTrace_httpError (msg : string) (code : Z) :
  extendsTrace (httpError msg code).
Proof. intros s. exists []. symmetry. apply app_nil_r. Qed.

Lemma extendsTrace_Encode (p : Payload) : extendsTrace (Encode p).
Proof. intros s. exists []. symmetry. apply app_nil_r. Qed.

Create HintDb extendsTrace.
#[local] Hint Resolve extendsTrace_ret extendsTrace_call extendsTrace_query
  extendsTrace_update extendsTrace_extern extendsTrace_onRW
  extendsTrace_handleError extendsTrace_httpError extendsTrace_Encode : extendsTrace.

Lemma extendsTrace_AddTagOrCreate (E : Env) (jobId : Z) (ty nm : string) :
  extendsTrace (AddTagOrCreate E jobId ty nm).
Proof.
  unfold AddTagOrCreate, TagId, CreateTag, AddTag, GetTags, sqlExec.
  repeat first [ solve [auto with extendsTrace] | keeps_step @extendsTrace_bind ].
Qed.

#[local] Hint Resolve extendsTrace_AddTagOrCreate : extendsTrace.

Lemma extendsTrace_addTags (E : Env) (id : Z) (tags : list (option Tag)) :
  extendsTrace (addTags E id tags).
Proof.
  induction tags as [|t tags IH]; simpl.
  - auto with extendsTrace.
  - repeat first [ solve [auto with extendsTrace] | apply IH
                 | keeps_step @extendsTrace_bind ].
Qed.

(** *** More on [startJob] *)

Lemma keepsLock_ret {A : Type} (a : A) : keepsLock (ret a).
Proof. intros s. reflexivity. Qed.

Lemma keepsLock_bind {A B : Type} (m : M A) (k : A -> M B) :
  keepsLock m -> (forall a, keepsLock (k a)) -> keepsLock (bind m k).
Proof.
  intros Hm Hk s. unfold bind. specialize (Hm s).
  destruct (m s) as [a s1]. simpl in Hm. rewrite Hk. exact Hm.
Qed.

Lemma keepsLock_onRW (f : ResponseWriter -> ResponseWriter) : keepsLock (onRW f).
Proof. intros s. reflexivity. Qed.

Lemma keepsLock_handleError (err : error) (code : Z) : keepsLock (handleError err code).
Proof. intros s. reflexivity. Qed.

Lemma keepsLock_httpError (msg : string) (code : Z) : keepsLock (httpError msg code).
Proof. intros s. reflexivity. Qed.

Lemma keepsLock_Encode (p : Payload) : keepsLock (Encode p).
Proof. intros s. reflexivity. Qed.

Lemma keepsLock_HeaderAdd (k v : string) : keepsLock (HeaderAdd k v).
Proof. intros s. reflexivity. Qed.

Lemma keepsLock_WriteHeader (code : Z) : keepsLock (WriteHeader code).
Proof. intros s. reflexivity. Qed.

Lemma keepsServer_keepsLock {A : Type} (m : M A) : keepsServer m -> keepsLock m.
Proof. intros H s. apply (H s). Qed.

Lemma keepsLock_addTags (E : Env) (id : Z) (tags : list (option Tag)) :
  keepsLock (addTags E id tags).
Proof. apply keepsServer_keepsLock, keepsServer_addTags. Qed.

Create HintDb keepsLock.
#[local] Hint Resolve keepsLock_ret keepsLock_onRW keepsLock_handleError
  keepsLock_httpError keepsLock_Encode keepsLock_HeaderAdd keepsLock_WriteHeader
  keepsLock_addTags : keepsLock.

(** The part of [startJob] after the mutex has been released. *)
Lemma keepsLock_startJob_tail (E : Env) (req : JobMeta) (o : option Z) :
  keepsLock
    (match o with
     | None => ret tt
     | Some id =>
         terr <- addTags E id (Tags (meta_Base req)) ;;
         match terr with
         | Failed err =>
             httpError (Error err) StatusInternalServerError ;;
             handleError
               (Errorf_w ("adding tag to new job " +++ fmt_d id +++ " failed: ") err)
               StatusInternalServerError
         | Finished _ =>
             HeaderAdd "Content-Type" "application/json" ;;
             WriteHeader StatusCreated ;;
             Encode (StartJobApiResponse id)
         | Panicked => ret tt
         end
     end).
Proof.
  repeat first [ solve [auto with keepsLock] | keeps_step @keepsLock_bind ].
Qed.

(** X14.  [startJob] never leaves the repository mutex locked: on every
    path, whatever the collaborators answer, it is released when the
    handler returns. *)
Theorem startJob_releases_the_mutex (E : Env) (r : Request) (d : DB) :
  RepositoryMutex (serve (startJob E r) d) = false.
Proof.
  unfold serve, exec, startJob.
  destruct (missingRole E r); [reflexivity|].
  destruct (decodeJobMeta E (Body r) _) as [derr|req0]; [reflexivity|].
  destruct (SanityChecks E _) as [base [serr|]]; [reflexivity|].
  unfold bind at 1. unfold Lock at 1. unfold modify at 1. cbv beta iota.
  unfold bind at 1.
  destruct (startJobLocked E _ (set_mutex true (initial d))) as [o s1].
  unfold bind at 1. unfold Unlock at 1. unfold modify at 1. cbv beta iota.
  rewrite (keepsLock_startJob_tail E _ o). reflexivity.
Qed.

(** The loop over the tags of a start request panics only at a nil element,
    and the panic is the last thing that happens. *)
Lemma addTags_panics (E : Env) (id : Z) (tags : list (option Tag)) :
  forall s,
    eval (addTags E id tags) s = Panicked ->
    In None tags
    /\ exists before, trace (exec (addTags E id tags) s) = before ++ [RuntimePanic].
Proof.
  induction tags as [|[t|] tags IH]; intros s H.
  - discriminate H.
  - unfold eval in H. unfold exec. cbn [addTags] in *. unfold bind in *.
    destruct (AddTagOrCreate E id (tag_Type t) (tag_Name t) s) as [[tagId [err|]] s1];
      cbn [snd fst] in *.
    + discriminate H.
    + destruct (IH s1 H) as [Hin Hlast]. split; [right; exact Hin | exact Hlast].
  - split; [left; reflexivity|]. exists (trace s). reflexivity.
Qed.

(** What [startJob] does once the job row is inserted. *)
Lemma startJob_after_insert
  (E : Env) (r : Request) (req : JobMeta) (d : DB) (id : Z) (s1 : St) :
  missingRole E r = false ->
  validated E r = Some req ->
  startJobLocked E req (set_mutex true (initial d)) = (Some id, s1) ->
  rw s1 = emptyRW ->
  let s' := serve (startJob E r) d in
  job (db s') = job (db s1)
  /\ (exists calls, trace s' = trace s1 ++ calls)
  /\ ((status (rw s') = Some StatusCreated
       /\ body (rw s') = [JSON (StartJobApiResponse id)])
      \/ (exists err,
            status (rw s') = Some StatusInternalServerError
            /\ body (rw s')
               = [Text (Error err +++ newline);
                  JSON (ErrorResponse "Internal Server Error"
                          (Error (Errorf_w ("adding tag to new job " +++ fmt_d id
                                            +++ " failed: ") err)))])
      \/ (In None (Tags (meta_Base req))
          /\ rw s' = emptyRW
          /\ exists before, trace s' = before ++ [RuntimePanic])).
Proof.
  intros Hrole Hval Hlocked Hrw. cbv zeta.
  assert (Hrun :
    serve (startJob E r) d
    = exec (terr <- addTags E id (Tags (meta_Base req)) ;;
            match terr with
            | Failed err =>
                httpError (Error err) StatusInternalServerError ;;
                handleError
                  (Errorf_w ("adding tag to new job " +++ fmt_d id +++ " failed: ") err)
                  StatusInternalServerError
            | Finished _ =>
                HeaderAdd "Content-Type" "application/json" ;;
                WriteHeader StatusCreated ;;
                Encode (StartJobApiResponse id)
            | Panicked => ret tt
            end) (set_mutex false s1)).
  { rewrite (startJob_validated E r req Hrole Hval).
    unfold serve, exec. unfold bind at 1 2 3. unfold Lock, Unlock, modify.
    cbv beta iota. rewrite Hlocked. reflexivity. }
  rewrite Hrun. clear Hrun. rewrite !exec_bind.
  pose proof (keepsServer_addTags E id (Tags (meta_Base req)) (set_mutex false s1))
    as (Hrw2 & _).
  pose proof (keepsJobs_addTags E id (Tags (meta_Base req)) (set_mutex false s1))
    as Hjobs.
  pose proof (extendsTrace_addTags E id (Tags (meta_Base req)) (set_mutex false s1))
    as [calls Htrace].
  fold (exec (addTags E id (Tags (meta_Base req))) (set_mutex false s1)) in *.
  set (s2 := exec (addTags E id (Tags (meta_Base req))) (set_mutex false s1)) in *.
  assert (Hnew : rw s2 = emptyRW) by (rewrite Hrw2; exact Hrw).
  pose proof (addTags_panics E id (Tags (meta_Base req)) (set_mutex false s1))
    as Hpanic.
  fold s2 in Hpanic.
  destruct (eval (addTags E id (Tags (meta_Base req))) (set_mutex false s1))
    as [[]|err|].
  - split; [exact Hjobs|]. split; [exists calls; exact Htrace|].
    left.
    unfold exec, bind, HeaderAdd, WriteHeader, Encode, Write, onRW, modify, bind.
    cbn. rewrite Hnew. cbn. split; reflexivity.
  - split; [exact Hjobs|]. split; [exists calls; exact Htrace|].
    right. left. exists err.
    unfold exec, bind, httpError, handleError, HeaderSet, HeaderAdd, WriteHeader,
      Write, Encode, Write, onRW, modify, bind. cbn. rewrite Hnew. cbn.
    split; reflexivity.
  - split; [exact Hjobs|]. split; [exists calls; exact Htrace|].
    right. right. destruct (Hpanic eq_refl) as [Hnil Hlast].
    split; [exact Hnil|]. split; [exact Hnew | exact Hlast].
Qed.

(** The locked part of [startJob] when the duplicate check passes and
    [Start] inserts the job. *)
Lemma startJobLocked_inserts
  (E : Env) (req : JobMeta) (d d1 : DB) (jobs : list Job)
  (ferr : option error) (id : Z) :
  FindAll E (JobID (meta_Base req)) (Cluster (meta_Base req)) None d = (jobs, ferr) ->
  ferr = Some ErrNoRows
  \/ (ferr = None /\ findDuplicate (meta_StartTime req) jobs = None) ->
  Start E req d = (inr id, d1) ->
  startJobLocked E req (set_mutex true (initial d))
  = (Some id,
     mkSt d1 emptyRW
          [CallFindAll (JobID (meta_Base req)) (Cluster (meta_Base req));
           CallStart req] 0 [] true).
Proof.
  intros Hfind Hpass Hstart.
  unfold startJobLocked. unfold bind, query, update, call, modify, bind. simpl.
  rewrite Hfind.
  destruct Hpass as [-> | [-> Hdup]]; simpl; [|rewrite Hdup; simpl];
    rewrite Hstart; reflexivity.
Qed.



(** A start request whose second tag is a JSON null, over a store on which
    nothing fails: the job is inserted, the first tag is added, and the
    handler panics with nothing written and the mutex released. *)
Lemma startJob_null_tag_panics :
  let req := mkJobMeta None
               (set_Tags fritzBase [Some (mkTag 0 "Debug" "Testjob"); None])
               1649723812 [] in
  let E := Model.env (Model.quiet (inr req) Model.noBody) in
  let s' := serve (startJob E anonymous) (mkDB [] [] []) in
  map ID (job (db s')) = [1]
  /\ rw s' = emptyRW
  /\ last (trace s') RuntimePanic = RuntimePanic
  /\ existsb isStart (trace s') = true
  /\ jobtag (db s') = [(1, 1)]
  /\ RepositoryMutex s' = false.
Proof. cbv zeta. repeat split. Qed.

(** X16.  An error of [FindAll]: when it is [sql.ErrNoRows] the duplicate
    check is skipped and [Start] is called, whatever jobs came with the
    error; any other error is answered with 500, [Start] is not called and
    the tables are as before. *)
Theorem startJob_on_a_failed_duplicate_query
  (E : Env) (r : Request) (req : JobMeta) (d : DB) (jobs : list Job) (err : error) :
  missingRole E r = false ->
  validated E r = Some req ->
  FindAll E (JobID (meta_Base req)) (Cluster (meta_Base req)) None d
  = (jobs, Some err) ->
  let s' := serve (startJob E r) d in
  let findAll := CallFindAll (JobID (meta_Base req)) (Cluster (meta_Base req)) in
  match err with
  | ErrNoRows => exists calls, trace s' = findAll :: CallStart req :: calls
  | NewError _ =>
      status (rw s') = Some StatusInternalServerError
      /\ body (rw s')
         = errorBody StatusInternalServerError
             (Errorf_w "checking for duplicate failed: " err)
      /\ trace s' = [findAll]
      /\ db s' = d
  end.
Proof.
  intros Hrole Hval Hfind. cbv zeta.
  destruct err as [|msg].
  - destruct (Start E req d) as [[serr|id] d1] eqn:Hstart.
    + rewrite (startJob_validated E r req Hrole Hval).
      unfold serve, exec, Lock, Unlock, startJobLocked.
      unfold bind, query, update, call, modify, bind. simpl.
      rewrite Hfind. simpl. rewrite Hstart. simpl. exists []. reflexivity.
    + pose proof (startJobLocked_inserts E req d d1 jobs (Some ErrNoRows) id
                    Hfind (or_introl eq_refl) Hstart) as Hlocked.
      destruct (startJob_after_insert E r req d id _ Hrole Hval Hlocked eq_refl)
        as (_ & Htrace & _).
      exact Htrace.
  - rewrite (startJob_validated E r req Hrole Hval).
    unfold serve, exec, Lock, Unlock, startJobLocked.
    unfold bind, query, update, call, modify, bind. simpl.
    rewrite Hfind. simpl. repeat split.
Qed.

Lemma startJob_on_a_failed_duplicate_query_witness :
  let E := Model.env (Model.mkScenario (inr (startRequest 1649723900)) Model.noBody
                        (inr [])
                        (fun c => if isFindAll c
                                  then Some (NewError "database is locked") else None)
                        []) in
  let s' := serve (startJob E anonymous) fritzDB in
  status (rw s') = Some StatusInternalServerError
  /\ trace s' = [CallFindAll 123000 "fritz"]
  /\ db s' = fritzDB.
Proof.
  cbv zeta.
  match goal with
  | |- status (rw (serve (startJob ?E ?r) ?d)) = _ /\ _ =>
      pose proof (startJob_on_a_failed_duplicate_query E r
                    (startRequest 1649723900) d [] (NewError "database is locked")
                    eq_refl eq_refl eq_refl) as H
  end.
  cbv zeta in H. destruct H as (Hst & _ & Htr & Hdb).
  split; [exact Hst|]. split; [exact Htr | exact Hdb].
Defined.

(** *** More on stopping and archiving *)

(** The goroutine's effect on the server state outside the tables. *)
Lemma archiveGoroutine_frame (E : Env) (job : Job) (s : St) :
  let s' := exec (archiveGoroutine E job) s in
  rw s' = rw s
  /\ OngoingArchivings s' = OngoingArchivings s - 1
  /\ goroutines s' = goroutines s
  /\ RepositoryMutex s' = RepositoryMutex s.
Proof.
  cbv zeta. unfold exec, archiveGoroutine, WaitGroupDone.
  unfold bind, query, update, extern, call, modify, bind, ret. simpl.
  destruct (FetchMetadata E job (db s)) as [j [ferr|]]; simpl.
  - destruct (UpdateMonitoringStatus E (ID j) MonitoringStatusArchivingFailed (db s))
      as [r d']; simpl.
    do 3 (split; [reflexivity|]). reflexivity.
  - destruct (ArchiveJob E j) as [aerr|jobMeta]; simpl.
    + destruct (UpdateMonitoringStatus E (ID j) MonitoringStatusArchivingFailed (db s))
        as [r d']; simpl.
      do 3 (split; [reflexivity|]). reflexivity.
    + destruct (Archive E (ID j) MonitoringStatusArchivingSuccessful
                        (meta_Statistics jobMeta) (db s)) as [r d']; simpl.
      do 3 (split; [reflexivity|]). reflexivity.
Qed.

(** X17.  The archiving goroutine never touches the response, the mutex or
    the queue of goroutines, and on every path it takes exactly one off the
    counter of outstanding archivings, as the last thing it does; it starts
    no further goroutine and adds nothing to the counter. *)
Theorem archiveGoroutine_signals_done_once (E : Env) (job : Job) (s : St) :
  let s' := exec (archiveGoroutine E job) s in
  rw s' = rw s
  /\ OngoingArchivings s' = OngoingArchivings s - 1
  /\ goroutines s' = goroutines s
  /\ RepositoryMutex s' = RepositoryMutex s
  /\ exists calls, trace s' = trace s ++ calls ++ [CallWaitGroupDone]
                   /\ existsb isWaitGroupAdd calls = false
                   /\ existsb isGo calls = false.
Proof.
  cbv zeta.
  destruct (archiveGoroutine_frame E job s) as (Hrw & Hcnt & Hgo & Hmu).
  do 4 (split; [assumption|]).
  pose proof (archiveGoroutine_run E job s) as Hrun. cbv zeta in Hrun.
  destruct (snd (FetchMetadata E job (db s))) as [ferr|].
  - destruct Hrun as [Ht _]. eexists. rewrite Ht. split; [|split].
    + change [CallFetchMetadata job;
              CallUpdateMonitoringStatus (ID (fst (FetchMetadata E job (db s))))
                                         MonitoringStatusArchivingFailed;
              CallWaitGroupDone]
        with ([CallFetchMetadata job;
               CallUpdateMonitoringStatus (ID (fst (FetchMetadata E job (db s))))
                                          MonitoringStatusArchivingFailed]
              ++ [CallWaitGroupDone]).
      reflexivity.
    + reflexivity.
    + reflexivity.
  - destruct (ArchiveJob E (fst (FetchMetadata E job (db s)))) as [aerr|jobMeta];
      destruct Hrun as [Ht _]; rewrite Ht.
    + exists [CallFetchMetadata job;
              CallArchiveJob (fst (FetchMetadata E job (db s)));
              CallUpdateMonitoringStatus (ID (fst (FetchMetadata E job (db s))))
                                         MonitoringStatusArchivingFailed].
      repeat split.
    + exists [CallFetchMetadata job;
              CallArchiveJob (fst (FetchMetadata E job (db s)));
              CallArchive (ID (fst (FetchMetadata E job (db s))))
                          MonitoringStatusArchivingSuccessful
                          (meta_Statistics jobMeta)].
      repeat split.
Qed.

Lemma runGoroutines_one (E : Env) (j : Job) (s : St) :
  goroutines s = [j] ->
  exec (runGoroutines E) s = exec (archiveGoroutine E j) (set_goroutines [] s).
Proof.
  intros H. unfold runGoroutines, exec at 1. cbn [snd]. rewrite H. reflexivity.
Qed.

(** X18.  A stop answered with 200, followed by the goroutines it started:
    the response is the one sent before the archiving began, whatever the
    archiving runs into; no goroutine is left, and the counter of
    outstanding archivings is back where it was. *)
Theorem stop_then_archiving_is_balanced
  (E : Env) (j : Job) (req : StopJobApiRequest) (d : DB) :
  let s1 := serve (checkAndHandleStopJob E (Some j) req) d in
  status (rw s1) = Some StatusOK ->
  let s' := exec (runGoroutines E) s1 in
  rw s' = rw s1
  /\ body (rw s') = [JSON (JobView (stoppedJob j req))]
  /\ goroutines s' = []
  /\ OngoingArchivings s' = OngoingArchivings (initial d).
Proof.
  cbv zeta. intros Hok.
  destruct (stop_ok_inv E j req d Hok) as [Hacc Hstop].
  pose proof (stop_accepted_run E j req d Hacc) as Hrun.
  destruct (Stop E (ID j) (stoppedDuration j req) (finalState req)
                 (MonitoringStatusOf (Base j)) d) as [[err|] d'];
    cbn [fst snd] in Hstop, Hrun.
  - discriminate Hstop.
  - destruct (MonitoringStatus_eqb (MonitoringStatusOf (Base j))
                                   MonitoringStatusDisabled);
      rewrite Hrun.
    + repeat split.
    + rewrite runGoroutines_one with (j := stoppedJob j req) by reflexivity.
      pose proof (archiveGoroutine_frame E (stoppedJob j req)
                    (set_goroutines []
                       (mkSt d' (mkRW okHeader (Some StatusOK)
                                      [JSON (JobView (stoppedJob j req))])
                             [stopCall j req; CallWaitGroupAdd 1;
                              CallGo (stoppedJob j req)]
                             1 [stoppedJob j req] false))) as H.
      cbv zeta in H. destruct H as (Hrw & Hcnt & Hgo & _).
      rewrite Hrw, Hcnt, Hgo. repeat split.
Qed.

(** The archiver failing after the response was sent. *)
Lemma stop_then_archiving_is_balanced_witness :
  let s1 := serve (checkAndHandleStopJob archiverDown (Some fritzJob)
                     (stopRequest 1649727412 "completed")) fritzDB in
  let s' := exec (runGoroutines archiverDown) s1 in
  rw s' = rw s1
  /\ status (rw s') = Some StatusOK
  /\ goroutines s' = []
  /\ OngoingArchivings s' = 0.
Proof.
  cbv zeta.
  destruct (stop_then_archiving_is_balanced archiverDown fritzJob
              (stopRequest 1649727412 "completed") fritzDB eq_refl)
    as (Hrw & _ & Hgo & Hcnt).
  split; [exact Hrw|]. split; [reflexivity|]. split; [exact Hgo | exact Hcnt].
Defined.

Lemma stopAccepted_intro (E : Env) (j : Job) (req : StopJobApiRequest) :
  StartTime j < req_StopTime req ->
  State (Base j) = JobStateRunning ->
  req_State req = EmptyString \/ Valid E (req_State req) = true ->
  stopAccepted E j req = true.
Proof.
  intros Hlt Hrun Hvalid. unfold stopAccepted.
  replace (StartTime j >=? req_StopTime req) with false
    by (symmetry; rewrite Z.geb_leb; apply Z.leb_gt; lia).
  rewrite Hrun. simpl.
  destruct Hvalid as [-> | ->]; [reflexivity|].
  destruct (String.eqb (req_State req) EmptyString); reflexivity.
Qed.

(** X19.  A stop that passes the checks but whose [Stop] fails in the store
    is answered with 500 and the store's error; the job is not handed to
    the archiver: no goroutine is started and the wait group is not added
    to. *)
Theorem stop_store_failure_starts_no_archiving
  (E : Env) (j : Job) (req : StopJobApiRequest) (d d' : DB) (err : error) :
  StartTime j < req_StopTime req ->
  State (Base j) = JobStateRunning ->
  req_State req = EmptyString \/ Valid E (req_State req) = true ->
  Stop E (ID j) (stoppedDuration j req) (finalState req)
       (MonitoringStatusOf (Base j)) d = (Some err, d') ->
  let s' := exec (runGoroutines E) (serve (checkAndHandleStopJob E (Some j) req) d) in
  status (rw s') = Some StatusInternalServerError
  /\ body (rw s')
     = errorBody StatusInternalServerError
         (Errorf_w "marking job as stopped failed: " err)
  /\ trace s' = [stopCall j req]
  /\ OngoingArchivings s' = 0
  /\ db s' = d'.
Proof.
  intros Hlt Hrun Hvalid Hstop. cbv zeta.
  rewrite (stop_accepted_run E j req d (stopAccepted_intro E j req Hlt Hrun Hvalid)).
  rewrite Hstop. repeat split.
Qed.

Lemma stop_store_failure_starts_no_archiving_witness :
  let s' := exec (runGoroutines storeDown)
                 (serve (checkAndHandleStopJob storeDown (Some fritzJob)
                           (stopRequest 1649727412 "completed")) fritzDB) in
  status (rw s') = Some StatusInternalServerError
  /\ trace s' = [stopCall fritzJob (stopRequest 1649727412 "completed")]
  /\ db s' = fritzDB.
Proof.
  cbv zeta.
  destruct (stop_store_failure_starts_no_archiving storeDown fritzJob
              (stopRequest 1649727412 "completed") fritzDB fritzDB
              (NewError "database is locked"))
    as (Hst & _ & Htr & _ & Hdb).
  - simpl. lia.
  - reflexivity.
  - right. reflexivity.
  - reflexivity.
  - split; [exact Hst|]. split; [exact Htr | exact Hdb].
Defined.

(** X20.  A stop of a running job with a later stop time that asks for a
    state that is neither empty nor valid is answered with 400 naming the
    state as [%#v] prints it: between double quotes, with a double quote, a
    backslash or a control character in it escaped.  [Stop] is not called
    and the tables are as before.  Stated for states of ASCII characters. *)
Theorem stop_with_invalid_state_rejected
  (E : Env) (j : Job) (req : StopJobApiRequest) (d : DB) :
  StartTime j < req_StopTime req ->
  State (Base j) = JobStateRunning ->
  req_State req <> EmptyString ->
  isASCII (req_State req) = true ->
  Valid E (req_State req) = false ->
  let s' := serve (checkAndHandleStopJob E (Some j) req) d in
  status (rw s') = Some StatusBadRequest
  /\ body (rw s')
     = errorBody StatusBadRequest
         (NewError ("invalid job state: " +++ fmt_sharp_v (req_State req)))
  /\ trace s' = []
  /\ db s' = d.
Proof.
  intros Hlt Hrun Hne _ Hinv. cbv zeta.
  unfold serve, exec, checkAndHandleStopJob.
  replace (StartTime j >=? req_StopTime req) with false
    by (symmetry; rewrite Z.geb_leb; apply Z.leb_gt; lia).
  rewrite Hrun, Hinv.
  replace (String.eqb (req_State req) EmptyString) with false
    by (symmetry; apply String.eqb_neq; exact Hne).
  repeat split.
Qed.

(** A state with a double quote in it: the quote is sent behind a
    backslash. *)
Lemma stop_with_invalid_state_rejected_witness :
  let state := "do" +++ quote +++ "ne" in
  let s' := serve (checkAndHandleStopJob quietEnv (Some fritzJob)
                     (stopRequest 1649727412 state)) fritzDB in
  status (rw s') = Some StatusBadRequest
  /\ body (rw s')
     = errorBody StatusBadRequest
         (NewError ("invalid job state: "
                    +++ quote +++ "do" +++ backslash +++ quote +++ "ne" +++ quote))
  /\ trace s' = []
  /\ db s' = fritzDB.
Proof.
  apply (stop_with_invalid_state_rejected quietEnv fritzJob
           (stopRequest 1649727412 ("do" +++ quote +++ "ne")) fritzDB).
  - simpl. lia.
  - reflexivity.
  - discriminate.
  - reflexivity.
  - reflexivity.
Defined.

(** *** Deleting one job *)

(** X21.  [deleteJobById] hands the parsed integer to the store and, when
    the store reports no error, answers 200 with a message that repeats the
    path variable as it was written, sign and leading zeros included. *)
Theorem deleteJobById_reports_the_id_as_written
  (E : Env) (r : Request) (text : string) (id : Z) (d d' : DB) :
  missingRole E r = false ->
  lookup "id" (Vars r) = Some text ->
  ParseInt text = inr id ->
  DeleteJobById E id d = (None, d') ->
  let s' := serve (deleteJobById E r) d in
  status (rw s') = Some StatusOK
  /\ body (rw s')
     = [JSON (DeleteJobApiResponse ("Successfully deleted job " +++ text))]
  /\ trace s' = [CallDeleteJobById id]
  /\ db s' = d'.
Proof.
  intros Hrole Hid Hparse Hdel. cbv zeta.
  unfold serve, exec, deleteJobById. rewrite Hrole, Hid, Hparse.
  unfold bind, query, update, call, modify, bind. simpl. rewrite Hdel.
  repeat split.
Qed.

Lemma deleteJobById_reports_the_id_as_written_witness :
  let s' := serve (deleteJobById quietEnv (mkRequest None [("id", "+01")] [] EmptyString))
                  (mkDB [fritzJob; olderJob] [] []) in
  status (rw s') = Some StatusOK
  /\ body (rw s') = [JSON (DeleteJobApiResponse "Successfully deleted job +01")]
  /\ trace s' = [CallDeleteJobById 1]
  /\ db s' = mkDB [olderJob] [] [].
Proof.
  apply (deleteJobById_reports_the_id_as_written quietEnv
           (mkRequest None [("id", "+01")] [] EmptyString) "+01" 1
           (mkDB [fritzJob; olderJob] [] []) (mkDB [olderJob] [] []));
    reflexivity.
Defined.

(** X22.  [deleteJobById] reaches the store at most once: either no call is
    made, the tables are as before and the answer is 403 or 400, or the one
    call is [DeleteJobById] with the integer parsed from the path, the
    tables are what that call leaves, and the answer is 200 or, when the
    call reports an error, 422. *)
Theorem deleteJobById_calls_the_store_at_most_once
  (E : Env) (r : Request) (d : DB) :
  let s' := serve (deleteJobById E r) d in
  (trace s' = [] /\ db s' = d
   /\ (status (rw s') = Some StatusForbidden \/ status (rw s') = Some StatusBadRequest))
  \/ (exists text id,
        lookup "id" (Vars r) = Some text
        /\ ParseInt text = inr id
        /\ trace s' = [CallDeleteJobById id]
        /\ db s' = snd (DeleteJobById E id d)
        /\ status (rw s')
           = Some (match fst (DeleteJobById E id d) with
                   | None => StatusOK
                   | Some _ => StatusUnprocessableEntity
                   end)).
Proof.
  cbv zeta. unfold serve, exec, deleteJobById.
  destruct (missingRole E r).
  { left. repeat split. left. reflexivity. }
  destruct (lookup "id" (Vars r)) as [text|].
  2:{ left. repeat split. right. reflexivity. }
  destruct (ParseInt text) as [e|id] eqn:Hparse.
  { left. repeat split. right. reflexivity. }
  right. exists text, id. split; [reflexivity|]. split; [exact Hparse|].
  unfold bind, query, update, call, modify, bind. simpl.
  destruct (DeleteJobById E id d) as [[err|] d']; repeat split.
Qed.

(** X23.  [deleteJobBefore] likewise: no call, unchanged tables and 403 or
    400, or the one call [DeleteJobsBefore] with the integer parsed from the
    path; an error of that call is answered with 422 and its text, and the
    number it returned is then not reported. *)
Theorem deleteJobBefore_calls_the_store_at_most_once
  (E : Env) (r : Request) (d : DB) :
  let s' := serve (deleteJobBefore E r) d in
  (trace s' = [] /\ db s' = d
   /\ (status (rw s') = Some StatusForbidden \/ status (rw s') = Some StatusBadRequest))
  \/ (exists text ts,
        lookup "ts" (Vars r) = Some text
        /\ ParseInt text = inr ts
        /\ trace s' = [CallDeleteJobsBefore ts]
        /\ db s' = snd (DeleteJobsBefore E ts d)
        /\ match snd (fst (DeleteJobsBefore E ts d)) with
           | None => status (rw s') = Some StatusOK
           | Some err =>
               status (rw s') = Some StatusUnprocessableEntity
               /\ body (rw s')
                  = errorBody StatusUnprocessableEntity
                      (Errorf_w "deleting jobs failed: " err)
           end).
Proof.
  cbv zeta. unfold serve, exec, deleteJobBefore.
  destruct (missingRole E r).
  { left. repeat split. left. reflexivity. }
  destruct (lookup "ts" (Vars r)) as [text|].
  2:{ left. repeat split. right. reflexivity. }
  destruct (ParseInt text) as [e|ts] eqn:Hparse.
  { left. repeat split. right. reflexivity. }
  right. exists text, ts. split; [reflexivity|]. split; [exact Hparse|].
  unfold bind, query, update, call, modify, bind. simpl.
  destruct (DeleteJobsBefore E ts d) as [[cnt [err|]] d']; repeat split.
Qed.

(** X24.  [deleteJobByRequest] answered with 200 removed the job its lookup
    by (jobId, cluster, startTime) returned, and no other: the one
    [DeleteJobById] call carries the database id of that job, and the
    message names it. *)
Theorem deleteJobByRequest_deletes_the_job_found
  (E : Env) (decodeDeleteJob : string -> error + DeleteJobApiRequest)
  (r : Request) (d : DB) :
  let s' := serve (deleteJobByRequest E decodeDeleteJob r) d in
  status (rw s') = Some StatusOK ->
  exists req jobId job,
    decodeDeleteJob (Body r) = inr req
    /\ del_JobId req = Some jobId
    /\ Find E jobId (del_Cluster req) (del_StartTime req) d = inr job
    /\ trace s' = [CallFind jobId (del_Cluster req) (del_StartTime req);
                   CallDeleteJobById (ID job)]
    /\ DeleteJobById E (ID job) d = (None, db s')
    /\ body (rw s')
       = [JSON (DeleteJobApiResponse ("Successfully deleted job " +++ fmt_d (ID job)))].
Proof.
  cbv zeta. unfold serve, exec, deleteJobByRequest.
  destruct (missingRole E r); [discriminate|].
  destruct (decodeDeleteJob (Body r)) as [err|req]; [discriminate|].
  destruct (del_JobId req) as [jobId|] eqn:Hid; [|discriminate].
  unfold bind, query, update, call, modify, bind. simpl.
  destruct (Find E jobId (del_Cluster req) (del_StartTime req) d) as [err|job] eqn:Hfind;
    [discriminate|].
  simpl.
  destruct (DeleteJobById E (ID job) d) as [[err|] d'] eqn:Hdel; [discriminate|].
  intros _. exists req, jobId, job. repeat split; assumption.
Qed.

Lemma deleteJobByRequest_deletes_the_job_found_witness :
  let dec := fun _ : string =>
               inr (mkDeleteJobApiRequest (Some 122000) (Some "fritz") None)
               : error + DeleteJobApiRequest in
  let s' := serve (deleteJobByRequest quietEnv dec anonymous)
                  (mkDB [fritzJob; olderJob] [] []) in
  status (rw s') = Some StatusOK
  /\ trace s' = [CallFind 122000 (Some "fritz") None; CallDeleteJobById 2]
  /\ db s' = mkDB [fritzJob] [] [].
Proof.
  cbv zeta.
  destruct (deleteJobByRequest_deletes_the_job_found quietEnv
              (fun _ => inr (mkDeleteJobApiRequest (Some 122000) (Some "fritz") None))
              anonymous (mkDB [fritzJob; olderJob] [] []) eq_refl)
    as (req & jobId & job & _).
  repeat split.
Defined.

(** X25.  When the lookup of [deleteJobByRequest] fails, the answer is 422
    with the lookup's error and nothing is deleted. *)
Theorem deleteJobByRequest_unknown_job_deletes_nothing
  (E : Env) (decodeDeleteJob : string -> error + DeleteJobApiRequest)
  (r : Request) (req : DeleteJobApiRequest) (jobId : Z) (err : error) (d : DB) :
  missingRole E r = false ->
  decodeDeleteJob (Body r) = inr req ->
  del_JobId req = Some jobId ->
  Find E jobId (del_Cluster req) (del_StartTime req) d = inl err ->
  let s' := serve (deleteJobByRequest E decodeDeleteJob r) d in
  status (rw s') = Some StatusUnprocessableEntity
  /\ body (rw s')
     = errorBody StatusUnprocessableEntity (Errorf_w "finding job failed: " err)
  /\ trace s' = [CallFind jobId (del_Cluster req) (del_StartTime req)]
  /\ db s' = d.
Proof.
  intros Hrole Hdec Hid Hfind. cbv zeta.
  unfold serve, exec, deleteJobByRequest. rewrite Hrole, Hdec, Hid.
  unfold bind, query, update, call, modify, bind. simpl. rewrite Hfind.
  repeat split.
Qed.

Lemma deleteJobByRequest_unknown_job_deletes_nothing_witness :
  let dec := fun _ : string =>
               inr (mkDeleteJobApiRequest (Some 999) (Some "fritz") None)
               : error + DeleteJobApiRequest in
  let s' := serve (deleteJobByRequest quietEnv dec anonymous) fritzDB in
  status (rw s') = Some StatusUnprocessableEntity
  /\ body (rw s')
     = errorBody StatusUnprocessableEntity
         (Errorf_w "finding job failed: " ErrNoRows)
  /\ trace s' = [CallFind 999 (Some "fritz") None]
  /\ db s' = fritzDB.
Proof.
  apply (deleteJobByRequest_unknown_job_deletes_nothing quietEnv
           (fun _ => inr (mkDeleteJobApiRequest (Some 999) (Some "fritz") None))
           anonymous (mkDeleteJobApiRequest (Some 999) (Some "fritz") None)
           999 ErrNoRows fritzDB); reflexivity.
Defined.

(** *** Tagging a job through the API *)

Lemma keepsDB_keepsJobs {A : Type} (m : M A) : keepsDB m -> keepsJobs m.
Proof. intros H s. rewrite (H s). reflexivity. Qed.

Lemma keepsJobs_httpError (msg : string) (code : Z) : keepsJobs (httpError msg code).
Proof. apply keepsDB_keepsJobs. auto with keepsDB. Qed.

Lemma keepsJobs_handleError (err : error) (code : Z) : keepsJobs (handleError err code).
Proof. apply keepsDB_keepsJobs. auto with keepsDB. Qed.

Lemma keepsJobs_onRW (f : ResponseWriter -> ResponseWriter) : keepsJobs (onRW f).
Proof. apply keepsDB_keepsJobs. auto with keepsDB. Qed.

#[local] Hint Resolve keepsJobs_httpError keepsJobs_handleError keepsJobs_onRW
  keepsJobs_tagLoop : keepsJobs.

(** X26.  [tagJob] writes no row of the job table, whatever the request
    and whatever the collaborators answer: it only ever adds tags and
    associations. *)
Theorem tagJob_never_changes_the_jobs (E : Env) (r : Request) (s : St) :
  job (db (exec (tagJob E r) s)) = job (db s).
Proof.
  assert (H : keepsJobs (tagJob E r)).
  { unfold tagJob, HeaderAdd, WriteHeader, Encode, Write.
    repeat first [ solve [auto with keepsJobs] | keeps_step @keepsJobs_bind ]. }
  apply H.
Qed.

(** X27.  [tagJob] on a job that [FindById] does not return: 404 with the
    lookup's error as plain text; no SQL statement has run, the tables are
    as before. *)
Theorem tagJob_unknown_job_not_found
  (E : Env) (r : Request) (iid : Z) (err : error) (d : DB) :
  missingRole E r = false ->
  ParseInt (match lookup "id" (Vars r) with Some v => v | None => EmptyString end)
  = inr iid ->
  FindById E iid d = inl err ->
  let s' := serve (tagJob E r) d in
  status (rw s') = Some StatusNotFound
  /\ body (rw s') = [Text (Error err +++ newline)]
  /\ lookup "Content-Type" (header (rw s')) = Some "text/plain; charset=utf-8"
  /\ trace s' = [CallFindById iid]
  /\ db s' = d.
Proof.
  intros Hrole Hparse Hfind. cbv zeta.
  unfold serve, exec, tagJob. rewrite Hrole, Hparse.
  unfold bind, query, call, modify, bind. simpl. rewrite Hfind.
  repeat split.
Qed.

Lemma tagJob_unknown_job_not_found_witness :
  let s' := serve (tagJob quietEnv (mkRequest None [("id", "7")] [] EmptyString))
                  fritzDB in
  status (rw s') = Some StatusNotFound
  /\ body (rw s') = [Text ("sql: no rows in result set" +++ newline)]
  /\ lookup "Content-Type" (header (rw s')) = Some "text/plain; charset=utf-8"
  /\ trace s' = [CallFindById 7]
  /\ db s' = fritzDB.
Proof.
  apply (tagJob_unknown_job_not_found quietEnv
           (mkRequest None [("id", "7")] [] EmptyString) 7 ErrNoRows fritzDB);
    reflexivity.
Defined.

(** A successful [AddTagOrCreate] leaves the pair of the job and the id it
    returned in [jobtag], and removes no pair. *)
Lemma AddTagOrCreate_links (E : Env) (jobId : Z) (ty nm : string) (s : St) :
  forall tagId s1,
    AddTagOrCreate E jobId ty nm s = ((tagId, None), s1) ->
    jobtag (db s1) = jobtag (db s) ++ [(jobId, tagId)].
Proof.
  intros tagId s1 H.
  destruct (AddTagOrCreate_run E jobId ty nm s) as (calls & _ & _ & _ & Hok).
  unfold eval, exec in Hok. rewrite H in Hok. cbn [fst snd] in Hok.
  destruct (Hok eq_refl) as (_ & _ & Hjt & _). exact Hjt.
Qed.

(** What the loop of [tagJob] returns when it runs to its end: no element
    of the request is nil, the tags added are the requested ones with the
    ids [AddTagOrCreate] returned, and every such id is linked to the job in
    [jobtag] afterwards. *)
Lemma tagLoop_result (E : Env) (id : Z) (req : list (option ApiTag)) :
  forall (added tags' : list Tag) (s : St),
    eval (tagLoop E id req added) s = Finished tags' ->
    exists tags,
      req = map Some tags
      /\ tags' = added ++ requestedTags (returnedIds E id tags s) tags
      /\ (forall p, In p (jobtag (db s)) ->
                    In p (jobtag (db (exec (tagLoop E id req added) s))))
      /\ Forall (fun i => In (id, i) (jobtag (db (exec (tagLoop E id req added) s))))
                (returnedIds E id tags s).
Proof.
  induction req as [|[t|] req IH]; intros added tags' s H.
  - exists []. split; [reflexivity|].
    unfold eval in H. simpl in H. injection H as <-.
    unfold requestedTags. simpl. rewrite app_nil_r.
    split; [reflexivity|]. split; [intros p Hp; exact Hp | constructor].
  - unfold eval in H. unfold exec. cbn [tagLoop] in *. unfold bind in *.
    cbn [returnedIds].
    destruct (AddTagOrCreate E id (apitag_Type t) (apitag_Name t) s)
      as [[tagId [err|]] s1] eqn:Hadd.
    + discriminate H.
    + pose proof (AddTagOrCreate_links E id _ _ s tagId s1 Hadd) as Hjt.
      apply IH in H. destruct H as (tags & -> & -> & Hkeep & Hall).
      unfold exec in Hkeep, Hall.
      exists (t :: tags). split; [reflexivity|].
      cbn [returnedIds]. rewrite Hadd. cbn [fst snd].
      split; [unfold requestedTags; simpl; rewrite <- app_assoc; reflexivity|].
      split.
      * intros p Hp. apply Hkeep. rewrite Hjt. apply in_or_app. left. exact Hp.
      * constructor; [|exact Hall].
        apply Hkeep. rewrite Hjt. apply in_or_app. right. left. reflexivity.
  - unfold eval in H. simpl in H. discriminate H.
Qed.

(** [tagJob] up to its loop. *)
Lemma tagJob_before_the_loop
  (E : Env) (r : Request) (iid : Z) (d : DB) :
  missingRole E r = false ->
  ParseInt (match lookup "id" (Vars r) with Some v => v | None => EmptyString end)
  = inr iid ->
  serve (tagJob E r) d
  = match FindById E iid d with
    | inl err => exec (httpError (Error err) StatusNotFound)
                      (mkSt d emptyRW [CallFindById iid] 0 [] false)
    | inr job =>
        let s2 := beforeTagLoop iid job d in
        match sqlError E (SelectTags (Some (ID job))) d with
        | Some err => exec (httpError (Error err) StatusInternalServerError) s2
        | None =>
            match decodeTagJob E (Body r) with
            | inl err => exec (httpError (Error err) StatusBadRequest) s2
            | inr req =>
                exec (a <- tagLoop E (ID job) req (selectTags (Some (ID job)) d) ;;
                      match a with
                      | Failed err => httpError (Error err) StatusInternalServerError
                      | Finished tags' =>
                          HeaderAdd "Content-Type" "application/json" ;;
                          WriteHeader StatusOK ;;
                          Encode (JobView (with_Base job
                                    (set_Tags (Base job) (map Some tags'))))
                      | Panicked => ret tt
                      end) s2
            end
        end
    end.
Proof.
  intros Hrole Hparse. unfold serve, exec, tagJob, beforeTagLoop.
  rewrite Hrole, Hparse.
  unfold bind at 1, query at 1, bind at 1, call, modify. cbn [fst snd initial db set_trace trace app rw OngoingArchivings goroutines RepositoryMutex].
  destruct (FindById E iid d) as [err|job]; [reflexivity|].
  unfold bind at 1, GetTags at 1, query at 1, bind at 1, call, modify.
  cbn [fst snd initial db set_trace trace app rw OngoingArchivings goroutines RepositoryMutex].
  destruct (sqlError E (SelectTags (Some (ID job))) d) as [err|]; [reflexivity|].
  destruct (decodeTagJob E (Body r)) as [err|req]; reflexivity.
Qed.



(** *** The stop endpoints, from the lookup to the store *)

(** [checkAndHandleStopJob] after the calls [t], once the checks have
    passed and [Stop] has reported no error. *)
Lemma stop_stored_run_from
  (E : Env) (j : Job) (req : StopJobApiRequest) (d d' : DB) (t : list Call) :
  stopAccepted E j req = true ->
  Stop E (ID j) (stoppedDuration j req) (finalState req)
       (MonitoringStatusOf (Base j)) d = (None, d') ->
  let s' := exec (checkAndHandleStopJob E (Some j) req)
                 (mkSt d emptyRW t 0 [] false) in
  rw s' = mkRW okHeader (Some StatusOK) [JSON (JobView (stoppedJob j req))]
  /\ db s' = d'
  /\ exists rest, trace s' = t ++ stopCall j req :: rest.
Proof.
  unfold stopAccepted. intros H Hstop.
  apply andb_true_iff in H. destruct H as [H1 H2].
  apply negb_true_iff in H1. apply negb_true_iff in H2.
  cbv zeta. unfold exec, checkAndHandleStopJob. rewrite H1, H2.
  unfold bind, update, call, modify, bind. simpl.
  fold (finalState req). fold (stoppedDuration j req). rewrite Hstop. simpl.
  destruct (MonitoringStatus_eqb _ _); simpl.
  - split; [reflexivity|]. split; [reflexivity|]. exists []. reflexivity.
  - split; [reflexivity|]. split; [reflexivity|].
    exists [CallWaitGroupAdd 1; CallGo (stoppedJob j req)].
    rewrite <- !app_assoc. reflexivity.
Qed.

Lemma exec_query_bind {A B : Type} (c : Call) (f : DB -> A) (k : A -> M B) (d : DB) :
  exec (x <- query c f ;; k x) (initial d)
  = exec (k (f d)) (mkSt d emptyRW [c] 0 [] false).
Proof. reflexivity. Qed.

(** X29.  Both stop endpoints hand the job their lookup returned to
    [checkAndHandleStopJob]: for a request that passes the role check and
    the checks of the stop, and whose [Stop] reports no error, the lookup is
    the first call and the [Stop] of that job, with the duration and state
    computed from it, the second; the answer is 200 with the stopped job,
    and the tables are what [Stop] left. *)
Theorem stop_endpoints_stop_the_job_found
  (E : Env) (r : Request) (req : StopJobApiRequest) (j : Job) (d d' : DB) :
  missingRole E r = false ->
  decodeStopJob E (Body r) = inr req ->
  StartTime j < req_StopTime req ->
  State (Base j) = JobStateRunning ->
  req_State req = EmptyString \/ Valid E (req_State req) = true ->
  Stop E (ID j) (stoppedDuration j req) (finalState req)
       (MonitoringStatusOf (Base j)) d = (None, d') ->
  (forall text id,
     lookup "id" (Vars r) = Some text -> ParseInt text = inr id ->
     FindById E id d = inr j ->
     let s' := serve (stopJobById E r) d in
     rw s' = mkRW okHeader (Some StatusOK) [JSON (JobView (stoppedJob j req))]
     /\ db s' = d'
     /\ exists rest, trace s' = CallFindById id :: stopCall j req :: rest)
  /\ (forall jobId,
        req_JobId req = Some jobId ->
        Find E jobId (req_Cluster req) (req_StartTime req) d = inr j ->
        let s' := serve (stopJobByRequest E r) d in
        rw s' = mkRW okHeader (Some StatusOK) [JSON (JobView (stoppedJob j req))]
        /\ db s' = d'
        /\ exists rest,
             trace s' = CallFind jobId (req_Cluster req) (req_StartTime req)
                        :: stopCall j req :: rest).
Proof.
  intros Hrole Hdec Hlt Hrun Hvalid Hstop.
  pose proof (stopAccepted_intro E j req Hlt Hrun Hvalid) as Hacc.
  split.
  - intros text id Hid Hparse Hfind. cbv zeta.
    unfold serve, stopJobById. rewrite Hrole, Hdec, Hid, Hparse.
    rewrite exec_query_bind, Hfind.
    apply (stop_stored_run_from E j req d d' [CallFindById id] Hacc Hstop).
  - intros jobId Hid Hfind. cbv zeta.
    unfold serve, stopJobByRequest. rewrite Hrole, Hdec, Hid.
    rewrite exec_query_bind, Hfind.
    apply (stop_stored_run_from E j req d d'
             [CallFind jobId (req_Cluster req) (req_StartTime req)] Hacc Hstop).
Qed.

Lemma stop_endpoints_stop_the_job_found_witness :
  let req := stopRequest 1649727412 EmptyString in
  let s' := serve (stopJobById (stopEnv req)
                     (mkRequest None [("id", "1")] [] EmptyString)) fritzDB in
  rw s' = mkRW okHeader (Some StatusOK) [JSON (JobView (stoppedJob fritzJob req))]
  /\ Duration (Base (stoppedJob fritzJob req)) = 3600
  /\ State (Base (stoppedJob fritzJob req)) = JobStateCompleted
  /\ exists rest, trace s' = CallFindById 1 :: stopCall fritzJob req :: rest.
Proof.
  cbv zeta.
  destruct (stop_endpoints_stop_the_job_found
              (stopEnv (stopRequest 1649727412 EmptyString))
              (mkRequest None [("id", "1")] [] EmptyString)
              (stopRequest 1649727412 EmptyString) fritzJob fritzDB
              (snd (Model.Stop (Model.quiet Model.noBody
                                  (inr (stopRequest 1649727412 EmptyString)))
                               1 3600 JobStateCompleted
                               MonitoringStatusRunningOrArchiving fritzDB)))
    as [Hid _].
  - reflexivity.
  - reflexivity.
  - simpl. lia.
  - reflexivity.
  - left. reflexivity.
  - reflexivity.
  - destruct (Hid "1" 1 eq_refl eq_refl eq_refl) as (Hrw & _ & Htr).
    split; [exact Hrw|]. split; [reflexivity|]. split; [reflexivity | exact Htr].
Defined.
